(** * CookiFy: the generative-AI service layer (src/services/geminiService.ts)

    A shallow embedding of the service functions and of the JavaScript
    primitives they rest on, followed by the properties of the response
    handling, of the prompt clauses, of the persona table and of the image
    fallback chain.

    Conventions.
    - A JavaScript string is a [string] holding the UTF-8 bytes of its text:
      a character above U+FFFF, two code units in JavaScript, is its four
      bytes; a surrogate without its partner, which UTF-8 has no form for,
      is the three bytes of its code point.  Searching, joining and splitting on
      ASCII separators act on the bytes as they act on the text.  The
      primitives that look at characters ([toLowerCase], [trim], [btoa],
      [encodeURIComponent], the spread of a string) decode the bytes.
    - [undefined] is [None] in an [option].
    - A JavaScript object is a finite map from property names to values.
    - Everything the service cannot decide by itself (the answers of the
      remote services, [JSON.parse], the pseudo-random generator, the canvas
      of the browser) is a field of an environment [Env]; the theorems hold
      for every environment. *)

From Stdlib Require Import String Ascii ZArith QArith List Lia.
From stdpp Require Import gmap strings list pretty.

#[local] Set Warnings "-register-all".
#[local] Open Scope string_scope.
#[local] Arguments String.append : simpl nomatch.

(** ** JavaScript string primitives *)

Module JSString.

(** The double quote character, for the texts that contain it. *)
Definition dq : string := String (ascii_of_nat 34) EmptyString.

Definition code (c : ascii) : nat := nat_of_ascii c.

Definition between (lo hi n : nat) : bool := (lo <=? n)%nat && (n <=? hi)%nat.

(** [s.includes(needle)] *)
Fixpoint includes (s needle : string) {struct s} : bool :=
  if String.prefix needle s then true
  else match s with
       | EmptyString => false
       | String _ s' => includes s' needle
       end.

(** [l.join(sep)] on an array of strings. *)
Definition join (sep : string) (l : list string) : string := String.concat sep l.

(** [l.slice(0, n)] *)
Definition slice0 {A} (n : nat) (l : list A) : list A := firstn n l.

(** *** Code points

    The text of a string, code point by code point.  A surrogate that has no
    partner is the three bytes of its code point (a surrogate pair is the
    four bytes of the character it encodes, never two such forms); a byte
    that belongs to no well-formed sequence stands for itself, as a value
    above U+10FFFF. *)

Definition byte (c : ascii) : N := N_of_ascii c.

Definition continuation (y : N) : bool := (0x80 <=? y)%N && (y <=? 0xBF)%N.

(** The lead byte [x] and the bytes after it form a sequence of two, three
    or four bytes: no overlong form, nothing above U+10FFFF. *)
Definition two (x y : N) : bool :=
  continuation y && (0xC2 <=? x)%N && (x <=? 0xDF)%N.

Definition three (x y z : N) : bool :=
  continuation y && continuation z && (0xE0 <=? x)%N && (x <=? 0xEF)%N
  && ((0xE1 <=? x)%N || (0xA0 <=? y)%N).

Definition four (x y z t : N) : bool :=
  continuation y && continuation z && continuation t && (0xF0 <=? x)%N && (x <=? 0xF4)%N
  && ((0xF1 <=? x)%N || (0x90 <=? y)%N) && ((x <=? 0xF3)%N || (y <=? 0x8F)%N).

Definition stray (x : N) : N := (0x110000 + x)%N.

Fixpoint points (s : string) : list N :=
  match s with
  | EmptyString => []
  | String a r =>
      let x := byte a in
      if (x <? 0x80)%N then x :: points r
      else
        match r with
        | String b r1 =>
            let y := byte b in
            if two x y then ((x - 0xC0) * 64 + (y - 0x80))%N :: points r1
            else
              match r1 with
              | String c r2 =>
                  let z := byte c in
                  if three x y z
                  then ((x - 0xE0) * 4096 + (y - 0x80) * 64 + (z - 0x80))%N :: points r2
                  else
                    match r2 with
                    | String d r3 =>
                        let t := byte d in
                        if four x y z t
                        then ((x - 0xF0) * 262144 + (y - 0x80) * 4096
                              + (z - 0x80) * 64 + (t - 0x80))%N :: points r3
                        else stray x :: points r
                    | EmptyString => stray x :: points r
                    end
              | EmptyString => stray x :: points r
              end
        | EmptyString => [stray x]
        end
  end.

Definition bytes (l : list N) : string :=
  fold_right (fun x s => String (ascii_of_N x) s) EmptyString l.

(** The bytes of one code point. *)
Definition utf8 (c : N) : string :=
  bytes (if (c <? 0x80)%N then [c]
         else if (c <? 0x800)%N then [0xC0 + c / 64; 0x80 + c mod 64]
         else if (c <? 0x10000)%N
              then [0xE0 + c / 4096; 0x80 + c / 64 mod 64; 0x80 + c mod 64]
         else if (c <? 0x110000)%N
              then [0xF0 + c / 262144; 0x80 + c / 4096 mod 64;
                    0x80 + c / 64 mod 64; 0x80 + c mod 64]
         else [c - 0x110000])%N.

(** The string of a list of code points. *)
Definition text (l : list N) : string :=
  fold_right (fun c s => utf8 c +:+ s) EmptyString l.

(** The code units of a code point: a character above U+FFFF is a pair of
    surrogates. *)
Definition utf16 (c : N) : list N :=
  if (0x10000 <=? c)%N && (c <? 0x110000)%N
  then [0xD800 + (c - 0x10000) / 1024; 0xDC00 + (c - 0x10000) mod 1024]%N
  else [c].

(** A code point that is a character: not a surrogate, not a stray byte. *)
Definition scalar (c : N) : bool :=
  ((c <? 0xD800)%N || (0xDFFF <? c)%N) && (c <? 0x110000)%N.

(** The string has no surrogate without its partner. *)
Definition well_formed (s : string) : bool := forallb scalar (points s).

(** *** Lower case

    [String.prototype.toLowerCase] maps the code points of the text by the
    case mappings of the Unicode Character Database that do not depend on
    the language: the lower-case mappings of UnicodeData.txt and the two of
    SpecialCasing.txt ([U+0130] becomes [U+0069 U+0307]; [U+03A3] becomes
    the final sigma [U+03C2] after a cased letter and before none).  The
    tables are those of Unicode 14.0.

    An entry [(first, last, step, target)] of [lower_runs] maps [first],
    [first + step], ... up to [last] to [target], [target + step], ... *)
Definition lower_runs : list (N * N * N * N) :=
  [
    (0x41, 0x5A, 1, 0x61); (0xC0, 0xD6, 1, 0xE0); (0xD8, 0xDE, 1, 0xF8);
    (0x100, 0x12E, 2, 0x101); (0x132, 0x136, 2, 0x133); (0x139, 0x147, 2, 0x13A);
    (0x14A, 0x176, 2, 0x14B); (0x178, 0x178, 1, 0xFF); (0x179, 0x17D, 2, 0x17A);
    (0x181, 0x181, 1, 0x253); (0x182, 0x184, 2, 0x183); (0x186, 0x186, 1, 0x254);
    (0x187, 0x187, 1, 0x188); (0x189, 0x18A, 1, 0x256); (0x18B, 0x18B, 1, 0x18C);
    (0x18E, 0x18E, 1, 0x1DD); (0x18F, 0x18F, 1, 0x259); (0x190, 0x190, 1, 0x25B);
    (0x191, 0x191, 1, 0x192); (0x193, 0x193, 1, 0x260); (0x194, 0x194, 1, 0x263);
    (0x196, 0x196, 1, 0x269); (0x197, 0x197, 1, 0x268); (0x198, 0x198, 1, 0x199);
    (0x19C, 0x19C, 1, 0x26F); (0x19D, 0x19D, 1, 0x272); (0x19F, 0x19F, 1, 0x275);
    (0x1A0, 0x1A4, 2, 0x1A1); (0x1A6, 0x1A6, 1, 0x280); (0x1A7, 0x1A7, 1, 0x1A8);
    (0x1A9, 0x1A9, 1, 0x283); (0x1AC, 0x1AC, 1, 0x1AD); (0x1AE, 0x1AE, 1, 0x288);
    (0x1AF, 0x1AF, 1, 0x1B0); (0x1B1, 0x1B2, 1, 0x28A); (0x1B3, 0x1B5, 2, 0x1B4);
    (0x1B7, 0x1B7, 1, 0x292); (0x1B8, 0x1B8, 1, 0x1B9); (0x1BC, 0x1BC, 1, 0x1BD);
    (0x1C4, 0x1C4, 1, 0x1C6); (0x1C5, 0x1C5, 1, 0x1C6); (0x1C7, 0x1C7, 1, 0x1C9);
    (0x1C8, 0x1C8, 1, 0x1C9); (0x1CA, 0x1CA, 1, 0x1CC); (0x1CB, 0x1DB, 2, 0x1CC);
    (0x1DE, 0x1EE, 2, 0x1DF); (0x1F1, 0x1F1, 1, 0x1F3); (0x1F2, 0x1F4, 2, 0x1F3);
    (0x1F6, 0x1F6, 1, 0x195); (0x1F7, 0x1F7, 1, 0x1BF); (0x1F8, 0x21E, 2, 0x1F9);
    (0x220, 0x220, 1, 0x19E); (0x222, 0x232, 2, 0x223); (0x23A, 0x23A, 1, 0x2C65);
    (0x23B, 0x23B, 1, 0x23C); (0x23D, 0x23D, 1, 0x19A); (0x23E, 0x23E, 1, 0x2C66);
    (0x241, 0x241, 1, 0x242); (0x243, 0x243, 1, 0x180); (0x244, 0x244, 1, 0x289);
    (0x245, 0x245, 1, 0x28C); (0x246, 0x24E, 2, 0x247); (0x370, 0x372, 2, 0x371);
    (0x376, 0x376, 1, 0x377); (0x37F, 0x37F, 1, 0x3F3); (0x386, 0x386, 1, 0x3AC);
    (0x388, 0x38A, 1, 0x3AD); (0x38C, 0x38C, 1, 0x3CC); (0x38E, 0x38F, 1, 0x3CD);
    (0x391, 0x3A1, 1, 0x3B1); (0x3A3, 0x3AB, 1, 0x3C3); (0x3CF, 0x3CF, 1, 0x3D7);
    (0x3D8, 0x3EE, 2, 0x3D9); (0x3F4, 0x3F4, 1, 0x3B8); (0x3F7, 0x3F7, 1, 0x3F8);
    (0x3F9, 0x3F9, 1, 0x3F2); (0x3FA, 0x3FA, 1, 0x3FB); (0x3FD, 0x3FF, 1, 0x37B);
    (0x400, 0x40F, 1, 0x450); (0x410, 0x42F, 1, 0x430); (0x460, 0x480, 2, 0x461);
    (0x48A, 0x4BE, 2, 0x48B); (0x4C0, 0x4C0, 1, 0x4CF); (0x4C1, 0x4CD, 2, 0x4C2);
    (0x4D0, 0x52E, 2, 0x4D1); (0x531, 0x556, 1, 0x561); (0x10A0, 0x10C5, 1, 0x2D00);
    (0x10C7, 0x10C7, 1, 0x2D27); (0x10CD, 0x10CD, 1, 0x2D2D); (0x13A0, 0x13EF, 1, 0xAB70);
    (0x13F0, 0x13F5, 1, 0x13F8); (0x1C90, 0x1CBA, 1, 0x10D0); (0x1CBD, 0x1CBF, 1, 0x10FD);
    (0x1E00, 0x1E94, 2, 0x1E01); (0x1E9E, 0x1E9E, 1, 0xDF); (0x1EA0, 0x1EFE, 2, 0x1EA1);
    (0x1F08, 0x1F0F, 1, 0x1F00); (0x1F18, 0x1F1D, 1, 0x1F10); (0x1F28, 0x1F2F, 1, 0x1F20);
    (0x1F38, 0x1F3F, 1, 0x1F30); (0x1F48, 0x1F4D, 1, 0x1F40); (0x1F59, 0x1F5F, 2, 0x1F51);
    (0x1F68, 0x1F6F, 1, 0x1F60); (0x1F88, 0x1F8F, 1, 0x1F80); (0x1F98, 0x1F9F, 1, 0x1F90);
    (0x1FA8, 0x1FAF, 1, 0x1FA0); (0x1FB8, 0x1FB9, 1, 0x1FB0); (0x1FBA, 0x1FBB, 1, 0x1F70);
    (0x1FBC, 0x1FBC, 1, 0x1FB3); (0x1FC8, 0x1FCB, 1, 0x1F72); (0x1FCC, 0x1FCC, 1, 0x1FC3);
    (0x1FD8, 0x1FD9, 1, 0x1FD0); (0x1FDA, 0x1FDB, 1, 0x1F76); (0x1FE8, 0x1FE9, 1, 0x1FE0);
    (0x1FEA, 0x1FEB, 1, 0x1F7A); (0x1FEC, 0x1FEC, 1, 0x1FE5); (0x1FF8, 0x1FF9, 1, 0x1F78);
    (0x1FFA, 0x1FFB, 1, 0x1F7C); (0x1FFC, 0x1FFC, 1, 0x1FF3); (0x2126, 0x2126, 1, 0x3C9);
    (0x212A, 0x212A, 1, 0x6B); (0x212B, 0x212B, 1, 0xE5); (0x2132, 0x2132, 1, 0x214E);
    (0x2160, 0x216F, 1, 0x2170); (0x2183, 0x2183, 1, 0x2184); (0x24B6, 0x24CF, 1, 0x24D0);
    (0x2C00, 0x2C2F, 1, 0x2C30); (0x2C60, 0x2C60, 1, 0x2C61); (0x2C62, 0x2C62, 1, 0x26B);
    (0x2C63, 0x2C63, 1, 0x1D7D); (0x2C64, 0x2C64, 1, 0x27D); (0x2C67, 0x2C6B, 2, 0x2C68);
    (0x2C6D, 0x2C6D, 1, 0x251); (0x2C6E, 0x2C6E, 1, 0x271); (0x2C6F, 0x2C6F, 1, 0x250);
    (0x2C70, 0x2C70, 1, 0x252); (0x2C72, 0x2C72, 1, 0x2C73); (0x2C75, 0x2C75, 1, 0x2C76);
    (0x2C7E, 0x2C7F, 1, 0x23F); (0x2C80, 0x2CE2, 2, 0x2C81); (0x2CEB, 0x2CED, 2, 0x2CEC);
    (0x2CF2, 0x2CF2, 1, 0x2CF3); (0xA640, 0xA66C, 2, 0xA641); (0xA680, 0xA69A, 2, 0xA681);
    (0xA722, 0xA72E, 2, 0xA723); (0xA732, 0xA76E, 2, 0xA733); (0xA779, 0xA77B, 2, 0xA77A);
    (0xA77D, 0xA77D, 1, 0x1D79); (0xA77E, 0xA786, 2, 0xA77F); (0xA78B, 0xA78B, 1, 0xA78C);
    (0xA78D, 0xA78D, 1, 0x265); (0xA790, 0xA792, 2, 0xA791); (0xA796, 0xA7A8, 2, 0xA797);
    (0xA7AA, 0xA7AA, 1, 0x266); (0xA7AB, 0xA7AB, 1, 0x25C); (0xA7AC, 0xA7AC, 1, 0x261);
    (0xA7AD, 0xA7AD, 1, 0x26C); (0xA7AE, 0xA7AE, 1, 0x26A); (0xA7B0, 0xA7B0, 1, 0x29E);
    (0xA7B1, 0xA7B1, 1, 0x287); (0xA7B2, 0xA7B2, 1, 0x29D); (0xA7B3, 0xA7B3, 1, 0xAB53);
    (0xA7B4, 0xA7C2, 2, 0xA7B5); (0xA7C4, 0xA7C4, 1, 0xA794); (0xA7C5, 0xA7C5, 1, 0x282);
    (0xA7C6, 0xA7C6, 1, 0x1D8E); (0xA7C7, 0xA7C9, 2, 0xA7C8); (0xA7D0, 0xA7D0, 1, 0xA7D1);
    (0xA7D6, 0xA7D8, 2, 0xA7D7); (0xA7F5, 0xA7F5, 1, 0xA7F6); (0xFF21, 0xFF3A, 1, 0xFF41);
    (0x10400, 0x10427, 1, 0x10428); (0x104B0, 0x104D3, 1, 0x104D8);
    (0x10570, 0x1057A, 1, 0x10597); (0x1057C, 0x1058A, 1, 0x105A3);
    (0x1058C, 0x10592, 1, 0x105B3); (0x10594, 0x10595, 1, 0x105BB);
    (0x10C80, 0x10CB2, 1, 0x10CC0); (0x118A0, 0x118BF, 1, 0x118C0);
    (0x16E40, 0x16E5F, 1, 0x16E60); (0x1E900, 0x1E921, 1, 0x1E922)
  ]%N.

(** The code points with the property Case_Ignorable. *)
Definition case_ignorable_ranges : list (N * N) :=
  [
    (0x27, 0x27); (0x2E, 0x2E); (0x3A, 0x3A); (0x5E, 0x5E); (0x60, 0x60); (0xA8, 0xA8);
    (0xAD, 0xAD); (0xAF, 0xAF); (0xB4, 0xB4); (0xB7, 0xB8); (0x2B0, 0x36F); (0x374, 0x375);
    (0x37A, 0x37A); (0x384, 0x385); (0x387, 0x387); (0x483, 0x489); (0x559, 0x559);
    (0x55F, 0x55F); (0x591, 0x5BD); (0x5BF, 0x5BF); (0x5C1, 0x5C2); (0x5C4, 0x5C5);
    (0x5C7, 0x5C7); (0x5F4, 0x5F4); (0x600, 0x605); (0x610, 0x61A); (0x61C, 0x61C);
    (0x640, 0x640); (0x64B, 0x65F); (0x670, 0x670); (0x6D6, 0x6DD); (0x6DF, 0x6E8);
    (0x6EA, 0x6ED); (0x70F, 0x70F); (0x711, 0x711); (0x730, 0x74A); (0x7A6, 0x7B0);
    (0x7EB, 0x7F5); (0x7FA, 0x7FA); (0x7FD, 0x7FD); (0x816, 0x82D); (0x859, 0x85B);
    (0x888, 0x888); (0x890, 0x891); (0x898, 0x89F); (0x8C9, 0x902); (0x93A, 0x93A);
    (0x93C, 0x93C); (0x941, 0x948); (0x94D, 0x94D); (0x951, 0x957); (0x962, 0x963);
    (0x971, 0x971); (0x981, 0x981); (0x9BC, 0x9BC); (0x9C1, 0x9C4); (0x9CD, 0x9CD);
    (0x9E2, 0x9E3); (0x9FE, 0x9FE); (0xA01, 0xA02); (0xA3C, 0xA3C); (0xA41, 0xA42);
    (0xA47, 0xA48); (0xA4B, 0xA4D); (0xA51, 0xA51); (0xA70, 0xA71); (0xA75, 0xA75);
    (0xA81, 0xA82); (0xABC, 0xABC); (0xAC1, 0xAC5); (0xAC7, 0xAC8); (0xACD, 0xACD);
    (0xAE2, 0xAE3); (0xAFA, 0xAFF); (0xB01, 0xB01); (0xB3C, 0xB3C); (0xB3F, 0xB3F);
    (0xB41, 0xB44); (0xB4D, 0xB4D); (0xB55, 0xB56); (0xB62, 0xB63); (0xB82, 0xB82);
    (0xBC0, 0xBC0); (0xBCD, 0xBCD); (0xC00, 0xC00); (0xC04, 0xC04); (0xC3C, 0xC3C);
    (0xC3E, 0xC40); (0xC46, 0xC48); (0xC4A, 0xC4D); (0xC55, 0xC56); (0xC62, 0xC63);
    (0xC81, 0xC81); (0xCBC, 0xCBC); (0xCBF, 0xCBF); (0xCC6, 0xCC6); (0xCCC, 0xCCD);
    (0xCE2, 0xCE3); (0xD00, 0xD01); (0xD3B, 0xD3C); (0xD41, 0xD44); (0xD4D, 0xD4D);
    (0xD62, 0xD63); (0xD81, 0xD81); (0xDCA, 0xDCA); (0xDD2, 0xDD4); (0xDD6, 0xDD6);
    (0xE31, 0xE31); (0xE34, 0xE3A); (0xE46, 0xE4E); (0xEB1, 0xEB1); (0xEB4, 0xEBC);
    (0xEC6, 0xEC6); (0xEC8, 0xECD); (0xF18, 0xF19); (0xF35, 0xF35); (0xF37, 0xF37);
    (0xF39, 0xF39); (0xF71, 0xF7E); (0xF80, 0xF84); (0xF86, 0xF87); (0xF8D, 0xF97);
    (0xF99, 0xFBC); (0xFC6, 0xFC6); (0x102D, 0x1030); (0x1032, 0x1037); (0x1039, 0x103A);
    (0x103D, 0x103E); (0x1058, 0x1059); (0x105E, 0x1060); (0x1071, 0x1074); (0x1082, 0x1082);
    (0x1085, 0x1086); (0x108D, 0x108D); (0x109D, 0x109D); (0x10FC, 0x10FC); (0x135D, 0x135F);
    (0x1712, 0x1714); (0x1732, 0x1733); (0x1752, 0x1753); (0x1772, 0x1773); (0x17B4, 0x17B5);
    (0x17B7, 0x17BD); (0x17C6, 0x17C6); (0x17C9, 0x17D3); (0x17D7, 0x17D7); (0x17DD, 0x17DD);
    (0x180B, 0x180F); (0x1843, 0x1843); (0x1885, 0x1886); (0x18A9, 0x18A9); (0x1920, 0x1922);
    (0x1927, 0x1928); (0x1932, 0x1932); (0x1939, 0x193B); (0x1A17, 0x1A18); (0x1A1B, 0x1A1B);
    (0x1A56, 0x1A56); (0x1A58, 0x1A5E); (0x1A60, 0x1A60); (0x1A62, 0x1A62); (0x1A65, 0x1A6C);
    (0x1A73, 0x1A7C); (0x1A7F, 0x1A7F); (0x1AA7, 0x1AA7); (0x1AB0, 0x1ACE); (0x1B00, 0x1B03);
    (0x1B34, 0x1B34); (0x1B36, 0x1B3A); (0x1B3C, 0x1B3C); (0x1B42, 0x1B42); (0x1B6B, 0x1B73);
    (0x1B80, 0x1B81); (0x1BA2, 0x1BA5); (0x1BA8, 0x1BA9); (0x1BAB, 0x1BAD); (0x1BE6, 0x1BE6);
    (0x1BE8, 0x1BE9); (0x1BED, 0x1BED); (0x1BEF, 0x1BF1); (0x1C2C, 0x1C33); (0x1C36, 0x1C37);
    (0x1C78, 0x1C7D); (0x1CD0, 0x1CD2); (0x1CD4, 0x1CE0); (0x1CE2, 0x1CE8); (0x1CED, 0x1CED);
    (0x1CF4, 0x1CF4); (0x1CF8, 0x1CF9); (0x1D2C, 0x1D6A); (0x1D78, 0x1D78); (0x1D9B, 0x1DFF);
    (0x1FBD, 0x1FBD); (0x1FBF, 0x1FC1); (0x1FCD, 0x1FCF); (0x1FDD, 0x1FDF); (0x1FED, 0x1FEF);
    (0x1FFD, 0x1FFE); (0x200B, 0x200F); (0x2018, 0x2019); (0x2024, 0x2024); (0x2027, 0x2027);
    (0x202A, 0x202E); (0x2060, 0x2064); (0x2066, 0x206F); (0x2071, 0x2071); (0x207F, 0x207F);
    (0x2090, 0x209C); (0x20D0, 0x20F0); (0x2C7C, 0x2C7D); (0x2CEF, 0x2CF1); (0x2D6F, 0x2D6F);
    (0x2D7F, 0x2D7F); (0x2DE0, 0x2DFF); (0x2E2F, 0x2E2F); (0x3005, 0x3005); (0x302A, 0x302D);
    (0x3031, 0x3035); (0x303B, 0x303B); (0x3099, 0x309E); (0x30FC, 0x30FE); (0xA015, 0xA015);
    (0xA4F8, 0xA4FD); (0xA60C, 0xA60C); (0xA66F, 0xA672); (0xA674, 0xA67D); (0xA67F, 0xA67F);
    (0xA69C, 0xA69F); (0xA6F0, 0xA6F1); (0xA700, 0xA721); (0xA770, 0xA770); (0xA788, 0xA78A);
    (0xA7F2, 0xA7F4); (0xA7F8, 0xA7F9); (0xA802, 0xA802); (0xA806, 0xA806); (0xA80B, 0xA80B);
    (0xA825, 0xA826); (0xA82C, 0xA82C); (0xA8C4, 0xA8C5); (0xA8E0, 0xA8F1); (0xA8FF, 0xA8FF);
    (0xA926, 0xA92D); (0xA947, 0xA951); (0xA980, 0xA982); (0xA9B3, 0xA9B3); (0xA9B6, 0xA9B9);
    (0xA9BC, 0xA9BD); (0xA9CF, 0xA9CF); (0xA9E5, 0xA9E6); (0xAA29, 0xAA2E); (0xAA31, 0xAA32);
    (0xAA35, 0xAA36); (0xAA43, 0xAA43); (0xAA4C, 0xAA4C); (0xAA70, 0xAA70); (0xAA7C, 0xAA7C);
    (0xAAB0, 0xAAB0); (0xAAB2, 0xAAB4); (0xAAB7, 0xAAB8); (0xAABE, 0xAABF); (0xAAC1, 0xAAC1);
    (0xAADD, 0xAADD); (0xAAEC, 0xAAED); (0xAAF3, 0xAAF4); (0xAAF6, 0xAAF6); (0xAB5B, 0xAB5F);
    (0xAB69, 0xAB6B); (0xABE5, 0xABE5); (0xABE8, 0xABE8); (0xABED, 0xABED); (0xFB1E, 0xFB1E);
    (0xFBB2, 0xFBC2); (0xFE00, 0xFE0F); (0xFE13, 0xFE13); (0xFE20, 0xFE2F); (0xFE52, 0xFE52);
    (0xFE55, 0xFE55); (0xFEFF, 0xFEFF); (0xFF07, 0xFF07); (0xFF0E, 0xFF0E); (0xFF1A, 0xFF1A);
    (0xFF3E, 0xFF3E); (0xFF40, 0xFF40); (0xFF70, 0xFF70); (0xFF9E, 0xFF9F); (0xFFE3, 0xFFE3);
    (0xFFF9, 0xFFFB); (0x101FD, 0x101FD); (0x102E0, 0x102E0); (0x10376, 0x1037A);
    (0x10780, 0x10785); (0x10787, 0x107B0); (0x107B2, 0x107BA); (0x10A01, 0x10A03);
    (0x10A05, 0x10A06); (0x10A0C, 0x10A0F); (0x10A38, 0x10A3A); (0x10A3F, 0x10A3F);
    (0x10AE5, 0x10AE6); (0x10D24, 0x10D27); (0x10EAB, 0x10EAC); (0x10F46, 0x10F50);
    (0x10F82, 0x10F85); (0x11001, 0x11001); (0x11038, 0x11046); (0x11070, 0x11070);
    (0x11073, 0x11074); (0x1107F, 0x11081); (0x110B3, 0x110B6); (0x110B9, 0x110BA);
    (0x110BD, 0x110BD); (0x110C2, 0x110C2); (0x110CD, 0x110CD); (0x11100, 0x11102);
    (0x11127, 0x1112B); (0x1112D, 0x11134); (0x11173, 0x11173); (0x11180, 0x11181);
    (0x111B6, 0x111BE); (0x111C9, 0x111CC); (0x111CF, 0x111CF); (0x1122F, 0x11231);
    (0x11234, 0x11234); (0x11236, 0x11237); (0x1123E, 0x1123E); (0x112DF, 0x112DF);
    (0x112E3, 0x112EA); (0x11300, 0x11301); (0x1133B, 0x1133C); (0x11340, 0x11340);
    (0x11366, 0x1136C); (0x11370, 0x11374); (0x11438, 0x1143F); (0x11442, 0x11444);
    (0x11446, 0x11446); (0x1145E, 0x1145E); (0x114B3, 0x114B8); (0x114BA, 0x114BA);
    (0x114BF, 0x114C0); (0x114C2, 0x114C3); (0x115B2, 0x115B5); (0x115BC, 0x115BD);
    (0x115BF, 0x115C0); (0x115DC, 0x115DD); (0x11633, 0x1163A); (0x1163D, 0x1163D);
    (0x1163F, 0x11640); (0x116AB, 0x116AB); (0x116AD, 0x116AD); (0x116B0, 0x116B5);
    (0x116B7, 0x116B7); (0x1171D, 0x1171F); (0x11722, 0x11725); (0x11727, 0x1172B);
    (0x1182F, 0x11837); (0x11839, 0x1183A); (0x1193B, 0x1193C); (0x1193E, 0x1193E);
    (0x11943, 0x11943); (0x119D4, 0x119D7); (0x119DA, 0x119DB); (0x119E0, 0x119E0);
    (0x11A01, 0x11A0A); (0x11A33, 0x11A38); (0x11A3B, 0x11A3E); (0x11A47, 0x11A47);
    (0x11A51, 0x11A56); (0x11A59, 0x11A5B); (0x11A8A, 0x11A96); (0x11A98, 0x11A99);
    (0x11C30, 0x11C36); (0x11C38, 0x11C3D); (0x11C3F, 0x11C3F); (0x11C92, 0x11CA7);
    (0x11CAA, 0x11CB0); (0x11CB2, 0x11CB3); (0x11CB5, 0x11CB6); (0x11D31, 0x11D36);
    (0x11D3A, 0x11D3A); (0x11D3C, 0x11D3D); (0x11D3F, 0x11D45); (0x11D47, 0x11D47);
    (0x11D90, 0x11D91); (0x11D95, 0x11D95); (0x11D97, 0x11D97); (0x11EF3, 0x11EF4);
    (0x13430, 0x13438); (0x16AF0, 0x16AF4); (0x16B30, 0x16B36); (0x16B40, 0x16B43);
    (0x16F4F, 0x16F4F); (0x16F8F, 0x16F9F); (0x16FE0, 0x16FE1); (0x16FE3, 0x16FE4);
    (0x1AFF0, 0x1AFF3); (0x1AFF5, 0x1AFFB); (0x1AFFD, 0x1AFFE); (0x1BC9D, 0x1BC9E);
    (0x1BCA0, 0x1BCA3); (0x1CF00, 0x1CF2D); (0x1CF30, 0x1CF46); (0x1D167, 0x1D169);
    (0x1D173, 0x1D182); (0x1D185, 0x1D18B); (0x1D1AA, 0x1D1AD); (0x1D242, 0x1D244);
    (0x1DA00, 0x1DA36); (0x1DA3B, 0x1DA6C); (0x1DA75, 0x1DA75); (0x1DA84, 0x1DA84);
    (0x1DA9B, 0x1DA9F); (0x1DAA1, 0x1DAAF); (0x1E000, 0x1E006); (0x1E008, 0x1E018);
    (0x1E01B, 0x1E021); (0x1E023, 0x1E024); (0x1E026, 0x1E02A); (0x1E130, 0x1E13D);
    (0x1E2AE, 0x1E2AE); (0x1E2EC, 0x1E2EF); (0x1E8D0, 0x1E8D6); (0x1E944, 0x1E94B);
    (0x1F3FB, 0x1F3FF); (0xE0001, 0xE0001); (0xE0020, 0xE007F); (0xE0100, 0xE01EF)
  ]%N.

(** The code points with the property Cased that are not Case_Ignorable. *)
Definition cased_ranges : list (N * N) :=
  [
    (0x41, 0x5A); (0x61, 0x7A); (0xAA, 0xAA); (0xB5, 0xB5); (0xBA, 0xBA); (0xC0, 0xD6);
    (0xD8, 0xF6); (0xF8, 0x1BA); (0x1BC, 0x1BF); (0x1C4, 0x293); (0x295, 0x2AF);
    (0x370, 0x373); (0x376, 0x377); (0x37B, 0x37D); (0x37F, 0x37F); (0x386, 0x386);
    (0x388, 0x38A); (0x38C, 0x38C); (0x38E, 0x3A1); (0x3A3, 0x3F5); (0x3F7, 0x481);
    (0x48A, 0x52F); (0x531, 0x556); (0x560, 0x588); (0x10A0, 0x10C5); (0x10C7, 0x10C7);
    (0x10CD, 0x10CD); (0x10D0, 0x10FA); (0x10FD, 0x10FF); (0x13A0, 0x13F5); (0x13F8, 0x13FD);
    (0x1C80, 0x1C88); (0x1C90, 0x1CBA); (0x1CBD, 0x1CBF); (0x1D00, 0x1D2B); (0x1D6B, 0x1D77);
    (0x1D79, 0x1D9A); (0x1E00, 0x1F15); (0x1F18, 0x1F1D); (0x1F20, 0x1F45); (0x1F48, 0x1F4D);
    (0x1F50, 0x1F57); (0x1F59, 0x1F59); (0x1F5B, 0x1F5B); (0x1F5D, 0x1F5D); (0x1F5F, 0x1F7D);
    (0x1F80, 0x1FB4); (0x1FB6, 0x1FBC); (0x1FBE, 0x1FBE); (0x1FC2, 0x1FC4); (0x1FC6, 0x1FCC);
    (0x1FD0, 0x1FD3); (0x1FD6, 0x1FDB); (0x1FE0, 0x1FEC); (0x1FF2, 0x1FF4); (0x1FF6, 0x1FFC);
    (0x2102, 0x2102); (0x2107, 0x2107); (0x210A, 0x2113); (0x2115, 0x2115); (0x2119, 0x211D);
    (0x2124, 0x2124); (0x2126, 0x2126); (0x2128, 0x2128); (0x212A, 0x212D); (0x212F, 0x2134);
    (0x2139, 0x2139); (0x213C, 0x213F); (0x2145, 0x2149); (0x214E, 0x214E); (0x2160, 0x217F);
    (0x2183, 0x2184); (0x24B6, 0x24E9); (0x2C00, 0x2C7B); (0x2C7E, 0x2CE4); (0x2CEB, 0x2CEE);
    (0x2CF2, 0x2CF3); (0x2D00, 0x2D25); (0x2D27, 0x2D27); (0x2D2D, 0x2D2D); (0xA640, 0xA66D);
    (0xA680, 0xA69B); (0xA722, 0xA76F); (0xA771, 0xA787); (0xA78B, 0xA78E); (0xA790, 0xA7CA);
    (0xA7D0, 0xA7D1); (0xA7D3, 0xA7D3); (0xA7D5, 0xA7D9); (0xA7F5, 0xA7F6); (0xA7FA, 0xA7FA);
    (0xAB30, 0xAB5A); (0xAB60, 0xAB68); (0xAB70, 0xABBF); (0xFB00, 0xFB06); (0xFB13, 0xFB17);
    (0xFF21, 0xFF3A); (0xFF41, 0xFF5A); (0x10400, 0x1044F); (0x104B0, 0x104D3);
    (0x104D8, 0x104FB); (0x10570, 0x1057A); (0x1057C, 0x1058A); (0x1058C, 0x10592);
    (0x10594, 0x10595); (0x10597, 0x105A1); (0x105A3, 0x105B1); (0x105B3, 0x105B9);
    (0x105BB, 0x105BC); (0x10C80, 0x10CB2); (0x10CC0, 0x10CF2); (0x118A0, 0x118DF);
    (0x16E40, 0x16E7F); (0x1D400, 0x1D454); (0x1D456, 0x1D49C); (0x1D49E, 0x1D49F);
    (0x1D4A2, 0x1D4A2); (0x1D4A5, 0x1D4A6); (0x1D4A9, 0x1D4AC); (0x1D4AE, 0x1D4B9);
    (0x1D4BB, 0x1D4BB); (0x1D4BD, 0x1D4C3); (0x1D4C5, 0x1D505); (0x1D507, 0x1D50A);
    (0x1D50D, 0x1D514); (0x1D516, 0x1D51C); (0x1D51E, 0x1D539); (0x1D53B, 0x1D53E);
    (0x1D540, 0x1D544); (0x1D546, 0x1D546); (0x1D54A, 0x1D550); (0x1D552, 0x1D6A5);
    (0x1D6A8, 0x1D6C0); (0x1D6C2, 0x1D6DA); (0x1D6DC, 0x1D6FA); (0x1D6FC, 0x1D714);
    (0x1D716, 0x1D734); (0x1D736, 0x1D74E); (0x1D750, 0x1D76E); (0x1D770, 0x1D788);
    (0x1D78A, 0x1D7A8); (0x1D7AA, 0x1D7C2); (0x1D7C4, 0x1D7CB); (0x1DF00, 0x1DF09);
    (0x1DF0B, 0x1DF1E); (0x1E900, 0x1E943); (0x1F130, 0x1F149); (0x1F150, 0x1F169);
    (0x1F170, 0x1F189)
  ]%N.


Definition in_ranges (ranges : list (N * N)) (c : N) : bool :=
  existsb (fun r => (fst r <=? c)%N && (c <=? snd r)%N) ranges.

Definition case_ignorable : N -> bool := in_ranges case_ignorable_ranges.

Definition cased : N -> bool := in_ranges cased_ranges.

Definition in_run (c : N) (run : N * N * N * N) : bool :=
  let '(first, last, step, _) := run in
  (first <=? c)%N && (c <=? last)%N && ((c - first) mod step =? 0)%N.

(** The lower case of a code point that is not the capital sigma. *)
Definition lower_point (c : N) : list N :=
  if (c =? 0x130)%N then [0x69; 0x307]%N
  else match List.find (in_run c) lower_runs with
       | Some (first, _, _, target) => [target + (c - first)]%N
       | None => [c]
       end.

(** A cased letter follows, after any number of case-ignorable characters. *)
Fixpoint cased_ahead (l : list N) : bool :=
  match l with
  | [] => false
  | c :: r => if case_ignorable c then cased_ahead r else cased c
  end.

(** [after_cased]: a cased letter comes before, with nothing but
    case-ignorable characters since. *)
Fixpoint lower_points (after_cased : bool) (l : list N) : list N :=
  match l with
  | [] => []
  | c :: r =>
      ((if (c =? 0x3A3)%N
        then [if after_cased && negb (cased_ahead r) then 0x3C2 else 0x3C3]%N
        else lower_point c)
      ++ lower_points (if case_ignorable c then after_cased else cased c) r)%list
  end.

(** [s.toLowerCase()] *)
Definition toLowerCase (s : string) : string := text (lower_points false (points s)).

(** The number of bytes of the white space character that starts [s], or 0
    when [s] does not start with white space.  White space is what
    [String.prototype.trim] removes: TAB, LF, VT, FF, CR, SPACE, U+00A0,
    U+1680, U+2000 to U+200A, U+2028, U+2029, U+202F, U+205F, U+3000 and
    U+FEFF. *)
Definition ws_width (s : string) : nat :=
  match s with
  | EmptyString => 0
  | String a r =>
      let x := code a in
      if between 9 13 x || (x =? 32)%nat then 1
      else match r with
           | String b (String c _) =>
               let y := code b in
               let z := code c in
               if (x =? 194)%nat && (y =? 160)%nat then 2
               else if (x =? 225)%nat && (y =? 154)%nat && (z =? 128)%nat then 3
               else if (x =? 226)%nat && (y =? 128)%nat
                       && (between 128 138 z || between 168 169 z || (z =? 175)%nat) then 3
               else if (x =? 226)%nat && (y =? 129)%nat && (z =? 159)%nat then 3
               else if (x =? 227)%nat && (y =? 128)%nat && (z =? 128)%nat then 3
               else if (x =? 239)%nat && (y =? 187)%nat && (z =? 191)%nat then 3
               else 0
           | String b EmptyString =>
               if (x =? 194)%nat && (code b =? 160)%nat then 2 else 0
           | EmptyString => 0
           end
  end.

Fixpoint drop (n : nat) (s : string) : string :=
  match n, s with
  | S n', String _ s' => drop n' s'
  | _, _ => s
  end.

(** [s.trimStart()], with the length of [s] as fuel: a step removes at least
    one byte. *)
Fixpoint trimStart_fuel (fuel : nat) (s : string) : string :=
  match fuel with
  | O => s
  | S fuel' =>
      match ws_width s with
      | O => s
      | w => trimStart_fuel fuel' (drop w s)
      end
  end.

Definition trimStart (s : string) : string := trimStart_fuel (String.length s) s.

(** [s] is white space only. *)
Definition blank (s : string) : bool :=
  match trimStart s with EmptyString => true | _ => false end.

(** [s.trimEnd()]: cut where only white space follows. *)
Fixpoint trimEnd (s : string) : string :=
  match s with
  | EmptyString => EmptyString
  | String c s' => if blank s then EmptyString else String c (trimEnd s')
  end.

(** [s.trim()] *)
Definition trim (s : string) : string := trimEnd (trimStart s).

(** [s.split(' ')] *)
Fixpoint split_space (s : string) : list string :=
  match s with
  | EmptyString => [EmptyString]
  | String c s' =>
      if (code c =? 32)%nat then EmptyString :: split_space s'
      else match split_space s' with
           | w :: ws => String c w :: ws
           | [] => [String c EmptyString]
           end
  end.

(** A string as a condition: the empty string is falsy. *)
Definition nonempty (s : string) : bool :=
  match s with EmptyString => false | _ => true end.

(** An optional string as a condition: [undefined] and [''] are falsy. *)
Definition truthy_str (o : option string) : bool :=
  match o with Some s => nonempty s | None => false end.

(** Number of occurrences of [needle] in [s], overlapping ones included. *)
Fixpoint occurrences (s needle : string) {struct s} : nat :=
  (if String.prefix needle s then 1 else 0) +
  match s with
  | EmptyString => 0
  | String _ s' => occurrences s' needle
  end.

End JSString.

Import JSString.

(** ** Image prompt helpers *)

(** [extractCookingMethod], lines 225-238. *)
Definition extractCookingMethod (instructions : list string) : string :=
  let instructionsText := toLowerCase (join " " instructions) in
  if includes instructionsText "bake" || includes instructionsText "oven" then "baked to perfection"
  else if includes instructionsText "fry" || includes instructionsText "pan" then "pan-fried until golden"
  else if includes instructionsText "grill" then "grilled with char marks"
  else if includes instructionsText "boil" || includes instructionsText "simmer" then "simmered carefully"
  else if includes instructionsText "steam" then "steamed delicately"
  else if includes instructionsText "roast" then "roasted until tender"
  else if includes instructionsText "sauté" then "sautéed with herbs"
  else if includes instructionsText "mix" || includes instructionsText "toss" then "artfully combined"
  else "expertly prepared".


(** [determinePresentationStyle], lines 241-257. *)
Definition determinePresentationStyle (recipeName : string) (ingredients : list string) : string :=
  let name := toLowerCase recipeName in
  let ingredientText := toLowerCase (join " " ingredients) in
  if includes name "salad" then "fresh greens and colorful vegetables arranged elegantly on a clean white plate"
  else if includes name "soup" || includes name "broth" then "served in a beautiful ceramic bowl with garnish on a marble surface"
  else if includes name "pasta" || includes name "noodle" then "perfectly twirled pasta with sauce coating on an elegant plate"
  else if includes name "steak" || includes name "chicken" || includes name "fish" then "tender protein as the centerpiece with sides on a slate board"
  else if includes name "curry" || includes name "stew" then "rich, aromatic sauce with visible ingredients in a traditional serving bowl"
  else if includes name "sandwich" || includes name "burger" then "layered ingredients and toasted bread on parchment paper with a clean background"
  else if includes name "pizza" then "golden crust with melted cheese and toppings on a pizza stone"
  else if includes name "dessert" || includes name "cake" || includes ingredientText "sugar" then "elegant plating with decorative elements on fine dinnerware"
  else if includes ingredientText "rice" then "fluffy rice with colorful ingredients mixed in a beautiful serving dish"
  else if includes name "smoothie" || includes name "drink" then "in a stylish glass with garnish against a clean backdrop"
  else "artisanal presentation with modern plating on neutral background".

(** ** JavaScript values, exceptions and effects *)

Module JS.

(** A value produced by [JSON.parse].  A JSON number is a finite double, hence
    a rational; an object maps its keys to values. *)
Inductive JSON : Type :=
| JNull
| JBool (b : bool)
| JNum (q : Q)
| JStr (s : string)
| JArr (items : list JSON)
| JObj (fields : gmap string JSON).

(** A value as a condition ([undefined] is [None]). *)
Definition truthy (v : option JSON) : bool :=
  match v with
  | None | Some JNull => false
  | Some (JBool b) => b
  | Some (JNum q) => negb (Qeq_bool q 0)
  | Some (JStr s) => nonempty s
  | Some (JArr _) | Some (JObj _) => true
  end.

(** [a || b] *)
Definition or_else (a : option JSON) (b : JSON) : JSON :=
  match a with
  | Some v => if truthy a then v else b
  | None => b
  end.

(** What can be thrown. *)
Inductive Exn : Type :=
| Error (message : string)
| TypeError
| SyntaxError
| InvalidCharacterError
| URIError
| NetworkError
| ReadError.

(** The text an exception carries to whoever catches it. *)
Definition message_of (e : Exn) : string :=
  match e with
  | Error message => message
  | _ => EmptyString
  end.

Inductive Outcome (A : Type) : Type :=
| Return (a : A)
| Throw (e : Exn).
Arguments Return {A} a.
Arguments Throw {A} e.

(** A line written by [console.error]: the label and the value after it. *)
Inductive Logged : Type :=
| LogText (text : option string)
| LogExn (e : Exn).

(** The part of the world the service changes: the console, the number of
    HTTP requests sent so far and the number of [Math.random] draws. *)
Record World : Type := {
  console : list (string * Logged);
  fetches : nat;
  draws : nat
}.

Definition start : World := {| console := []; fetches := 0; draws := 0 |}.

(** A computation: it runs in a world and returns or throws. *)
Definition M (A : Type) : Type := World -> Outcome A * World.

#[global] Instance M_ret : MRet M := fun A a w => (Return a, w).

#[global] Instance M_bind : MBind M := fun A B f m w =>
  match m w with
  | (Return a, w') => f a w'
  | (Throw e, w') => (Throw e, w')
  end.

Definition throw {A} (e : Exn) : M A := fun w => (Throw e, w).

(** [try { body } catch (error) { handler }] *)
Definition try_catch {A} (body : M A) (handler : Exn -> M A) : M A := fun w =>
  match body w with
  | (Return a, w') => (Return a, w')
  | (Throw e, w') => handler e w'
  end.

Definition lift {A} (o : Outcome A) : M A := fun w => (o, w).

(** The world after a line is written to the console. *)
Definition logged (w : World) (label : string) (v : Logged) : World :=
  {| console := (console w ++ [(label, v)])%list; fetches := fetches w; draws := draws w |}.

(** [console.error(label, v)] *)
Definition console_error (label : string) (v : Logged) : M unit := fun w =>
  (Return tt, logged w label v).

(** [v.k] for the property names the service reads ([ingredients], [recipes],
    [totalTime], ...): none of them is on a prototype, so only an object's own
    fields answer; reading a property of [null] throws. *)
Definition get_member (v : JSON) (k : string) : Outcome (option JSON) :=
  match v with
  | JNull => Throw TypeError
  | JObj fields => Return (fields !! k)
  | _ => Return None
  end.

(** [v.map(f)]: only an array has a [map] to call. *)
Definition call_map {A} (v : option JSON) (f : JSON -> A) : Outcome (list A) :=
  match v with
  | Some (JArr items) => Return (List.map f items)
  | _ => Throw TypeError
  end.

Definition indexed (l : list JSON) : gmap string JSON :=
  list_to_map (imap (fun i x => (pretty i, x)) l).

(** The code units of a string, each as a string of its own. *)
Definition units (s : string) : list JSON :=
  List.map (fun u => JStr (utf8 u)) (flat_map utf16 (points s)).

(** [{...v}]: the own enumerable properties of [v].  An array and a string
    spread their indices (a string has one index for each code unit); [null],
    booleans and numbers spread nothing. *)
Definition spread (v : JSON) : gmap string JSON :=
  match v with
  | JObj fields => fields
  | JArr items => indexed items
  | JStr s => indexed (units s)
  | _ => ∅
  end.

End JS.

Import JS.

(** ** Encoders of the browser *)

Module Encoding.

Definition hex_digit (n : nat) : ascii :=
  match String.get n "0123456789ABCDEF" with Some c => c | None => "0"%char end.

Definition unreserved (c : ascii) : bool :=
  let n := code c in
  between 65 90 n || between 97 122 n || between 48 57 n
  || includes "-_.!~*'()" (String c EmptyString).

(** Every byte that is not an unreserved mark becomes a percent escape. *)
Fixpoint escape (s : string) : string :=
  match s with
  | EmptyString => EmptyString
  | String c s' =>
      (if unreserved c then String c EmptyString
       else String "%"%char (String (hex_digit (code c / 16))
                              (String (hex_digit (code c mod 16)) EmptyString)))
      +:+ escape s'
  end.

(** [encodeURIComponent(s)]: the escapes of the UTF-8 form of [s]; throws on
    a surrogate without its partner, which has no UTF-8 form. *)
Definition encodeURIComponent (s : string) : Outcome string :=
  if well_formed s then Return (escape s) else Throw URIError.

(** The code points of a text that has none above U+00FF, else [None].
    U+0080 to U+00FF are the two-byte forms led by 0xC2 and 0xC3. *)
Fixpoint latin1 (s : string) : option (list N) :=
  match s with
  | EmptyString => Some []
  | String c s' =>
      let n := N_of_ascii c in
      if (n <? 128)%N then cons n <$> latin1 s'
      else if (n =? 194)%N || (n =? 195)%N then
        match s' with
        | String d s'' =>
            let m := N_of_ascii d in
            if (128 <=? m)%N && (m <=? 191)%N
            then cons ((n - 194) * 64 + m)%N <$> latin1 s''
            else None
        | EmptyString => None
        end
      else None
  end.

Definition b64_digit (n : N) : string :=
  match String.get (N.to_nat n)
          "ABCDEFGHIJKLMNOPQRSTUVWXYZabcdefghijklmnopqrstuvwxyz0123456789+/" with
  | Some c => String c EmptyString
  | None => EmptyString
  end.

Fixpoint base64 (l : list N) : string :=
  match l with
  | a :: b :: c :: r =>
      let n := (a * 65536 + b * 256 + c)%N in
      b64_digit (n / 262144) +:+ b64_digit (n / 4096 mod 64)
      +:+ b64_digit (n / 64 mod 64) +:+ b64_digit (n mod 64) +:+ base64 r
  | [a; b] =>
      let n := (a * 65536 + b * 256)%N in
      b64_digit (n / 262144) +:+ b64_digit (n / 4096 mod 64)
      +:+ b64_digit (n / 64 mod 64) +:+ "="
  | [a] =>
      let n := (a * 65536)%N in
      b64_digit (n / 262144) +:+ b64_digit (n / 4096 mod 64) +:+ "=="
  | [] => EmptyString
  end.

(** [btoa(s)]: throws on a character above U+00FF. *)
Definition btoa (s : string) : Outcome string :=
  match latin1 s with
  | Some l => Return (base64 l)
  | None => Throw InvalidCharacterError
  end.

End Encoding.

Import Encoding.

(** ** The canvas of the browser *)

Inductive FillStyle : Type :=
| LinearGradient (x0 y0 x1 y1 : Z) (stops : list (Q * string))
| Color (name : string).

Inductive DrawOp : Type :=
| FillRect (style : FillStyle) (x y w h : Z)
| FillText (style : FillStyle) (font textAlign textBaseline text : string) (x y : Z).

Record Canvas : Type := {
  canvas_width : Z;
  canvas_height : Z;
  drawn : list DrawOp
}.

(** ** Requests and answers of the remote services *)

(** An object returned under the type [Recipe[]] by the response handlers:
    the object of the response, which nothing compares with the fields of a
    [Recipe]. *)
Abbreviation RecipeObject := (gmap string JSON).

Inductive Difficulty : Type := Easy | Medium | Hard.

Record Nutrition : Type := {
  protein : string;
  carbs : string;
  fat : string;
  fiber : string;
  sodium : string
}.

(** Modelled from the spec: [Recipe] of [../types], which is not among the
    sources, with the fields of section 3 of the specification and of
    [recipeSchema], lines 47-83. *)
Record Recipe : Type := {
  r_recipeName : string;
  r_ingredients : list string;
  r_cookingTime : string;
  r_difficulty : Difficulty;
  r_instructions : list string;
  r_calories : string;
  r_servingSize : string;
  r_nutrition : Nutrition;
  r_prepTime : option string;
  r_cookTime : option string;
  r_chefPersonality : option string;
  r_personalityTips : option (list string)
}.

(** Modelled from the spec: [CookingPathRequest] of [../types], with the
    fields [generateCookingSchedule] reads. *)
Record CookingPathRequest : Type := {
  cp_recipes : list Recipe;
  cp_skillLevel : string;
  cp_kitchenEquipment : option (list string);
  cp_preferredServingTime : option string
}.

(** Modelled from the spec: [CookingSchedule] of [../types], with the fields
    [generateCookingSchedule] writes.  The five fields taken from the response
    hold what the response has under their names, [undefined] when it has
    nothing. *)
Record CookingSchedule : Type := {
  totalTime : option JSON;
  servingTime : option JSON;
  steps : option JSON;
  recipes : list Recipe;
  efficiencyTips : option JSON;
  timelineSummary : option JSON
}.

(** Modelled from the spec: [RecipeReinventionRequest] of [../types], with
    the fields [reinventRecipe] reads. *)
Record RecipeReinventionRequest : Type := {
  rr_dishName : string;
  rr_chefPersonality : string;
  rr_dietaryPreference : option string;
  rr_excludeIngredients : option string;
  rr_flavorProfile : option string;
  rr_recipeStyle : option string
}.

(** Modelled from the spec: the values of the enum members of [../types] that
    the service names. *)
Record Enums : Type := {
  ChefPersonality_MICHELIN : string;
  ChefPersonality_BUDGET_MOM : string;
  ChefPersonality_QUICK_CHEF : string;
  ChefPersonality_NORMAL : string;
  FlavorProfile_NONE : string;
  RecipeStyle_NONE : string
}.

(** The four persona ids are four ids. *)
Definition personas_distinct (E : Enums) : Prop :=
  NoDup [ChefPersonality_MICHELIN E; ChefPersonality_BUDGET_MOM E;
         ChefPersonality_QUICK_CHEF E; ChefPersonality_NORMAL E].

Inductive Contents : Type :=
| Parts (mimeType data text : string)
| Prompt (prompt : string)
| SchedulePrompt (request : CookingPathRequest).
   (* the text composed from the request at lines 443-555 *)

Inductive Schema : Type := ingredientsSchema | recipeSchema | cookingScheduleSchema.

Record GenerateContentParameters : Type := {
  model : string;
  contents : Contents;
  responseMimeType : string;
  responseSchema : Schema
}.

Record GenerateContentResponse : Type := { response_text : option string }.

Record InferenceParameters : Type := {
  num_inference_steps : Z;
  guidance_scale : Q;
  width : Z;
  height : Z
}.

Inductive HttpRequest : Type :=
| POST (url : string) (inputs : string) (parameters : InferenceParameters)
| GET (url : string).

(** An answer to [fetch]: [ok] is [response.ok]; [image] is what
    [blobToBase64(await response.blob())] resolves to, [None] when reading
    the body fails. *)
Record HttpResponse : Type := { ok : bool; image : option string }.

(** What the service does not decide. *)
Record Env : Type := {
  (* JSON.parse: None when it throws *)
  JSON_parse : string -> option JSON;
  (* ai.models.generateContent *)
  generateContent : GenerateContentParameters -> Outcome GenerateContentResponse;
  (* fetch: the answer to the n-th request sent, None when the promise rejects *)
  fetch : HttpRequest -> nat -> option HttpResponse;
  (* Math.floor(Math.random() * 1000000) at the n-th draw *)
  random_seed : nat -> N;
  (* canvas.getContext('2d') is not null *)
  context2d : bool;
  (* ctx.measureText(text).width under a font *)
  measureText_width : string -> string -> Q;
  (* what canvas.toDataURL(type, quality) writes after the scheme *)
  encode_canvas : Canvas -> string -> Q -> string
}.

(** ** The fixed texts of the service *)

(** The text returned for [ChefPersonality.MICHELIN], lines 88-98. *)
Definition directive_MICHELIN : string :=
  "
        CHEF PERSONALITY: You are Chef Aria, a charismatic 28-year-old Michelin-starred chef with a warm, confident voice and infectious passion for culinary artistry.
        - You speak with elegant enthusiasm, sharing sophisticated techniques in an approachable, inspiring way
        - Your voice is melodic and engaging, like you're personally guiding someone through a masterclass
        - You're generous with professional secrets and love explaining the " +:+ dq +:+ "why" +:+ dq +:+ " behind each technique
        - You have a playful side, often adding charming anecdotes about your culinary journey
        - You encourage experimentation while teaching precision, making gourmet cooking feel achievable
        - Your tone is encouraging yet authoritative, with the confidence of someone who's mastered their craft
        
        For personalityTips, include 3-4 sophisticated insights delivered with Chef Aria's warm, professional charm and enthusiasm for teaching.
      ".

(** The text returned for [ChefPersonality.BUDGET_MOM], lines 101-111. *)
Definition directive_BUDGET_MOM : string :=
  "
        CHEF PERSONALITY: You are Chef Rosa, a vibrant 32-year-old working mom who's become a master of budget-friendly family cooking with boundless energy and practical wisdom.
        - You speak with genuine warmth and understanding, like a supportive friend sharing hard-earned kitchen wisdom
        - Your voice is upbeat and encouraging, with the confidence of someone who's solved every family meal challenge
        - You're incredibly resourceful and love sharing money-saving discoveries with infectious enthusiasm
        - You have a nurturing, can-do attitude that makes budget cooking feel empowering rather than limiting
        - You speak from real experience, often mentioning how these tricks helped your own family
        - Your tone is friendly, practical, and full of maternal wisdom that makes everyone feel capable
        
        For personalityTips, include 3-4 budget-savvy strategies shared with Chef Rosa's encouraging, family-focused warmth and practical expertise.
      ".

(** The text returned for [ChefPersonality.QUICK_CHEF], lines 114-124. *)
Definition directive_QUICK_CHEF : string :=
  "
        CHEF PERSONALITY: You are Chef Luna, an energetic 26-year-old speed-cooking specialist with a bubbly, fast-paced voice and contagious enthusiasm for efficient cooking.
        - You speak with high energy and excitement, like you're genuinely thrilled to share time-saving secrets
        - Your voice is upbeat and motivating, with the enthusiasm of someone who loves solving kitchen efficiency puzzles
        - You're incredibly organized and love sharing clever shortcuts with infectious passion
        - You have a dynamic, can-do attitude that makes fast cooking feel fun and innovative rather than rushed
        - You speak quickly but clearly, mirroring your efficient cooking style
        - Your tone is encouraging and energetic, making time-pressed cooking feel like an exciting challenge
        
        For personalityTips, include 3-4 time-saving strategies delivered with Chef Luna's energetic, efficiency-focused enthusiasm and clever problem-solving approach.
      ".

(** The text returned in the [default] branch, lines 127-137. *)
Definition directive_default : string :=
  "
        CHEF PERSONALITY: You are Chef Priya, a friendly 29-year-old culinary instructor with a warm, approachable voice and genuine love for teaching home cooking.
        - You speak with gentle confidence and encouraging warmth, like a favorite cooking teacher
        - Your voice is clear and reassuring, making cooking feel accessible and enjoyable for everyone
        - You're patient and thorough in explanations, with a natural teaching ability that builds confidence
        - You have a balanced approach, sharing both traditional wisdom and modern conveniences
        - You encourage creativity while providing solid foundations, making cooking feel both safe and adventurous
        - Your tone is supportive and friendly, with the warmth of someone who truly wants to help others succeed
        
        For personalityTips, include 2-3 helpful cooking insights shared with Chef Priya's supportive, teaching-focused warmth and encouragement.
      ".

(** Fixed text 0 of the prompt of [generateRecipes], lines 163-198. *)
Definition recipes_text_0 : string :=
  "
    ".

(** Fixed text 1 of the prompt of [generateRecipes], lines 163-198. *)
Definition recipes_text_1 : string :=
  "
    
    Given the following ingredients: ".

(** Fixed text 2 of the prompt of [generateRecipes], lines 163-198. *)
Definition recipes_text_2 : string :=
  ".
    And the dietary preference: ".

(** Fixed text 3 of the prompt of [generateRecipes], lines 163-198. *)
Definition recipes_text_3 : string :=
  ".".

(** Fixed text 4 of the prompt of [generateRecipes], lines 163-198. *)
Definition recipes_text_4 : string :=
  "
    
    Generate 3 creative recipes that match your chef personality. For each recipe, provide:
    1. A unique recipe name that reflects your cooking style
    2. A complete list of all required ingredients with approximate quantities (including the ones provided)
    3. The total cooking time (e.g., " +:+ dq +:+ "30 minutes" +:+ dq +:+ ") - IMPORTANT: This should equal prep time + cook time
    4. A difficulty level ('Easy', 'Medium', or 'Hard')
    5. Step-by-step cooking instructions written in your personality style
    6. Accurate calorie count per serving (e.g., " +:+ dq +:+ "320 calories" +:+ dq +:+ ")
    7. Serving size (e.g., " +:+ dq +:+ "Serves 4" +:+ dq +:+ " or " +:+ dq +:+ "2 portions" +:+ dq +:+ ")
    8. Detailed nutritional information per serving including:
       - Protein content (e.g., " +:+ dq +:+ "25g" +:+ dq +:+ ")
       - Carbohydrates (e.g., " +:+ dq +:+ "45g" +:+ dq +:+ ")
       - Fat content (e.g., " +:+ dq +:+ "12g" +:+ dq +:+ ")
       - Fiber content (e.g., " +:+ dq +:+ "8g" +:+ dq +:+ ")
       - Sodium content (e.g., " +:+ dq +:+ "450mg" +:+ dq +:+ ")
    9. Prep time (e.g., " +:+ dq +:+ "10 minutes" +:+ dq +:+ ") - Time for chopping, measuring, marinating
    10. Cook time (e.g., " +:+ dq +:+ "20 minutes" +:+ dq +:+ ") - Actual cooking/baking time
    11. Chef personality tips specific to your cooking style (personalityTips array)
    
    CRITICAL TIMING RULES:
    - Prep time + Cook time should approximately equal Total cooking time
    - Keep times realistic (most home recipes are 15-60 minutes total)
    - Don't use extremely long times unless it's a slow-cook recipe that explicitly requires it
    - Be consistent: if total time is " +:+ dq +:+ "30 minutes" +:+ dq +:+ ", prep + cook should add up to around 30 minutes
    
    Calculate nutritional values based on standard ingredient nutritional data and typical serving sizes.
    Be accurate with calorie calculations considering cooking methods and portion sizes.
    Write instructions and tips that reflect your chef personality throughout.
    
    Respond with ONLY a JSON object that matches the specified schema.
  ".

(** Fixed text 0 of the prompt of [reinventRecipe], lines 597-636. *)
Definition reinvent_text_0 : string :=
  "
        ".

(** Fixed text 1 of the prompt of [reinventRecipe], lines 597-636. *)
Definition reinvent_text_1 : string :=
  "
        
        RECIPE REINVENTION CHALLENGE: Take the classic dish " +:+ dq.

(** Fixed text 2 of the prompt of [reinventRecipe], lines 597-636. *)
Definition reinvent_text_2 : string :=
  dq +:+ " and completely reinvent it with your chef personality!
        
        Your task is to create 3 innovative versions of " +:+ dq.

(** Fixed text 3 of the prompt of [reinventRecipe], lines 597-636. *)
Definition reinvent_text_3 : string :=
  dq +:+ " that:
        1. Keep the essence and recognizable elements of the original dish
        2. Add your unique chef personality twist and creativity
        3. Use modern techniques, interesting ingredient swaps, or presentation styles
        4. Maintain the spirit of " +:+ dq.

(** Fixed text 4 of the prompt of [reinventRecipe], lines 597-636. *)
Definition reinvent_text_4 : string :=
  dq +:+ " while making it distinctly YOUR creation
        
        Dietary preference: ".

(** Fixed text 5 of the prompt of [reinventRecipe], lines 597-636. *)
Definition reinvent_text_5 : string :=
  "
        
        For each reinvented recipe, provide:
        1. A creative new name that shows it's an innovative version of " +:+ dq.

(** Fixed text 6 of the prompt of [reinventRecipe], lines 597-636. *)
Definition reinvent_text_6 : string :=
  dq +:+ "
        2. Complete ingredient list with quantities (reinvented but recognizable)
        3. Total cooking time (realistic: prep time + cook time)
        4. Difficulty level ('Easy', 'Medium', or 'Hard')
        5. Step-by-step instructions that reflect your chef personality
        6. Accurate calorie count per serving
        7. Serving size information
        8. Detailed nutritional breakdown per serving
        9. Prep time and cook time that add up to total time
        10. Personality tips that explain your reinvention approach
        
        REINVENTION IDEAS for different chef personalities:
        - Michelin Chef: Elevate with premium ingredients, advanced techniques, refined presentation
        - Budget Mom: Make it family-friendly, cost-effective, kid-approved with smart substitutions
        - Quick Chef: Speed it up with shortcuts, one-pot methods, meal prep friendly versions
        - Normal Chef: Balance tradition with modern touches, accessible improvements
        
        Examples of good reinventions:
        - " +:+ dq +:+ "Maggi" +:+ dq +:+ " → Gourmet Truffle Ramen, Veggie-Packed Family Noodles, 5-Minute Protein Bowl
        - " +:+ dq +:+ "Fish Finger" +:+ dq +:+ " → Herb-Crusted Fish Goujons, Baked Cod Nuggets, Spicy Fish Tacos
        - " +:+ dq +:+ "Chicken Dum Biryani" +:+ dq +:+ " → Saffron Chicken Rice Bowl, Quick Chicken Biryani Skillet, Layered Biryani Casserole
        
        Make each version distinct while honoring the original dish. Be creative but practical!
        
        Respond with ONLY a JSON object that matches the specified schema.
    ".

(** Fixed text 0 of the vector image of [generatePlaceholderImage], lines 386-397. *)
Definition svg_text_0 : string :=
  "
        <svg width=" +:+ dq +:+ "512" +:+ dq +:+ " height=" +:+ dq +:+ "512" +:+ dq +:+ " xmlns=" +:+ dq +:+ "http://www.w3.org/2000/svg" +:+ dq +:+ ">
            <defs>
                <linearGradient id=" +:+ dq +:+ "grad" +:+ dq +:+ " x1=" +:+ dq +:+ "0%" +:+ dq +:+ " y1=" +:+ dq +:+ "0%" +:+ dq +:+ " x2=" +:+ dq +:+ "100%" +:+ dq +:+ " y2=" +:+ dq +:+ "100%" +:+ dq +:+ ">
                    <stop offset=" +:+ dq +:+ "0%" +:+ dq +:+ " style=" +:+ dq +:+ "stop-color:#ff6b6b;stop-opacity:1" +:+ dq +:+ " />
                    <stop offset=" +:+ dq +:+ "100%" +:+ dq +:+ " style=" +:+ dq +:+ "stop-color:#4ecdc4;stop-opacity:1" +:+ dq +:+ " />
                </linearGradient>
            </defs>
            <rect width=" +:+ dq +:+ "512" +:+ dq +:+ " height=" +:+ dq +:+ "512" +:+ dq +:+ " fill=" +:+ dq +:+ "url(#grad)" +:+ dq +:+ " />
            <text x=" +:+ dq +:+ "256" +:+ dq +:+ " y=" +:+ dq +:+ "256" +:+ dq +:+ " font-family=" +:+ dq +:+ "Arial" +:+ dq +:+ " font-size=" +:+ dq +:+ "24" +:+ dq +:+ " font-weight=" +:+ dq +:+ "bold" +:+ dq +:+ " text-anchor=" +:+ dq +:+ "middle" +:+ dq +:+ " fill=" +:+ dq +:+ "white" +:+ dq +:+ ">".

(** Fixed text 1 of the vector image of [generatePlaceholderImage], lines 386-397. *)
Definition svg_text_1 : string :=
  "</text>
        </svg>
    ".

(** ** The service *)

Section Service.

Variable env : Env.
Variable E : Enums.

(** [response.text.trim()]: throws when the response has no text. *)
Definition text_trim (response : GenerateContentResponse) : M string :=
  match response_text response with
  | Some t => mret (trim t)
  | None => throw TypeError
  end.

(** [JSON.parse(jsonStr)] *)
Definition parse (jsonStr : string) : M JSON :=
  match JSON_parse env jsonStr with
  | Some v => mret v
  | None => throw SyntaxError
  end.

(** The request of [identifyIngredients], lines 9-35. *)
Definition ingredients_request (base64Image : string) : GenerateContentParameters :=
  let textPart :=
    "Analyze the provided image and identify all food ingredients visible. Respond ONLY with a JSON object that adheres to the provided schema. The JSON object must contain a single key, "
    +:+ dq +:+ "ingredients" +:+ dq +:+
    ", which holds an array of strings. If no ingredients are found, return an object with an empty ingredients array." in
  {| model := "gemini-2.5-flash";
     contents := Parts "image/jpeg" base64Image textPart;
     responseMimeType := "application/json";
     responseSchema := ingredientsSchema |}.

(** The request of [generateRecipes] and of [reinventRecipe], lines 200-207
    and 638-645. *)
Definition recipes_request (prompt : string) : GenerateContentParameters :=
  {| model := "gemini-2.5-flash";
     contents := Prompt prompt;
     responseMimeType := "application/json";
     responseSchema := recipeSchema |}.

(** The request of [generateCookingSchedule], lines 557-564. *)
Definition schedule_request (request : CookingPathRequest) : GenerateContentParameters :=
  {| model := "gemini-2.5-flash";
     contents := SchedulePrompt request;
     responseMimeType := "application/json";
     responseSchema := cookingScheduleSchema |}.

(** [identifyIngredients], lines 8-45. *)
Definition identifyIngredients (base64Image : string) : M JSON :=
  response ← lift (generateContent env (ingredients_request base64Image));
  try_catch
    (jsonStr ← text_trim response;
     result ← parse jsonStr;
     ingredients ← lift (get_member result "ingredients");
     mret (or_else ingredients (JArr [])))
    (fun error =>
       console_error "Failed to parse ingredients from Gemini response:"
                     (LogText (response_text response));;
       mret (JArr [])).

(** [getChefPersonalityPrompt], lines 85-139. *)
Definition getChefPersonalityPrompt (personality : string) : string :=
  if String.eqb personality (ChefPersonality_MICHELIN E) then directive_MICHELIN
  else if String.eqb personality (ChefPersonality_BUDGET_MOM E) then directive_BUDGET_MOM
  else if String.eqb personality (ChefPersonality_QUICK_CHEF E) then directive_QUICK_CHEF
  else directive_default.

(** The three optional clauses of [generateRecipes], lines 149-159. *)
Definition exclusionText (excludeIngredients : option string) : string :=
  match excludeIngredients with
  | Some e =>
      if nonempty e && nonempty (trim e)
      then "
    IMPORTANT: Do NOT include any of these ingredients or foods in any recipe: " +:+ e +:+ ". Avoid them completely."
      else EmptyString
  | None => EmptyString
  end.

Definition flavorText (flavorProfile : option string) : string :=
  match flavorProfile with
  | Some f =>
      if nonempty f && negb (String.eqb f "No Preference")
      then "
    FLAVOR FOCUS: Create recipes that emphasize " +:+ f +:+ " flavors and taste profiles."
      else EmptyString
  | None => EmptyString
  end.

Definition styleText (recipeStyle : option string) : string :=
  match recipeStyle with
  | Some s =>
      if nonempty s && negb (String.eqb s "No Preference")
      then "
    RECIPE STYLE: Create recipes in " +:+ s +:+ " cuisine style with authentic flavors and techniques."
      else EmptyString
  | None => EmptyString
  end.

(** The prompt of [generateRecipes], lines 161-198. *)
Definition generateRecipes_prompt (ingredients : list string) (preference : string)
    (excludeIngredients : option string) (chefPersonality : string)
    (flavorProfile recipeStyle : option string) : string :=
  let personalityPrompt := getChefPersonalityPrompt chefPersonality in
  recipes_text_0 +:+ personalityPrompt
  +:+ recipes_text_1 +:+ join ", " ingredients
  +:+ recipes_text_2
  +:+ (if String.eqb preference "None" then "no specific preference" else preference)
  +:+ recipes_text_3
  +:+ exclusionText excludeIngredients +:+ flavorText flavorProfile +:+ styleText recipeStyle
  +:+ recipes_text_4.

(** [{...recipe, chefPersonality}] *)
Definition with_personality (chefPersonality : string) (recipe : JSON) : RecipeObject :=
  <["chefPersonality" := JStr chefPersonality]> (spread recipe).

(** [generateRecipes], lines 141-222.  An omitted [chefPersonality] takes its
    default, [ChefPersonality.NORMAL]. *)
Definition generateRecipes (ingredients : list string) (preference : string)
    (excludeIngredients : option string) (chefPersonality_arg : option string)
    (flavorProfile recipeStyle : option string) : M (list RecipeObject) :=
  let chefPersonality := default (ChefPersonality_NORMAL E) chefPersonality_arg in
  let prompt := generateRecipes_prompt ingredients preference excludeIngredients
                  chefPersonality flavorProfile recipeStyle in
  response ← lift (generateContent env (recipes_request prompt));
  try_catch
    (jsonStr ← text_trim response;
     result ← parse jsonStr;
     recipes_field ← lift (get_member result "recipes");
     recipesWithPersonality ← lift (call_map recipes_field (with_personality chefPersonality));
     mret recipesWithPersonality)
    (fun error =>
       console_error "Failed to parse recipes from Gemini response:"
                     (LogText (response_text response));;
       throw (Error "Could not parse recipe data from AI.")).

(** [generateCookingSchedule], lines 442-581.  The prompt of lines 443-555 is
    a function of the request and reaches nothing but the remote call; on a
    request of the declared type composing it does not throw. *)
Definition generateCookingSchedule (request : CookingPathRequest) : M CookingSchedule :=
  response ← lift (generateContent env (schedule_request request));
  try_catch
    (jsonStr ← text_trim response;
     result ← parse jsonStr;
     result_totalTime ← lift (get_member result "totalTime");
     result_servingTime ← lift (get_member result "servingTime");
     result_steps ← lift (get_member result "steps");
     result_efficiencyTips ← lift (get_member result "efficiencyTips");
     result_timelineSummary ← lift (get_member result "timelineSummary");
     mret {| totalTime := result_totalTime;
             servingTime := result_servingTime;
             steps := result_steps;
             recipes := cp_recipes request;
             efficiencyTips := result_efficiencyTips;
             timelineSummary := result_timelineSummary |})
    (fun error =>
       console_error "Failed to parse cooking schedule from Gemini response:"
                     (LogText (response_text response));;
       throw (Error "Could not parse cooking schedule data from AI.")).

(** The three optional clauses of [reinventRecipe], lines 585-595. *)
Definition reinvent_exclusionText (request : RecipeReinventionRequest) : string :=
  match rr_excludeIngredients request with
  | Some e =>
      if nonempty e && nonempty (trim e)
      then "
    IMPORTANT: Do NOT include any of these ingredients or foods in any recipe: " +:+ e +:+ ". Avoid them completely."
      else EmptyString
  | None => EmptyString
  end.

Definition reinvent_flavorText (request : RecipeReinventionRequest) : string :=
  match rr_flavorProfile request with
  | Some f =>
      if nonempty f && negb (String.eqb f (FlavorProfile_NONE E))
      then "
    FLAVOR FOCUS: Create reinvented versions that emphasize " +:+ f +:+ " flavors and taste profiles."
      else EmptyString
  | None => EmptyString
  end.

Definition reinvent_styleText (request : RecipeReinventionRequest) : string :=
  match rr_recipeStyle request with
  | Some s =>
      if nonempty s && negb (String.eqb s (RecipeStyle_NONE E))
      then "
    RECIPE STYLE: Create reinvented versions in " +:+ s +:+ " cuisine style with authentic flavors and techniques."
      else EmptyString
  | None => EmptyString
  end.

(** The prompt of [reinventRecipe], lines 584-636. *)
Definition reinventRecipe_prompt (request : RecipeReinventionRequest) : string :=
  let personalityPrompt := getChefPersonalityPrompt (rr_chefPersonality request) in
  reinvent_text_0 +:+ personalityPrompt
  +:+ reinvent_text_1 +:+ rr_dishName request
  +:+ reinvent_text_2 +:+ rr_dishName request
  +:+ reinvent_text_3 +:+ rr_dishName request
  +:+ reinvent_text_4
  +:+ (if truthy_str (rr_dietaryPreference request)
       then default EmptyString (rr_dietaryPreference request)
       else "no specific preference")
  +:+ reinvent_exclusionText request +:+ reinvent_flavorText request
  +:+ reinvent_styleText request
  +:+ reinvent_text_5 +:+ rr_dishName request
  +:+ reinvent_text_6.

(** [reinventRecipe], lines 583-660. *)
Definition reinventRecipe (request : RecipeReinventionRequest) : M (list RecipeObject) :=
  let prompt := reinventRecipe_prompt request in
  response ← lift (generateContent env (recipes_request prompt));
  try_catch
    (jsonStr ← text_trim response;
     result ← parse jsonStr;
     recipes_field ← lift (get_member result "recipes");
     recipesWithPersonality ←
       lift (call_map recipes_field (with_personality (rr_chefPersonality request)));
     mret recipesWithPersonality)
    (fun error =>
       console_error "Failed to parse reinvented recipes from Gemini response:"
                     (LogText (response_text response));;
       throw (Error "Could not parse reinvented recipe data from AI.")).

End Service.

(** ** The image fallback chain *)

(** The recipe argument of [generateRecipeImage]. *)
Record ImageRecipe : Type := {
  recipeName : string;
  ingredients : list string;
  instructions : list string
}.

Section Images.

Variable env : Env.

(** The world after a request is sent, and after a random number is drawn. *)
Definition sent (w : World) : World :=
  {| console := console w; fetches := S (fetches w); draws := draws w |}.

Definition drew (w : World) : World :=
  {| console := console w; fetches := fetches w; draws := S (draws w) |}.

(** [await fetch(request)]: a rejected promise throws. *)
Definition do_fetch (request : HttpRequest) : M HttpResponse := fun w =>
  match fetch env request (fetches w) with
  | Some response => (Return response, sent w)
  | None => (Throw NetworkError, sent w)
  end.

(** [Math.floor(Math.random() * 1000000)] *)
Definition draw_seed : M N := fun w =>
  (Return (random_seed env (draws w)), drew w).

(** [await blobToBase64(await response.blob())], lines 323-333. *)
Definition blobToBase64 (response : HttpResponse) : M string :=
  match image response with
  | Some dataURL => mret dataURL
  | None => throw ReadError
  end.

(** One turn of the loop that wraps the name, lines 363-372. *)
Definition wrap_word (font : string) (st : list string * string) (word : string)
    : list string * string :=
  let '(lines, currentLine) := st in
  let testLine :=
    currentLine +:+ (if nonempty currentLine then " " else EmptyString) +:+ word in
  if negb (Qle_bool (measureText_width env font testLine) 400%Q) && nonempty currentLine
  then ((lines ++ [currentLine])%list, word)
  else (lines, testLine).

(** The lines drawn for a name, lines 359-373. *)
Definition wrap_lines (font recipeName : string) : list string :=
  let words := split_space recipeName in
  let '(lines, currentLine) := fold_left (wrap_word font) words ([], EmptyString) in
  (lines ++ [currentLine])%list.

(** [canvas.toDataURL(type, quality)]: a URL of the [data:] scheme. *)
Definition toDataURL (canvas : Canvas) (type : string) (quality : Q) : string :=
  "data:" +:+ encode_canvas env canvas type quality.

(** The canvas drawn by [generatePlaceholderImage], lines 338-380. *)
Definition placeholder_canvas (recipeName : string) : Canvas :=
  let gradient := LinearGradient 0 0 512 512 [(0%Q, "#ff6b6b"); (1%Q, "#4ecdc4")] in
  let font := "bold 24px Arial" in
  let lines := wrap_lines font recipeName in
  let lineHeight := 30%Z in
  let startY := (256 - (Z.of_nat (length lines) - 1) * lineHeight / 2)%Z in
  let texts :=
    imap (fun index line =>
            FillText (Color "white") font "center" "middle" line
                     256 (startY + Z.of_nat index * lineHeight)) lines in
  {| canvas_width := 512; canvas_height := 512;
     drawn := FillRect gradient 0 0 512 512 :: texts |}.

(** [generatePlaceholderImage], lines 336-398. *)
Definition generatePlaceholderImage (recipeName : string) : M string :=
  if context2d env then
    mret (toDataURL (placeholder_canvas recipeName) "image/jpeg" (8 # 10)%Q)
  else
    encoded ← lift (btoa (svg_text_0 +:+ recipeName +:+ svg_text_1));
    mret ("data:image/svg+xml;base64," +:+ encoded).

(** The text that is encoded for the second service, lines 303-304. *)
Definition fallback_prompt_text (recipe : ImageRecipe) : string :=
  let mainIngredients := join " " (slice0 3 (ingredients recipe)) in
  "professional food photography " +:+ recipeName recipe +:+ " with "
  +:+ mainIngredients +:+ " beautifully plated restaurant quality".

(** The address asked of the second service, line 305. *)
Definition fallback_url (prompt : string) (seed : N) : string :=
  "https://image.pollinations.ai/prompt/" +:+ prompt
  +:+ "?width=512&height=512&seed=" +:+ pretty seed.

(** [generateRecipeImageFallback], lines 300-320.  The text is encoded
    before the random number is drawn and before the request is sent: when
    [encodeURIComponent] throws, neither happens. *)
Definition generateRecipeImageFallback (recipe : ImageRecipe) : M string :=
  try_catch
    (prompt ← lift (encodeURIComponent (fallback_prompt_text recipe));
     seed ← draw_seed;
     let imageUrl := fallback_url prompt seed in
     response ← do_fetch (GET imageUrl);
     if negb (ok response) then throw (Error "Failed to generate image")
     else blobToBase64 response)
    (fun error =>
       console_error "Error with fallback image generation:" (LogExn error);;
       generatePlaceholderImage (recipeName recipe)).

(** The prompt sent to the first service, lines 262-266. *)
Definition image_prompt (recipe : ImageRecipe) : string :=
  let mainIngredients := join ", " (slice0 5 (ingredients recipe)) in
  let cookingMethod := extractCookingMethod (instructions recipe) in
  let presentationStyle :=
    determinePresentationStyle (recipeName recipe) (ingredients recipe) in
  "A professional, high-resolution food photography of " +:+ dq
  +:+ recipeName recipe +:+ dq +:+ " featuring " +:+ mainIngredients
  +:+ ". The dish is " +:+ cookingMethod +:+ " and beautifully plated with "
  +:+ presentationStyle
  +:+ ". Studio lighting, appetizing, restaurant-quality presentation, garnished appropriately, clean modern styling, natural lighting, culinary art, food styling".

(** The request sent to the first service, lines 268-283. *)
Definition primary_request (recipe : ImageRecipe) : HttpRequest :=
  POST "https://api-inference.huggingface.co/models/stabilityai/stable-diffusion-2-1"
       (image_prompt recipe)
       {| num_inference_steps := 25; guidance_scale := 8%Q;
          width := 512; height := 512 |}.

(** [generateRecipeImage], lines 259-297. *)
Definition generateRecipeImage (recipe : ImageRecipe) : M string :=
  try_catch
    (response ← do_fetch (primary_request recipe);
     if negb (ok response) then generateRecipeImageFallback recipe
     else blobToBase64 response)
    (fun error =>
       console_error "Error generating image with Hugging Face:" (LogExn error);;
       generateRecipeImageFallback recipe).

End Images.

(** ** Sample environments *)

(** An environment in which every remote call fails and the browser gives no
    drawing context. *)
Definition offline : Env := {|
  JSON_parse := fun _ => None;
  generateContent := fun _ => Throw NetworkError;
  fetch := fun _ _ => None;
  random_seed := fun _ => 0%N;
  context2d := false;
  measureText_width := fun _ text => inject_Z (Z.of_nat (13 * String.length text));
  encode_canvas := fun _ _ _ => ","
|}.


(** An environment whose model answers every request with [answer], and in
    which [JSON.parse] takes the texts of [table] to their values and throws
    on any other. *)
Definition answering (answer : option string) (table : list (string * JSON)) : Env := {|
  JSON_parse := fun s => snd <$> List.find (fun entry => String.eqb (fst entry) s) table;
  generateContent := fun _ => Return {| response_text := answer |};
  fetch := fetch offline;
  random_seed := random_seed offline;
  context2d := context2d offline;
  measureText_width := measureText_width offline;
  encode_canvas := encode_canvas offline
|}.

(** An environment in which the remote services answer the n-th request with
    [answers n] and the browser draws. *)
Definition browser (answers : nat -> option HttpResponse) : Env := {|
  JSON_parse := JSON_parse offline;
  generateContent := generateContent offline;
  fetch := fun _ n => answers n;
  random_seed := fun n => N.of_nat (7 * n + 42);
  context2d := true;
  measureText_width := measureText_width offline;
  encode_canvas := fun canvas _ _ =>
    "image/jpeg;base64," +:+ pretty (length (drawn canvas))
|}.

(** [env] with another [JSON.parse]. *)
Definition with_parse (env : Env) (parser : string -> option JSON) : Env := {|
  JSON_parse := parser;
  generateContent := generateContent env;
  fetch := fetch env;
  random_seed := random_seed env;
  context2d := context2d env;
  measureText_width := measureText_width env;
  encode_canvas := encode_canvas env
|}.

(** Enum values for the examples. *)
Definition sample_enums : Enums := {|
  ChefPersonality_MICHELIN := "michelin";
  ChefPersonality_BUDGET_MOM := "budget_mom";
  ChefPersonality_QUICK_CHEF := "quick_chef";
  ChefPersonality_NORMAL := "normal";
  FlavorProfile_NONE := "No Preference";
  RecipeStyle_NONE := "No Preference"
|}.

(** ** The keyword table of the cooking methods, as a table

    The ordered table of the image prompt: an entry is a set of keywords and
    the phrase they select; the first entry with a keyword in the text
    wins, and [expertly prepared] is the phrase when none has. *)
Definition cooking_methods : list (list string * string) :=
  [ (["bake"; "oven"], "baked to perfection");
    (["fry"; "pan"], "pan-fried until golden");
    (["grill"], "grilled with char marks");
    (["boil"; "simmer"], "simmered carefully");
    (["steam"], "steamed delicately");
    (["roast"], "roasted until tender");
    (["sauté"], "sautéed with herbs");
    (["mix"; "toss"], "artfully combined") ].

Definition first_match (table : list (list string * string)) (text : string) : string :=
  match List.find (fun entry => existsb (includes text) (fst entry)) table with
  | Some entry => snd entry
  | None => "expertly prepared"
  end.

(** The text the keywords are looked up in: [instructionsText], line 226. *)
Definition instructionsText (instructions : list string) : string :=
  toLowerCase (join " " instructions).

(** The keywords of the table. *)
Definition cooking_keywords : list string := concat (List.map fst cooking_methods).

(** The keywords the specification lists: those of the table but [oven]. *)
Definition listed_keywords : list string :=
  ["bake"; "fry"; "pan"; "grill"; "boil"; "simmer"; "steam"; "roast"; "sauté"; "mix"; "toss"].

(** ** The optional clauses, as clauses

    What a clause reads when it is in the prompt. *)
Definition exclusion_clause (e : string) : string :=
  "
    IMPORTANT: Do NOT include any of these ingredients or foods in any recipe: " +:+ e +:+ ". Avoid them completely.".

Definition flavor_clause (f : string) : string :=
  "
    FLAVOR FOCUS: Create recipes that emphasize " +:+ f +:+ " flavors and taste profiles.".

Definition style_clause (s : string) : string :=
  "
    RECIPE STYLE: Create recipes in " +:+ s +:+ " cuisine style with authentic flavors and techniques.".

Definition reinvent_flavor_clause (f : string) : string :=
  "
    FLAVOR FOCUS: Create reinvented versions that emphasize " +:+ f +:+ " flavors and taste profiles.".

Definition reinvent_style_clause (s : string) : string :=
  "
    RECIPE STYLE: Create reinvented versions in " +:+ s +:+ " cuisine style with authentic flavors and techniques.".

(** A filter value that asks for nothing: absent, empty or the sentinel. *)
Definition no_preference (sentinel : string) (v : option string) : Prop :=
  v = None \/ v = Some EmptyString \/ v = Some sentinel.

(** The words that open an exclusion clause. *)
Definition exclusion_mark : string := "IMPORTANT: Do NOT include".

(** The request [r] with the two filters [f] and [s]. *)
Definition with_filters (r : RecipeReinventionRequest) (f s : option string)
    : RecipeReinventionRequest := {|
  rr_dishName := rr_dishName r;
  rr_chefPersonality := rr_chefPersonality r;
  rr_dietaryPreference := rr_dietaryPreference r;
  rr_excludeIngredients := rr_excludeIngredients r;
  rr_flavorProfile := f;
  rr_recipeStyle := s
|}.

(** A request to reinvent a dish, for the examples. *)
Definition sample_reinvention : RecipeReinventionRequest := {|
  rr_dishName := "Maggi";
  rr_chefPersonality := "quick_chef";
  rr_dietaryPreference := None;
  rr_excludeIngredients := None;
  rr_flavorProfile := Some "Spicy";
  rr_recipeStyle := Some "No Preference"
|}.

(** The payload has no [recipes] to read: it is not an object, or it is an
    object without that key. *)
Definition recipes_absent (v : JSON) : Prop :=
  forall x, get_member v "recipes" <> Return (Some x).

(** The parsed payload with [x] as its [recipes]. *)
Definition override_recipes (x : JSON) (v : JSON) : JSON :=
  match v with
  | JObj fields => JObj (<["recipes" := x]> fields)
  | _ => v
  end.

(** Two recipes and a request for their schedule, for the examples. *)
Definition sample_dal : Recipe := {|
  r_recipeName := "Dal";
  r_ingredients := ["1 cup red lentils"; "2 tomatoes"; "1 tsp cumin"];
  r_cookingTime := "30 minutes";
  r_difficulty := Easy;
  r_instructions := ["Rinse the lentils"; "Simmer with tomatoes"; "Temper the cumin"];
  r_calories := "320 calories";
  r_servingSize := "Serves 4";
  r_nutrition := {| protein := "18g"; carbs := "45g"; fat := "6g";
                    fiber := "12g"; sodium := "380mg" |};
  r_prepTime := Some "10 minutes";
  r_cookTime := Some "20 minutes";
  r_chefPersonality := Some "budget_mom";
  r_personalityTips := None
|}.

Definition sample_rice : Recipe := {|
  r_recipeName := "Jeera Rice";
  r_ingredients := ["1 cup rice"; "1 tsp cumin"];
  r_cookingTime := "25 minutes";
  r_difficulty := Easy;
  r_instructions := ["Wash the rice"; "Boil until tender"];
  r_calories := "210 calories";
  r_servingSize := "Serves 4";
  r_nutrition := {| protein := "4g"; carbs := "44g"; fat := "2g";
                    fiber := "1g"; sodium := "150mg" |};
  r_prepTime := None;
  r_cookTime := None;
  r_chefPersonality := None;
  r_personalityTips := None
|}.

Definition sample_schedule_request : CookingPathRequest := {|
  cp_recipes := [sample_dal; sample_rice];
  cp_skillLevel := "beginner";
  cp_kitchenEquipment := None;
  cp_preferredServingTime := Some "19:00"
|}.

(** What the handler shared by [generateRecipes] and [reinventRecipe] does
    with a response. *)
Definition recipes_outcome (env : Env) (label message persona : string)
    (response : GenerateContentResponse) (w : World)
    : Outcome (list RecipeObject) * World :=
  let failed := (Throw (Error message), logged w label (LogText (response_text response))) in
  match response_text response with
  | Some t =>
      match JSON_parse env (trim t) with
      | Some (JObj fields) =>
          match fields !! "recipes" with
          | Some (JArr items) => (Return (List.map (with_personality persona) items), w)
          | _ => failed
          end
      | _ => failed
      end
  | None => failed
  end.

(** The list [rs] is the array [items] of a response, stamped with
    [persona]: one recipe for each element, in order; each has [persona] as
    its [chefPersonality]; the recipe made from an element that is an object
    has what the element has under every other key. *)
Definition stamped (persona : string) (items : list JSON) (rs : list RecipeObject) : Prop :=
  length rs = length items
  /\ forall i item, items !! i = Some item ->
       exists r : RecipeObject,
         rs !! i = Some r
         /\ r !! "chefPersonality" = Some (JStr persona)
         /\ forall o k, item = JObj o -> k <> "chefPersonality" -> r !! k = o !! k.

(** Sample payloads, with the value [JSON.parse] gives each. *)
Definition payload_without_recipes : string := "{}".

Definition payload_two_recipes : string :=
  "{" +:+ dq +:+ "recipes" +:+ dq +:+ ":[{" +:+ dq +:+ "recipeName" +:+ dq +:+ ":"
  +:+ dq +:+ "Dal" +:+ dq +:+ "," +:+ dq +:+ "chefPersonality" +:+ dq +:+ ":"
  +:+ dq +:+ "budget_mom" +:+ dq +:+ "},{" +:+ dq +:+ "recipeName" +:+ dq +:+ ":"
  +:+ dq +:+ "Rice" +:+ dq +:+ "}]}".

(** The recipes of [payload_two_recipes]: the first one has a persona id,
    the second one has none. *)
Definition two_recipes : list JSON :=
  [ JObj (<["chefPersonality" := JStr "budget_mom"]> {["recipeName" := JStr "Dal"]});
    JObj {["recipeName" := JStr "Rice"]} ].

Definition parsed_two_recipes : JSON := JObj {[ "recipes" := JArr two_recipes ]}.

Definition payload_schedule : string :=
  "{" +:+ dq +:+ "totalTime" +:+ dq +:+ ":45," +:+ dq +:+ "recipes" +:+ dq +:+ ":[{"
  +:+ dq +:+ "recipeName" +:+ dq +:+ ":" +:+ dq +:+ "Dal" +:+ dq +:+ ","
  +:+ dq +:+ "estimatedFinishTime" +:+ dq +:+ ":" +:+ dq +:+ "18:55" +:+ dq +:+ "}]}".

Definition parsed_schedule : JSON :=
  JObj (<["totalTime" := JNum 45]>
          {[ "recipes" :=
               JArr [ JObj (<["estimatedFinishTime" := JStr "18:55"]>
                              {["recipeName" := JStr "Dal"]}) ] ]}).

Definition payload_ingredients_zero : string :=
  "{" +:+ dq +:+ "ingredients" +:+ dq +:+ ":0}".

Definition sample_payloads : list (string * JSON) :=
  [ (payload_without_recipes, JObj ∅);
    ("null", JNull);
    (payload_ingredients_zero, JObj {["ingredients" := JNum 0]});
    (payload_two_recipes, parsed_two_recipes);
    (payload_schedule, parsed_schedule) ].

(** A service that gives no image: the request is rejected, the status is
    not a success, or the body cannot be read. *)
Definition no_image (answer : option HttpResponse) : Prop :=
  match answer with
  | None => True
  | Some response => ok response = false \/ image response = None
  end.

(** A text without its spaces: the characters of its words, in order. *)
Fixpoint unspaced (s : string) : string :=
  match s with
  | EmptyString => EmptyString
  | String c s' => if (code c =? 32)%nat then unspaced s' else String c (unspaced s')
  end.

(** The lines of text drawn on a canvas, in order. *)
Definition drawn_text (ops : list DrawOp) : list string :=
  omap (fun op => match op with
                  | FillText _ _ _ _ text _ _ => Some text
                  | FillRect _ _ _ _ _ => None
                  end) ops.

(** A recipe whose name has a character above U+00FF (the apostrophe
    U+2019), and one whose name has none. *)
Definition moms_dal : ImageRecipe := {|
  recipeName := "Mom’s Dal";
  ingredients := ["1 cup red lentils"; "2 tomatoes"; "1 tsp cumin"];
  instructions := ["Rinse the lentils"; "Simmer with tomatoes"; "Temper the cumin"]
|}.

Definition creme_brulee : ImageRecipe := {|
  recipeName := "Crème Brûlée";
  ingredients := ["4 egg yolks"; "2 cups cream"; "sugar"];
  instructions := ["Whisk"; "Bake in a water bath"; "Torch the sugar"]
|}.

(** The first half of a surrogate pair, U+D83C, without its second half:
    what [JSON.parse] makes of the escape [\ud83c]; and a recipe whose name
    ends with it. *)
Definition lone_surrogate : string := bytes [0xED; 0xA0; 0xBC]%N.

Definition torn_cake : ImageRecipe := {|
  recipeName := "Birthday Cake " +:+ lone_surrogate;
  ingredients := ["2 cups flour"; "1 cup sugar"; "3 eggs"];
  instructions := ["Mix"; "Bake for 30 minutes"]
|}.

(** The lines of a text, one after the other. *)
Definition flat (lines : list string) : string :=
  fold_right String.append EmptyString lines.

(** The request sent to the second service, for a text that can be encoded. *)
Definition fallback_request (recipe : ImageRecipe) (seed : N) : HttpRequest :=
  GET (fallback_url (escape (fallback_prompt_text recipe)) seed).

(** What the second tier throws on an answer that gives no image. *)
Definition fallback_error (answer : option HttpResponse) : Exn :=
  match answer with
  | None => NetworkError
  | Some response =>
      if ok response then ReadError else Error "Failed to generate image"
  end.

(** A text of ASCII characters that are their own lower case. *)
Definition small (n : string) : Prop :=
  Forall (fun c => (byte c <? 0x80)%N = true /\ lower_point (byte c) = [byte c])
         (list_ascii_of_string n).

(** Answers of the image services for the examples: the first request is
    refused, the second one gives an image. *)
Definition second_answers (n : nat) : option HttpResponse :=
  match n with
  | 0 => Some {| ok := false; image := None |}
  | 1 => Some {| ok := true; image := Some "data:image/jpeg;base64,/9j/4AAQSkZJRg==" |}
  | _ => None
  end.

(** ** Readers of what the encoders write *)

(** The value of an upper-case hexadecimal digit. *)
Definition hex_value (c : ascii) : option nat :=
  let n := code c in
  if between 48 57 n then Some (n - 48)
  else if between 65 70 n then Some (n - 55)
  else None.

(** The bytes a server reads from a percent-encoded text. *)
Fixpoint percent_decode (s : string) : option string :=
  match s with
  | EmptyString => Some EmptyString
  | String c r =>
      if (code c =? 37)%nat then
        match r with
        | String h (String l r') =>
            match hex_value h, hex_value l with
            | Some x, Some y =>
                String (ascii_of_nat (16 * x + y)) <$> percent_decode r'
            | _, _ => None
            end
        | _ => None
        end
      else String c <$> percent_decode r
  end.

(** A text that can stand in a URL path as it is: unreserved marks and
    percent escapes only. *)
Definition url_safe (s : string) : Prop :=
  Forall (fun c => unreserved c = true \/ c = "%"%char) (list_ascii_of_string s).

(** The place of a digit in the alphabet of base 64. *)
Fixpoint index_of (c : ascii) (s : string) : option N :=
  match s with
  | EmptyString => None
  | String d r => if Ascii.eqb c d then Some 0%N else N.succ <$> index_of c r
  end.

Definition b64_value (c : ascii) : option N :=
  index_of c "ABCDEFGHIJKLMNOPQRSTUVWXYZabcdefghijklmnopqrstuvwxyz0123456789+/".

(** The bytes that a text of base 64 stands for. *)
Fixpoint base64_decode (s : string) : option (list N) :=
  match s with
  | EmptyString => Some []
  | String c0 (String c1 (String c2 (String c3 r))) =>
      match b64_value c0, b64_value c1 with
      | Some v0, Some v1 =>
          if (code c2 =? 61)%nat then
            if (code c3 =? 61)%nat && negb (nonempty r)
            then Some [(v0 * 4 + v1 / 16)%N]
            else None
          else
            match b64_value c2 with
            | Some v2 =>
                if (code c3 =? 61)%nat then
                  if negb (nonempty r)
                  then Some [(v0 * 4 + v1 / 16)%N; (v1 mod 16 * 16 + v2 / 4)%N]
                  else None
                else
                  match b64_value c3, base64_decode r with
                  | Some v3, Some rest =>
                      Some ((v0 * 4 + v1 / 16)%N :: (v1 mod 16 * 16 + v2 / 4)%N
                            :: (v2 mod 4 * 64 + v3)%N :: rest)
                  | _, _ => None
                  end
            | None => None
            end
      | _, _ => None
      end
  | _ => None
  end.

(** ** The presentation styles, as a table

    An entry has the keywords looked up in the name, the keywords looked up
    in the ingredients, and the phrase; the first entry with a keyword in its
    text wins. *)
Definition presentation_styles : list (list string * list string * string) :=
  [ (["salad"], [],
     "fresh greens and colorful vegetables arranged elegantly on a clean white plate");
    (["soup"; "broth"], [],
     "served in a beautiful ceramic bowl with garnish on a marble surface");
    (["pasta"; "noodle"], [],
     "perfectly twirled pasta with sauce coating on an elegant plate");
    (["steak"; "chicken"; "fish"], [],
     "tender protein as the centerpiece with sides on a slate board");
    (["curry"; "stew"], [],
     "rich, aromatic sauce with visible ingredients in a traditional serving bowl");
    (["sandwich"; "burger"], [],
     "layered ingredients and toasted bread on parchment paper with a clean background");
    (["pizza"], [],
     "golden crust with melted cheese and toppings on a pizza stone");
    (["dessert"; "cake"], ["sugar"],
     "elegant plating with decorative elements on fine dinnerware");
    ([], ["rice"],
     "fluffy rice with colorful ingredients mixed in a beautiful serving dish");
    (["smoothie"; "drink"], [],
     "in a stylish glass with garnish against a clean backdrop") ].

Definition first_presentation (table : list (list string * list string * string))
    (name ingredientText : string) : string :=
  match List.find (fun entry =>
                     existsb (includes name) (fst (fst entry))
                     || existsb (includes ingredientText) (snd (fst entry))) table with
  | Some entry => snd entry
  | None => "artisanal presentation with modern plating on neutral background"
  end.

(** ** Requests and worlds, for the statements *)

(** The request [r] with the exclusion string [x]. *)
Definition with_exclusion (r : RecipeReinventionRequest) (x : option string)
    : RecipeReinventionRequest := {|
  rr_dishName := rr_dishName r;
  rr_chefPersonality := rr_chefPersonality r;
  rr_dietaryPreference := rr_dietaryPreference r;
  rr_excludeIngredients := x;
  rr_flavorProfile := rr_flavorProfile r;
  rr_recipeStyle := rr_recipeStyle r
|}.

(** The request [r] with the dietary preference [d]. *)
Definition with_dietary (r : RecipeReinventionRequest) (d : option string)
    : RecipeReinventionRequest := {|
  rr_dishName := rr_dishName r;
  rr_chefPersonality := rr_chefPersonality r;
  rr_dietaryPreference := d;
  rr_excludeIngredients := rr_excludeIngredients r;
  rr_flavorProfile := rr_flavorProfile r;
  rr_recipeStyle := rr_recipeStyle r
|}.

(** The request [r] with the persona [p]. *)
Definition with_persona (r : RecipeReinventionRequest) (p : string)
    : RecipeReinventionRequest := {|
  rr_dishName := rr_dishName r;
  rr_chefPersonality := p;
  rr_dietaryPreference := rr_dietaryPreference r;
  rr_excludeIngredients := rr_excludeIngredients r;
  rr_flavorProfile := rr_flavorProfile r;
  rr_recipeStyle := rr_recipeStyle r
|}.

(** A line fits the canvas: its width is at most 400. *)
Definition fits (env : Env) (font line : string) : Prop :=
  Qle_bool (measureText_width env font line) 400%Q = true.

(** A line as the wrapping leaves it: one of the words [all] standing alone,
    or a line that fits. *)
Definition line_ok (env : Env) (font : string) (all : list string) (line : string) : Prop :=
  In line all \/ fits env font line.

(** Where the lines of text are drawn on a canvas, in order. *)
Definition text_positions (ops : list DrawOp) : list (Z * Z) :=
  omap (fun op => match op with
                  | FillText _ _ _ _ _ x y => Some (x, y)
                  | FillRect _ _ _ _ _ => None
                  end) ops.

(** The five fields of a schedule that come from the response. *)
Definition response_fields (schedule : CookingSchedule) : list (option JSON) :=
  [totalTime schedule; servingTime schedule; steps schedule;
   efficiencyTips schedule; timelineSummary schedule].

(** More sample payloads, with the value [JSON.parse] gives each. *)
Definition payload_ingredients_text : string :=
  "{" +:+ dq +:+ "ingredients" +:+ dq +:+ ":" +:+ dq +:+ "salt" +:+ dq +:+ "}".

Definition payload_mixed_recipes : string :=
  "{" +:+ dq +:+ "recipes" +:+ dq +:+ ":[null,{" +:+ dq +:+ "recipeName" +:+ dq +:+ ":"
  +:+ dq +:+ "Dal" +:+ dq +:+ "}]}".

Definition payload_recipes_text : string :=
  "{" +:+ dq +:+ "recipes" +:+ dq +:+ ":" +:+ dq +:+ "three recipes" +:+ dq +:+ "}".

Definition more_payloads : list (string * JSON) :=
  [ (payload_ingredients_text, JObj {["ingredients" := JStr "salt"]});
    (payload_recipes_text, JObj {["recipes" := JStr "three recipes"]});
    (payload_mixed_recipes,
     JObj {["recipes" := JArr [JNull; JObj {["recipeName" := JStr "Dal"]}]]});
    ("[]", JArr []);
    ("null", JNull);
    ("{}", JObj ∅) ].

(** An environment whose model rejects every call with [e]. *)
Definition rejecting (e : Exn) : Env := {|
  JSON_parse := JSON_parse offline;
  generateContent := fun _ => Throw e;
  fetch := fetch offline;
  random_seed := random_seed offline;
  context2d := context2d offline;
  measureText_width := measureText_width offline;
  encode_canvas := encode_canvas offline
|}.

(** Answers of the image services for the examples: the first service gives
    an image; and every request is refused. *)
Definition first_answers (n : nat) : option HttpResponse :=
  match n with
  | 0 => Some {| ok := true; image := Some "data:image/png;base64,iVBORw0KGgo=" |}
  | _ => None
  end.

Definition refusals (n : nat) : option HttpResponse :=
  Some {| ok := false; image := None |}.

(** An environment without drawing context in which the image services
    answer the n-th request with [answers n]. *)
Definition headless (answers : nat -> option HttpResponse) : Env := {|
  JSON_parse := JSON_parse offline;
  generateContent := generateContent offline;
  fetch := fun _ n => answers n;
  random_seed := random_seed offline;
  context2d := false;
  measureText_width := measureText_width offline;
  encode_canvas := encode_canvas offline
|}.

(** * Properties *)

(** ** Strings *)

Section StringFacts.

Lemma append_assoc (a b c : string) : (a +:+ b) +:+ c = a +:+ (b +:+ c).
Proof. induction a as [|x a IH]; simpl; [reflexivity | now f_equal]. Qed.

Lemma append_empty_r (a : string) : a +:+ EmptyString = a.
Proof. induction a as [|x a IH]; simpl; [reflexivity | now f_equal]. Qed.

Lemma prefix_append (n b : string) : String.prefix n (n +:+ b) = true.
Proof.
  induction n as [|x n IH]; simpl; [now destruct b |].
  destruct (ascii_dec x x); [exact IH | contradiction].
Qed.

Lemma includes_prefix (s n : string) : String.prefix n s = true -> includes s n = true.
Proof. intros H. destruct s; cbn [includes]; now rewrite H. Qed.

Lemma includes_cons (x : ascii) (s n : string) :
  includes s n = true -> includes (String x s) n = true.
Proof. intros H. cbn [includes]. rewrite H. now destruct (String.prefix n (String x s)). Qed.

Lemma includes_append (a n b : string) : includes (a +:+ n +:+ b) n = true.
Proof.
  induction a as [|x a IH]; simpl.
  - apply includes_prefix, prefix_append.
  - now apply includes_cons.
Qed.

Lemma prefix_inv (n s : string) :
  String.prefix n s = true -> exists b, s = n +:+ b.
Proof.
  revert s. induction n as [|x n IH]; intros s H.
  - exists s. reflexivity.
  - destruct s as [|y s]; simpl in H; [discriminate |].
    destruct (ascii_dec x y) as [->|]; [| discriminate].
    destruct (IH _ H) as [b ->]. now exists b.
Qed.

Lemma includes_inv (s n : string) :
  includes s n = true -> exists a b, s = a +:+ n +:+ b.
Proof.
  induction s as [|x s IH]; cbn [includes]; intros H.
  - destruct (String.prefix n EmptyString) eqn:Hp; [| discriminate].
    destruct (prefix_inv _ _ Hp) as [b Hb]. now exists EmptyString, b.
  - destruct (String.prefix n (String x s)) eqn:Hp.
    + destruct (prefix_inv _ _ Hp) as [b Hb]. now exists EmptyString, b.
    + destruct (IH H) as (a & b & ->). now exists (String x a), b.
Qed.

Lemma join_elem (sep x : string) (l : list string) :
  In x l -> exists a b, join sep l = a +:+ x +:+ b.
Proof.
  induction l as [|y l IH]; intros Hin; [contradiction |].
  destruct Hin as [-> | Hin].
  - exists EmptyString. destruct l as [|z l]; simpl.
    + exists EmptyString. now rewrite append_empty_r.
    + now exists (sep +:+ join sep (z :: l)).
  - destruct (IH Hin) as (a & b & Hj). destruct l as [|z l]; [contradiction |].
    exists (y +:+ sep +:+ a), b.
    change (join sep (y :: z :: l)) with (y +:+ sep +:+ join sep (z :: l)).
    now rewrite Hj, !append_assoc.
Qed.

Lemma byte_ascii (c : ascii) : (byte c <? 0x80)%N = true -> continuation (byte c) = false.
Proof.
  intros H. apply N.ltb_lt in H. unfold continuation.
  apply andb_false_intro1. apply N.leb_gt. exact H.
Qed.

(** One step of [points]. *)
Lemma points_cons (a : ascii) (r : string) :
  points (String a r)
  = let x := byte a in
    if (x <? 0x80)%N then x :: points r
    else
      match r with
      | String b r1 =>
          if two x (byte b) then ((x - 0xC0) * 64 + (byte b - 0x80))%N :: points r1
          else
            match r1 with
            | String c r2 =>
                if three x (byte b) (byte c)
                then ((x - 0xE0) * 4096 + (byte b - 0x80) * 64 + (byte c - 0x80))%N
                     :: points r2
                else
                  match r2 with
                  | String d r3 =>
                      if four x (byte b) (byte c) (byte d)
                      then ((x - 0xF0) * 262144 + (byte b - 0x80) * 4096
                            + (byte c - 0x80) * 64 + (byte d - 0x80))%N :: points r3
                      else stray x :: points r
                  | EmptyString => stray x :: points r
                  end
            | EmptyString => stray x :: points r
            end
      | EmptyString => [stray x]
      end.
Proof. destruct r as [|b [|c [|d r3]]]; reflexivity. Qed.

Lemma points_ascii (c : ascii) (r : string) :
  (byte c <? 0x80)%N = true -> points (String c r) = byte c :: points r.
Proof. intros H. rewrite points_cons. cbv zeta. now rewrite H. Qed.

(** The code points of a text that an ASCII character follows do not depend
    on what comes after them. *)
Lemma points_before (n : nat) (a : string) :
  String.length a <= n ->
  exists P, forall c rest, continuation (byte c) = false ->
    points (a +:+ String c rest) = (P ++ points (String c rest))%list.
Proof.
  revert a. induction n as [|n IH]; intros a Hlen.
  - destruct a; [| simpl in Hlen; lia]. exists []. reflexivity.
  - destruct a as [|a0 a]; [exists []; reflexivity |].
    simpl in Hlen.
    destruct (IH a ltac:(lia)) as [P0 HP0].
    destruct (byte a0 <? 0x80)%N eqn:H0.
    { exists (byte a0 :: P0). intros c rest Hc.
      change (String a0 a +:+ String c rest) with (String a0 (a +:+ String c rest)).
      rewrite (points_ascii a0 _ H0), (HP0 c rest Hc). reflexivity. }
    assert (Hstray : forall c rest, continuation (byte c) = false ->
              (stray (byte a0) :: points (a +:+ String c rest)
               = (stray (byte a0) :: P0) ++ points (String c rest))%list).
    { intros c rest Hc. now rewrite (HP0 c rest Hc). }
    destruct a as [|a1 a].
    { exists [stray (byte a0)]. intros c rest Hc.
      change (String a0 EmptyString +:+ String c rest) with (String a0 (String c rest)).
      rewrite (points_cons a0). cbv beta iota zeta. rewrite H0.
      unfold two, three, four. rewrite Hc. cbn [andb].
      destruct rest as [|d [|e r3]]; reflexivity. }
    simpl in Hlen.
    destruct (IH a ltac:(lia)) as [P1 HP1].
    destruct (two (byte a0) (byte a1)) eqn:H2.
    { exists (((byte a0 - 0xC0) * 64 + (byte a1 - 0x80))%N :: P1). intros c rest Hc.
      change (String a0 (String a1 a) +:+ String c rest)
        with (String a0 (String a1 (a +:+ String c rest))).
      rewrite (points_cons a0). cbv beta iota zeta.
      rewrite H0, H2, (HP1 c rest Hc). reflexivity. }
    destruct a as [|a2 a].
    { exists (stray (byte a0) :: P0). intros c rest Hc.
      rewrite <- (Hstray c rest Hc).
      change (String a0 (String a1 EmptyString) +:+ String c rest)
        with (String a0 (String a1 (String c rest))).
      change (String a1 EmptyString +:+ String c rest) with (String a1 (String c rest)).
      rewrite (points_cons a0). cbv beta iota zeta. rewrite H0, H2.
      unfold three, four. rewrite Hc, !andb_false_r. cbn [andb].
      destruct rest as [|d r3]; reflexivity. }
    simpl in Hlen.
    destruct (IH a ltac:(lia)) as [P2 HP2].
    destruct (three (byte a0) (byte a1) (byte a2)) eqn:H3.
    { exists (((byte a0 - 0xE0) * 4096 + (byte a1 - 0x80) * 64 + (byte a2 - 0x80))%N :: P2).
      intros c rest Hc.
      change (String a0 (String a1 (String a2 a)) +:+ String c rest)
        with (String a0 (String a1 (String a2 (a +:+ String c rest)))).
      rewrite (points_cons a0). cbv beta iota zeta.
      rewrite H0, H2, H3, (HP2 c rest Hc). reflexivity. }
    destruct a as [|a3 a].
    { exists (stray (byte a0) :: P0). intros c rest Hc.
      rewrite <- (Hstray c rest Hc).
      change (String a0 (String a1 (String a2 EmptyString)) +:+ String c rest)
        with (String a0 (String a1 (String a2 (String c rest)))).
      change (String a1 (String a2 EmptyString) +:+ String c rest)
        with (String a1 (String a2 (String c rest))).
      rewrite (points_cons a0). cbv beta iota zeta. rewrite H0, H2, H3.
      unfold four. rewrite Hc, !andb_false_r. cbn [andb]. reflexivity. }
    simpl in Hlen.
    destruct (IH a ltac:(lia)) as [P3 HP3].
    destruct (four (byte a0) (byte a1) (byte a2) (byte a3)) eqn:H4.
    { exists (((byte a0 - 0xF0) * 262144 + (byte a1 - 0x80) * 4096
               + (byte a2 - 0x80) * 64 + (byte a3 - 0x80))%N :: P3).
      intros c rest Hc.
      change (String a0 (String a1 (String a2 (String a3 a))) +:+ String c rest)
        with (String a0 (String a1 (String a2 (String a3 (a +:+ String c rest))))).
      rewrite (points_cons a0). cbv beta iota zeta.
      rewrite H0, H2, H3, H4, (HP3 c rest Hc). reflexivity. }
    exists (stray (byte a0) :: P0). intros c rest Hc.
    rewrite <- (Hstray c rest Hc).
    change (String a0 (String a1 (String a2 (String a3 a))) +:+ String c rest)
      with (String a0 (String a1 (String a2 (String a3 (a +:+ String c rest))))).
    change (String a1 (String a2 (String a3 a)) +:+ String c rest)
      with (String a1 (String a2 (String a3 (a +:+ String c rest)))).
    rewrite (points_cons a0). cbv beta iota zeta. now rewrite H0, H2, H3, H4.
Qed.

Lemma lower_points_app (p : bool) (l1 l2 : list N) :
  exists X q, lower_points p (l1 ++ l2)%list = (X ++ lower_points q l2)%list.
Proof.
  revert p. induction l1 as [|c l1 IH]; intros p.
  - exists [], p. reflexivity.
  - cbn [app lower_points].
    destruct (IH (if case_ignorable c then p else cased c)) as (X & q & ->).
    eexists _, q. now rewrite app_assoc.
Qed.

Lemma text_app (l1 l2 : list N) : text (l1 ++ l2)%list = text l1 +:+ text l2.
Proof.
  induction l1 as [|c l1 IH]; [reflexivity |].
  cbn [app]. change (text (c :: ?l)) with (utf8 c +:+ text l).
  now rewrite IH, append_assoc.
Qed.

Lemma utf8_ascii (c : ascii) :
  (byte c <? 0x80)%N = true -> utf8 (byte c) = String c EmptyString.
Proof.
  intros H. unfold utf8. rewrite H. cbn [bytes fold_right]. unfold byte.
  now rewrite ascii_N_embedding.
Qed.

(** A small text stays as it is in the lower case of what it is in. *)
Lemma lower_points_small (n : string) : small n ->
  forall p rest, exists q,
    text (lower_points p (points (n +:+ rest))) = n +:+ text (lower_points q (points rest)).
Proof.
  unfold small. induction n as [|c n IH]; intros Hn p rest.
  - now exists p.
  - cbn [list_ascii_of_string] in Hn. inversion_clear Hn as [|? ? [Hc Hl] Hrest].
    change (String c n +:+ rest) with (String c (n +:+ rest)).
    rewrite (points_ascii c _ Hc). cbn [lower_points].
    replace (byte c =? 0x3A3)%N with false
      by (symmetry; apply N.eqb_neq; apply N.ltb_lt in Hc; lia).
    rewrite Hl. cbn [app].
    destruct (IH Hrest (if case_ignorable (byte c) then p else cased (byte c)) rest)
      as [q Hq].
    exists q. change (text (byte c :: ?l)) with (utf8 (byte c) +:+ text l).
    now rewrite Hq, (utf8_ascii c Hc).
Qed.

Lemma toLowerCase_includes (s n : string) :
  small n -> nonempty n = true -> includes s n = true ->
  includes (toLowerCase s) n = true.
Proof.
  intros Hn Hne H. destruct (includes_inv _ _ H) as (a & b & ->).
  unfold toLowerCase.
  destruct n as [|c n]; [discriminate |].
  assert (Hc : continuation (byte c) = false).
  { apply byte_ascii. unfold small in Hn. cbn [list_ascii_of_string] in Hn.
    now inversion_clear Hn as [|? ? [Hc _] _]. }
  destruct (points_before (String.length a) a (le_n _)) as [P HP].
  change (String c n +:+ b) with (String c (n +:+ b)).
  rewrite (HP c (n +:+ b) Hc).
  destruct (lower_points_app false P (points (String c (n +:+ b)))) as (X & q & ->).
  rewrite text_app.
  change (String c (n +:+ b)) with (String c n +:+ b).
  destruct (lower_points_small (String c n) Hn q b) as [q' ->].
  apply includes_append.
Qed.

Lemma small_bake : small "bake".
Proof. unfold small. cbn [list_ascii_of_string]. repeat constructor. Qed.

(** The lower case of accented capitals, of the Kelvin sign U+212A, of the
    dotted capital I U+0130, of the capital sigma in and at the end of a word,
    and of a surrogate without its partner. *)
Example toLowerCase_samples :
  toLowerCase "Crème BRÛLÉE" = "crème brûlée"
  /\ toLowerCase "BAKE" = "bake"
  /\ toLowerCase "İ" = "i̇"
  /\ toLowerCase "ΟΔΟΣ ΣΟΦΙΑΣ" = "οδος σοφιας"
  /\ toLowerCase ("CAKE " +:+ lone_surrogate) = "cake " +:+ lone_surrogate.
Proof. vm_compute. repeat split. Qed.

(** The spread of a string has one index for each code unit: one for a
    character of the Basic Multilingual Plane, whatever the number of its
    bytes, and two for a character above U+FFFF. *)
Example spread_string_samples :
  spread (JStr "né") !! "1" = Some (JStr "é")
  /\ spread (JStr "né") !! "2" = None
  /\ spread (JStr "🍰") !! "0" = Some (JStr lone_surrogate)
  /\ spread (JStr "🍰") !! "1" = Some (JStr (bytes [0xED; 0xBD; 0xB0]%N))
  /\ spread (JStr "🍰") !! "2" = None.
Proof. vm_compute. repeat split. Qed.

End StringFacts.

(** ** The cooking-method phrase *)

Section CookingMethod.

Lemma extractCookingMethod_first_match (instructions : list string) :
  extractCookingMethod instructions
  = first_match cooking_methods (toLowerCase (join " " instructions)).
Proof.
  unfold extractCookingMethod, first_match, cooking_methods.
  set (text := toLowerCase (join " " instructions)).
  cbn [List.find existsb fst snd].
  repeat match goal with
         | |- context [includes text ?k] =>
             destruct (includes text k); cbn [orb]; try reflexivity
         end.
Qed.

Lemma extractCookingMethod_bake (instructions : list string) (x : string) :
  In x instructions -> includes x "bake" = true ->
  extractCookingMethod instructions = "baked to perfection".
Proof.
  intros Hin Hx.
  assert (Ht : includes (toLowerCase (join " " instructions)) "bake" = true).
  { apply toLowerCase_includes; [exact small_bake | reflexivity |].
    destruct (join_elem " " x instructions Hin) as (a & b & ->).
    destruct (includes_inv _ _ Hx) as (c & d & ->).
    rewrite !append_assoc, <- (append_assoc a c). apply includes_append. }
  unfold extractCookingMethod. now rewrite Ht.
Qed.

Lemma first_match_none (text : string) :
  Forall (fun k => includes text k = false) cooking_keywords ->
  first_match cooking_methods text = "expertly prepared".
Proof.
  intros H. unfold cooking_keywords, cooking_methods in H. simpl in H.
  unfold first_match, cooking_methods.
  cbn [List.find existsb fst snd].
  repeat match goal with
         | H : Forall _ (_ :: _) |- _ => inversion_clear H
         end.
  repeat match goal with
         | H : includes text _ = false |- _ => rewrite H; clear H
         end.
  reflexivity.
Qed.

(** C5, as stated, fails: a text with [oven] holds none of the keywords the
    claim lists, in the letters it is written in or in lower case, and
    selects the baked phrase, not the default one. *)
Lemma cooking_method_oven_counterexample :
  let instructions := ["Preheat the oven"; "Cook for one hour"] in
  Forall (fun k => includes (join " " instructions) k = false) listed_keywords
  /\ Forall (fun k => includes (instructionsText instructions) k = false)
            listed_keywords
  /\ extractCookingMethod instructions = "baked to perfection"
  /\ extractCookingMethod instructions <> "expertly prepared".
Proof.
  cbv zeta. split; [| split; [| split]].
  - unfold listed_keywords. repeat constructor.
  - unfold listed_keywords. repeat constructor.
  - reflexivity.
  - vm_compute. discriminate.
Qed.

(** C5, amended: the phrase is the one of the first entry of the ordered
    table (bake/oven, fry/pan, grill, boil/simmer, steam, roast, sauté,
    mix/toss) that has a keyword in the instructions, joined and put in lower
    case; instructions with [bake] in them select the baked phrase;
    instructions with none of the keywords of the table, [oven] among them,
    select the default phrase [expertly prepared]; with [bake] and [grill]
    together the baked phrase is selected. *)
Theorem extractCookingMethod_selection (instructions : list string) :
  extractCookingMethod instructions
  = first_match cooking_methods (instructionsText instructions)
  /\ ((exists x, In x instructions /\ includes x "bake" = true) ->
      extractCookingMethod instructions = "baked to perfection")
  /\ (Forall (fun k => includes (instructionsText instructions) k = false)
             cooking_keywords ->
      extractCookingMethod instructions = "expertly prepared")
  /\ (includes (instructionsText instructions) "bake" = true ->
      includes (instructionsText instructions) "grill" = true ->
      extractCookingMethod instructions = "baked to perfection").
Proof.
  split; [| split; [| split]].
  - apply extractCookingMethod_first_match.
  - intros (x & Hin & Hx). now apply extractCookingMethod_bake with x.
  - intros H. rewrite extractCookingMethod_first_match. now apply first_match_none.
  - intros Hb _. unfold extractCookingMethod. fold (instructionsText instructions).
    now rewrite Hb.
Qed.

Lemma extractCookingMethod_selection_witness :
  extractCookingMethod ["Grill the fish"; "then bake it"] = "baked to perfection"
  /\ extractCookingMethod ["Chop"; "Serve"] = "expertly prepared"
  /\ extractCookingMethod ["BAKE for 20 minutes"; "GRILL the top"]
     = "baked to perfection".
Proof.
  split; [| split].
  - destruct (extractCookingMethod_selection ["Grill the fish"; "then bake it"])
      as (_ & Hbake & _).
    apply Hbake. exists "then bake it". split; [simpl; auto | reflexivity].
  - destruct (extractCookingMethod_selection ["Chop"; "Serve"]) as (_ & _ & Hnone & _).
    apply Hnone. vm_compute. repeat constructor.
  - destruct (extractCookingMethod_selection ["BAKE for 20 minutes"; "GRILL the top"])
      as (_ & _ & _ & Hfirst).
    apply Hfirst; vm_compute; reflexivity.
Defined.

End CookingMethod.

(** ** The persona table *)

Section Personas.

Lemma directives_distinct :
  NoDup [directive_MICHELIN; directive_BUDGET_MOM; directive_QUICK_CHEF; directive_default].
Proof.
  apply (bool_decide_unpack _). vm_compute. exact I.
Qed.

(** C6: the lookup is a total function; on each of the four persona ids it
    returns the fixed text of that persona, and on any other id it returns
    the text of the default persona. *)
Theorem getChefPersonalityPrompt_lookup (E : Enums) :
  personas_distinct E ->
  getChefPersonalityPrompt E (ChefPersonality_MICHELIN E) = directive_MICHELIN
  /\ getChefPersonalityPrompt E (ChefPersonality_BUDGET_MOM E) = directive_BUDGET_MOM
  /\ getChefPersonalityPrompt E (ChefPersonality_QUICK_CHEF E) = directive_QUICK_CHEF
  /\ getChefPersonalityPrompt E (ChefPersonality_NORMAL E) = directive_default
  /\ forall p,
       ~ In p [ChefPersonality_MICHELIN E; ChefPersonality_BUDGET_MOM E;
               ChefPersonality_QUICK_CHEF E; ChefPersonality_NORMAL E] ->
       getChefPersonalityPrompt E p = directive_default
       /\ getChefPersonalityPrompt E p
          = getChefPersonalityPrompt E (ChefPersonality_NORMAL E).
Proof.
  unfold personas_distinct, getChefPersonalityPrompt.
  destruct E as [m b q n fl st]; cbn [ChefPersonality_MICHELIN ChefPersonality_BUDGET_MOM
    ChefPersonality_QUICK_CHEF ChefPersonality_NORMAL].
  intros Hd.
  assert (Hne : m <> b /\ m <> q /\ m <> n /\ b <> q /\ b <> n /\ q <> n).
  { apply NoDup_ListNoDup in Hd.
    inversion_clear Hd as [|? ? Hm Hd1]. inversion_clear Hd1 as [|? ? Hb Hd2].
    inversion_clear Hd2 as [|? ? Hq _]. simpl in Hm, Hb, Hq. intuition. }
  destruct Hne as (Hmb & Hmq & Hmn & Hbq & Hbn & Hqn).
  assert (Hdefault : forall p, p <> m -> p <> b -> p <> q ->
    (if String.eqb p m then directive_MICHELIN
     else if String.eqb p b then directive_BUDGET_MOM
     else if String.eqb p q then directive_QUICK_CHEF
     else directive_default) = directive_default).
  { intros p Hm Hb Hq.
    apply String.eqb_neq in Hm, Hb, Hq. now rewrite Hm, Hb, Hq. }
  repeat split.
  - now rewrite String.eqb_refl.
  - assert (Hbm : b <> m) by congruence.
    apply String.eqb_neq in Hbm. now rewrite Hbm, String.eqb_refl.
  - assert (Hqm : q <> m) by congruence. assert (Hqb : q <> b) by congruence.
    apply String.eqb_neq in Hqm, Hqb. now rewrite Hqm, Hqb, String.eqb_refl.
  - apply Hdefault; congruence.
  - apply Hdefault; intros ->; apply H; simpl; auto.
  - rewrite (Hdefault n) by congruence.
    apply Hdefault; intros ->; apply H; simpl; auto.
Qed.

Lemma getChefPersonalityPrompt_lookup_witness :
  getChefPersonalityPrompt sample_enums "quick_chef" = directive_QUICK_CHEF
  /\ getChefPersonalityPrompt sample_enums "pirate" = directive_default.
Proof.
  assert (Hd : personas_distinct sample_enums).
  { apply (bool_decide_unpack _). vm_compute. exact I. }
  destruct (getChefPersonalityPrompt_lookup sample_enums Hd) as (_ & _ & Hq & _ & Hother).
  split; [exact Hq |].
  apply Hother. simpl. intros [H | [H | [H | [H | []]]]]; discriminate H.
Defined.

End Personas.

(** ** The optional clauses of the prompts *)

Section Clauses.

Variable E : Enums.

Lemma trim_nonempty (e : string) : nonempty (trim e) = true -> nonempty e = true.
Proof. destruct e; [discriminate | reflexivity]. Qed.

Lemma exclusionText_spec (x : option string) :
  exclusionText x
  = match x with
    | Some e => if nonempty (trim e) then exclusion_clause e else EmptyString
    | None => EmptyString
    end.
Proof.
  destruct x as [e|]; [| reflexivity]. unfold exclusionText, exclusion_clause.
  destruct (nonempty (trim e)) eqn:Ht.
  - now rewrite (trim_nonempty e Ht).
  - now rewrite andb_false_r.
Qed.

(** The shape shared by the four filter clauses. *)
Lemma optional_clause_spec (sentinel head tail : string) (v : option string) :
  let text :=
    match v with
    | Some x =>
        if nonempty x && negb (String.eqb x sentinel)
        then String "010" head +:+ x +:+ tail
        else EmptyString
    | None => EmptyString
    end in
  (text = EmptyString <-> no_preference sentinel v)
  /\ (forall x, v = Some x -> ~ no_preference sentinel v ->
      text = String "010" head +:+ x +:+ tail).
Proof.
  cbv zeta. unfold no_preference. destruct v as [x|].
  - destruct x as [|c x].
    + simpl. split; [tauto |]. intros ? _ H. exfalso. apply H. auto.
    + cbn [nonempty andb]. destruct (String.eqb_spec (String c x) sentinel) as [->|Hne].
      * simpl. split; [tauto |]. intros ? _ H. exfalso. apply H. auto.
      * cbn [negb]. split.
        -- split; [discriminate |].
           intros [H | [H | H]]; try discriminate H. congruence.
        -- intros y [= <-] _. reflexivity.
  - split; [tauto |]. intros ? [=].
Qed.

(** C7, as stated, fails: an exclusion string of one space is not empty, and
    the prompt built with it has no exclusion clause. *)
Lemma exclusion_blank_counterexample :
  let prompt x :=
    generateRecipes_prompt sample_enums ["egg"; "rice"] "None" x "normal" None None in
  nonempty " " = true
  /\ exclusionText (Some " ") = EmptyString
  /\ prompt (Some " ") = prompt None
  /\ occurrences (prompt (Some " ")) exclusion_mark = 0
  /\ occurrences (prompt (Some "nuts")) exclusion_mark = 1.
Proof. vm_compute. repeat split. Qed.

(** C7, amended: the prompt of [generateRecipes] is the prompt without
    exclusion with the value of the exclusion slot put in at one fixed place;
    that value is empty when the exclusion string is absent, empty or white
    space only, and is one exclusion clause holding the string verbatim when
    the string is not empty once trimmed. *)
Theorem exclusion_clause_embedding
    (ingredients : list string) (preference persona : string)
    (flavorProfile recipeStyle : option string) :
  exists before after,
    (forall x, generateRecipes_prompt E ingredients preference x persona
                 flavorProfile recipeStyle
               = before +:+ exclusionText x +:+ after)
    /\ exclusionText None = EmptyString
    /\ exclusionText (Some EmptyString) = EmptyString
    /\ (forall e, nonempty (trim e) = false -> exclusionText (Some e) = EmptyString)
    /\ (forall e, nonempty (trim e) = true -> exclusionText (Some e) = exclusion_clause e).
Proof.
  exists (recipes_text_0 +:+ getChefPersonalityPrompt E persona
          +:+ recipes_text_1 +:+ join ", " ingredients +:+ recipes_text_2
          +:+ (if String.eqb preference "None" then "no specific preference" else preference)
          +:+ recipes_text_3),
         (flavorText flavorProfile +:+ styleText recipeStyle +:+ recipes_text_4).
  split; [| split; [| split; [| split]]].
  - intros x. unfold generateRecipes_prompt. cbv zeta. now rewrite !append_assoc.
  - reflexivity.
  - reflexivity.
  - intros e He. now rewrite exclusionText_spec, He.
  - intros e He. now rewrite exclusionText_spec, He.
Qed.

End Clauses.

Lemma exclusion_clause_embedding_witness :
  exclusionText (Some "peanuts, shellfish") = exclusion_clause "peanuts, shellfish"
  /\ exclusionText (Some "   ") = EmptyString.
Proof.
  destruct (exclusion_clause_embedding sample_enums ["egg"] "Vegan" "normal" None None)
    as (before & after & _ & _ & _ & Hblank & Hclause).
  split.
  - apply Hclause. reflexivity.
  - apply Hblank. reflexivity.
Defined.

Section Filters.

Variable E : Enums.

(** C8, as stated, fails: an empty flavor profile is neither absent nor the
    sentinel, and its clause is left out; so it is for the recipe style. *)
Lemma filter_empty_counterexample :
  let prompt f s :=
    generateRecipes_prompt sample_enums ["egg"; "rice"] "None" None "normal" f s in
  Some EmptyString <> None
  /\ Some EmptyString <> Some "No Preference"
  /\ flavorText (Some EmptyString) = EmptyString
  /\ styleText (Some EmptyString) = EmptyString
  /\ prompt (Some EmptyString) (Some EmptyString) = prompt None None.
Proof. repeat split; discriminate. Qed.

(** C8, amended: in [generateRecipes] and in [reinventRecipe] the clause of
    the flavor profile and the clause of the recipe style are left out of the
    prompt exactly when the filter value is absent, empty or the sentinel
    ([No Preference]; [FlavorProfile.NONE] and [RecipeStyle.NONE] in
    [reinventRecipe]); otherwise the clause is in the prompt and holds the
    value. *)
Theorem filter_clause_embedding :
  (forall f,
     (flavorText f = EmptyString <-> no_preference "No Preference" f)
     /\ (forall x, f = Some x -> ~ no_preference "No Preference" f ->
         flavorText f = flavor_clause x))
  /\ (forall s,
     (styleText s = EmptyString <-> no_preference "No Preference" s)
     /\ (forall x, s = Some x -> ~ no_preference "No Preference" s ->
         styleText s = style_clause x))
  /\ (forall r,
     (reinvent_flavorText E r = EmptyString
      <-> no_preference (FlavorProfile_NONE E) (rr_flavorProfile r))
     /\ (forall x, rr_flavorProfile r = Some x ->
         ~ no_preference (FlavorProfile_NONE E) (rr_flavorProfile r) ->
         reinvent_flavorText E r = reinvent_flavor_clause x))
  /\ (forall r,
     (reinvent_styleText E r = EmptyString
      <-> no_preference (RecipeStyle_NONE E) (rr_recipeStyle r))
     /\ (forall x, rr_recipeStyle r = Some x ->
         ~ no_preference (RecipeStyle_NONE E) (rr_recipeStyle r) ->
         reinvent_styleText E r = reinvent_style_clause x))
  /\ (forall ingredients preference x persona,
      exists before after, forall f s,
        generateRecipes_prompt E ingredients preference x persona f s
        = before +:+ flavorText f +:+ styleText s +:+ after)
  /\ (forall r,
      exists before after, forall f s,
        reinventRecipe_prompt E (with_filters r f s)
        = before +:+ reinvent_flavorText E (with_filters r f s)
          +:+ reinvent_styleText E (with_filters r f s) +:+ after).
Proof.
  split; [| split; [| split; [| split; [| split]]]].
  - intros f.
    exact (optional_clause_spec "No Preference"
             "    FLAVOR FOCUS: Create recipes that emphasize "
             " flavors and taste profiles." f).
  - intros s.
    exact (optional_clause_spec "No Preference"
             "    RECIPE STYLE: Create recipes in "
             " cuisine style with authentic flavors and techniques." s).
  - intros r.
    exact (optional_clause_spec (FlavorProfile_NONE E)
             "    FLAVOR FOCUS: Create reinvented versions that emphasize "
             " flavors and taste profiles." (rr_flavorProfile r)).
  - intros r.
    exact (optional_clause_spec (RecipeStyle_NONE E)
             "    RECIPE STYLE: Create reinvented versions in "
             " cuisine style with authentic flavors and techniques." (rr_recipeStyle r)).
  - intros ingredients preference x persona.
    exists (recipes_text_0 +:+ getChefPersonalityPrompt E persona
            +:+ recipes_text_1 +:+ join ", " ingredients +:+ recipes_text_2
            +:+ (if String.eqb preference "None" then "no specific preference" else preference)
            +:+ recipes_text_3 +:+ exclusionText x),
           recipes_text_4.
    intros f s. unfold generateRecipes_prompt. cbv zeta. now rewrite !append_assoc.
  - intros r.
    exists (reinvent_text_0 +:+ getChefPersonalityPrompt E (rr_chefPersonality r)
            +:+ reinvent_text_1 +:+ rr_dishName r
            +:+ reinvent_text_2 +:+ rr_dishName r
            +:+ reinvent_text_3 +:+ rr_dishName r
            +:+ reinvent_text_4
            +:+ (if truthy_str (rr_dietaryPreference r)
                 then default EmptyString (rr_dietaryPreference r)
                 else "no specific preference")
            +:+ reinvent_exclusionText r),
           (reinvent_text_5 +:+ rr_dishName r +:+ reinvent_text_6).
    intros f s. unfold reinventRecipe_prompt. cbv zeta.
    cbn [with_filters rr_dishName rr_chefPersonality rr_dietaryPreference].
    unfold reinvent_exclusionText. cbn [with_filters rr_excludeIngredients].
    now rewrite !append_assoc.
Qed.

End Filters.

Lemma filter_clause_embedding_witness :
  flavorText (Some "Spicy") = flavor_clause "Spicy"
  /\ reinvent_flavorText sample_enums sample_reinvention = reinvent_flavor_clause "Spicy"
  /\ reinvent_styleText sample_enums sample_reinvention = EmptyString.
Proof.
  destruct (filter_clause_embedding sample_enums) as (Hf & _ & Hrf & Hrs & _).
  split; [| split].
  - apply (Hf (Some "Spicy")); [reflexivity |].
    intros [H | [H | H]]; discriminate H.
  - apply (Hrf sample_reinvention); [reflexivity |].
    intros [H | [H | H]]; discriminate H.
  - apply (Hrs sample_reinvention). right. right. reflexivity.
Defined.

(** ** The response handlers *)

Section Handlers.

Variable env : Env.
Variable E : Enums.

Ltac run :=
  repeat (progress unfold mbind, M_bind, mret, M_ret, lift, try_catch, throw,
                          console_error, text_trim, parse in * ).

(** What [identifyIngredients] does with a response. *)
Lemma identifyIngredients_run (base64Image : string) (response : GenerateContentResponse)
    (w : World) :
  generateContent env (ingredients_request base64Image) = Return response ->
  identifyIngredients env base64Image w
  = let failed := (Return (JArr []),
                   logged w "Failed to parse ingredients from Gemini response:"
                          (LogText (response_text response))) in
    match response_text response with
    | Some t =>
        match JSON_parse env (trim t) with
        | Some result =>
            match get_member result "ingredients" with
            | Return ingredients => (Return (or_else ingredients (JArr [])), w)
            | Throw _ => failed
            end
        | None => failed
        end
    | None => failed
    end.
Proof.
  intros Hcall. unfold identifyIngredients. run. rewrite Hcall. cbv zeta.
  destruct (response_text response) as [t|]; [| reflexivity].
  destruct (JSON_parse env (trim t)) as [result|]; [| reflexivity].
  destruct (get_member result "ingredients"); reflexivity.
Qed.

(** A call that the remote model rejects is not caught: the rejection is
    what [identifyIngredients] throws. *)
Lemma identifyIngredients_rejected (base64Image : string) (e : Exn) (w : World) :
  generateContent env (ingredients_request base64Image) = Throw e ->
  identifyIngredients env base64Image w = (Throw e, w).
Proof. intros Hcall. unfold identifyIngredients. run. now rewrite Hcall. Qed.

(** C3: when the text of the response fails to parse, [identifyIngredients]
    returns the empty list and does not throw. *)
Theorem identifyIngredients_unparsable (base64Image : string)
    (response : GenerateContentResponse) (t : string) (w : World) :
  generateContent env (ingredients_request base64Image) = Return response ->
  response_text response = Some t ->
  JSON_parse env (trim t) = None ->
  identifyIngredients env base64Image w
  = (Return (JArr []),
     logged w "Failed to parse ingredients from Gemini response:" (LogText (Some t))).
Proof.
  intros Hcall Ht Hparse.
  rewrite (identifyIngredients_run _ _ _ Hcall). cbv zeta.
  now rewrite Ht, Hparse.
Qed.

(** C9: when the payload parses and its [ingredients] is missing, null or
    falsy in another way, [identifyIngredients] returns the empty list. *)
Theorem identifyIngredients_falsy (base64Image : string)
    (response : GenerateContentResponse) (t : string) (result : JSON) (w : World) :
  generateContent env (ingredients_request base64Image) = Return response ->
  response_text response = Some t ->
  JSON_parse env (trim t) = Some result ->
  (forall x, get_member result "ingredients" = Return x -> truthy x = false) ->
  fst (identifyIngredients env base64Image w) = Return (JArr []).
Proof.
  intros Hcall Ht Hparse Hfalsy.
  rewrite (identifyIngredients_run _ _ _ Hcall). cbv zeta.
  rewrite Ht, Hparse.
  destruct (get_member result "ingredients") as [x|] eqn:Hget; [| reflexivity].
  specialize (Hfalsy x eq_refl). cbn [fst]. f_equal.
  unfold or_else. destruct x as [v|]; [| reflexivity]. now rewrite Hfalsy.
Qed.

Lemma generateRecipes_run (ingredients : list string) (preference : string)
    (excludeIngredients chefPersonality flavorProfile recipeStyle : option string)
    (response : GenerateContentResponse) (w : World) :
  generateContent env
    (recipes_request
       (generateRecipes_prompt E ingredients preference excludeIngredients
          (default (ChefPersonality_NORMAL E) chefPersonality) flavorProfile recipeStyle))
  = Return response ->
  generateRecipes env E ingredients preference excludeIngredients chefPersonality
    flavorProfile recipeStyle w
  = recipes_outcome env "Failed to parse recipes from Gemini response:"
      "Could not parse recipe data from AI."
      (default (ChefPersonality_NORMAL E) chefPersonality) response w.
Proof.
  intros Hcall. unfold generateRecipes, recipes_outcome. run. cbv zeta. rewrite Hcall.
  destruct (response_text response) as [t|]; [| reflexivity].
  destruct (JSON_parse env (trim t)) as [[| | | | |fields]|]; try reflexivity.
  cbn [get_member]. destruct (fields !! "recipes") as [[| | | | |]|]; reflexivity.
Qed.

Lemma reinventRecipe_run (request : RecipeReinventionRequest)
    (response : GenerateContentResponse) (w : World) :
  generateContent env (recipes_request (reinventRecipe_prompt E request)) = Return response ->
  reinventRecipe env E request w
  = recipes_outcome env "Failed to parse reinvented recipes from Gemini response:"
      "Could not parse reinvented recipe data from AI."
      (rr_chefPersonality request) response w.
Proof.
  intros Hcall. unfold reinventRecipe, recipes_outcome. run. cbv zeta. rewrite Hcall.
  destruct (response_text response) as [t|]; [| reflexivity].
  destruct (JSON_parse env (trim t)) as [[| | | | |fields]|]; try reflexivity.
  cbn [get_member]. destruct (fields !! "recipes") as [[| | | | |]|]; reflexivity.
Qed.

Lemma generateRecipes_rejected (ingredients : list string) (preference : string)
    (excludeIngredients chefPersonality flavorProfile recipeStyle : option string)
    (e : Exn) (w : World) :
  generateContent env
    (recipes_request
       (generateRecipes_prompt E ingredients preference excludeIngredients
          (default (ChefPersonality_NORMAL E) chefPersonality) flavorProfile recipeStyle))
  = Throw e ->
  generateRecipes env E ingredients preference excludeIngredients chefPersonality
    flavorProfile recipeStyle w = (Throw e, w).
Proof. intros Hcall. unfold generateRecipes. run. cbv zeta. now rewrite Hcall. Qed.

Lemma reinventRecipe_rejected (request : RecipeReinventionRequest) (e : Exn) (w : World) :
  generateContent env (recipes_request (reinventRecipe_prompt E request)) = Throw e ->
  reinventRecipe env E request w = (Throw e, w).
Proof. intros Hcall. unfold reinventRecipe. run. cbv zeta. now rewrite Hcall. Qed.

Lemma with_personality_lookup (persona : string) (recipe : JSON) :
  with_personality persona recipe !! "chefPersonality" = Some (JStr persona).
Proof. unfold with_personality. apply lookup_insert_eq. Qed.

Lemma recipes_outcome_persona (label message persona : string)
    (response : GenerateContentResponse) (w w' : World) (rs : list RecipeObject) :
  recipes_outcome env label message persona response w = (Return rs, w') ->
  Forall (fun r : RecipeObject => r !! "chefPersonality" = Some (JStr persona)) rs.
Proof.
  unfold recipes_outcome. cbv zeta.
  destruct (response_text response) as [t|]; [| discriminate].
  destruct (JSON_parse env (trim t)) as [[| | | | |fields]|]; try discriminate.
  destruct (fields !! "recipes") as [[| | | |items|]|]; try discriminate.
  intros [= <- _]. apply Forall_forall. intros r Hr.
  apply list_elem_of_In, in_map_iff in Hr as (recipe & <- & _).
  apply with_personality_lookup.
Qed.

Lemma recipes_outcome_failed (label message persona : string)
    (response : GenerateContentResponse) (t : string) (w : World) :
  response_text response = Some t ->
  JSON_parse env (trim t) = None
  \/ (exists v, JSON_parse env (trim t) = Some v /\ recipes_absent v) ->
  recipes_outcome env label message persona response w
  = (Throw (Error message), logged w label (LogText (Some t))).
Proof.
  intros Ht Hbad. unfold recipes_outcome. cbv zeta. rewrite Ht.
  destruct Hbad as [-> | (v & -> & Habsent)]; [reflexivity |].
  destruct v as [| | | | |fields]; try reflexivity.
  destruct (fields !! "recipes") as [x|] eqn:Hx; [| reflexivity].
  exfalso. apply (Habsent x). cbn [get_member]. now rewrite Hx.
Qed.

Lemma recipes_outcome_stamped (label message persona : string)
    (response : GenerateContentResponse) (t : string) (fields : gmap string JSON)
    (items : list JSON) (w : World) :
  response_text response = Some t ->
  JSON_parse env (trim t) = Some (JObj fields) ->
  fields !! "recipes" = Some (JArr items) ->
  exists rs,
    recipes_outcome env label message persona response w = (Return rs, w)
    /\ stamped persona items rs.
Proof.
  intros Ht Hparse Hitems.
  exists (List.map (with_personality persona) items). split; [| split].
  - unfold recipes_outcome. cbv zeta. now rewrite Ht, Hparse, Hitems.
  - apply length_map.
  - intros i item Hi. exists (with_personality persona item). split; [| split].
    + change (List.map (with_personality persona) items)
        with (with_personality persona <$> items).
      now rewrite list_lookup_fmap, Hi.
    + apply with_personality_lookup.
    + intros o k -> Hk. unfold with_personality. cbn [spread].
      now apply lookup_insert_ne.
Qed.

End Handlers.

Lemma identifyIngredients_unparsable_witness :
  identifyIngredients (answering (Some "Sorry, I see no food here.") sample_payloads)
    "aW1hZ2U=" start
  = (Return (JArr []),
     logged start "Failed to parse ingredients from Gemini response:"
            (LogText (Some "Sorry, I see no food here."))).
Proof.
  apply (identifyIngredients_unparsable
           (answering (Some "Sorry, I see no food here.") sample_payloads)
           "aW1hZ2U=" {| response_text := Some "Sorry, I see no food here." |}).
  - reflexivity.
  - reflexivity.
  - reflexivity.
Defined.

Lemma identifyIngredients_falsy_witness :
  fst (identifyIngredients (answering (Some payload_without_recipes) sample_payloads)
         "aW1hZ2U=" start) = Return (JArr [])
  /\ fst (identifyIngredients (answering (Some "null") sample_payloads)
            "aW1hZ2U=" start) = Return (JArr [])
  /\ fst (identifyIngredients (answering (Some payload_ingredients_zero) sample_payloads)
            "aW1hZ2U=" start) = Return (JArr []).
Proof.
  split; [| split].
  - apply (identifyIngredients_falsy
             (answering (Some payload_without_recipes) sample_payloads)
             "aW1hZ2U=" {| response_text := Some payload_without_recipes |}
             payload_without_recipes (JObj ∅)); try reflexivity.
    intros x [= <-]. reflexivity.
  - apply (identifyIngredients_falsy
             (answering (Some "null") sample_payloads)
             "aW1hZ2U=" {| response_text := Some "null" |} "null" JNull);
      try reflexivity.
    intros x [=].
  - apply (identifyIngredients_falsy
             (answering (Some payload_ingredients_zero) sample_payloads)
             "aW1hZ2U=" {| response_text := Some payload_ingredients_zero |}
             payload_ingredients_zero (JObj {["ingredients" := JNum 0]}));
      try reflexivity.
    intros x [= <-]. reflexivity.
Defined.

(** C2, as stated, fails: on a payload without [recipes] the error thrown
    does not hold the text of the response. *)
Lemma parse_error_text_counterexample :
  let env := answering (Some payload_without_recipes) sample_payloads in
  let outcome := fst (generateRecipes env sample_enums ["egg"] "None" None None None None start) in
  JSON_parse env (trim payload_without_recipes) = Some (JObj ∅)
  /\ recipes_absent (JObj ∅)
  /\ outcome = Throw (Error "Could not parse recipe data from AI.")
  /\ includes (message_of (Error "Could not parse recipe data from AI."))
              payload_without_recipes = false.
Proof.
  cbv zeta. split; [reflexivity | split; [| split; reflexivity]].
  intros x. cbn [get_member]. rewrite lookup_empty. discriminate.
Qed.

(** C2, amended: on a payload that does not parse, or that parses to a value
    without [recipes], [generateRecipes] throws an error whose message is the
    fixed text [Could not parse recipe data from AI.]; the text of the
    response is written to the error console and is not part of the error. *)
Theorem generateRecipes_parse_error (env : Env) (E : Enums)
    (ingredients : list string) (preference : string)
    (excludeIngredients chefPersonality flavorProfile recipeStyle : option string)
    (response : GenerateContentResponse) (t : string) (w : World) :
  generateContent env
    (recipes_request
       (generateRecipes_prompt E ingredients preference excludeIngredients
          (default (ChefPersonality_NORMAL E) chefPersonality) flavorProfile recipeStyle))
  = Return response ->
  response_text response = Some t ->
  JSON_parse env (trim t) = None
  \/ (exists v, JSON_parse env (trim t) = Some v /\ recipes_absent v) ->
  generateRecipes env E ingredients preference excludeIngredients chefPersonality
    flavorProfile recipeStyle w
  = (Throw (Error "Could not parse recipe data from AI."),
     logged w "Failed to parse recipes from Gemini response:" (LogText (Some t))).
Proof.
  intros Hcall Ht Hbad. rewrite (generateRecipes_run _ _ _ _ _ _ _ _ _ _ Hcall).
  now apply recipes_outcome_failed.
Qed.

Lemma generateRecipes_parse_error_witness :
  generateRecipes (answering (Some "I am sorry, no recipes today.") sample_payloads)
    sample_enums ["egg"] "None" None None None None start
  = (Throw (Error "Could not parse recipe data from AI."),
     logged start "Failed to parse recipes from Gemini response:"
            (LogText (Some "I am sorry, no recipes today."))).
Proof.
  apply (generateRecipes_parse_error
           (answering (Some "I am sorry, no recipes today.") sample_payloads)
           sample_enums ["egg"] "None" None None None None
           {| response_text := Some "I am sorry, no recipes today." |}).
  - reflexivity.
  - reflexivity.
  - left. reflexivity.
Defined.

(** C4: on a response whose payload parses and has an array under
    [recipes], [generateRecipes] and [reinventRecipe] return one recipe for
    each element of that array, in its order, and each of them has the
    persona id of the request as its [chefPersonality], whatever the element
    had or did not have under that key; the other fields of an element that
    is an object are kept.  And whatever list the two functions return, each
    of its recipes has the persona id of the request. *)
Theorem recipes_carry_persona (env : Env) (E : Enums) :
  (forall ingredients preference excludeIngredients chefPersonality flavorProfile
          recipeStyle w rs w',
     generateRecipes env E ingredients preference excludeIngredients chefPersonality
       flavorProfile recipeStyle w = (Return rs, w') ->
     Forall (fun r : RecipeObject =>
               r !! "chefPersonality"
               = Some (JStr (default (ChefPersonality_NORMAL E) chefPersonality))) rs)
  /\ (forall request w rs w',
     reinventRecipe env E request w = (Return rs, w') ->
     Forall (fun r : RecipeObject =>
               r !! "chefPersonality" = Some (JStr (rr_chefPersonality request))) rs)
  /\ (forall response t fields items w,
     response_text response = Some t ->
     JSON_parse env (trim t) = Some (JObj fields) ->
     fields !! "recipes" = Some (JArr items) ->
     (forall ingredients preference x persona f s,
        generateContent env
          (recipes_request
             (generateRecipes_prompt E ingredients preference x
                (default (ChefPersonality_NORMAL E) persona) f s)) = Return response ->
        exists rs,
          generateRecipes env E ingredients preference x persona f s w = (Return rs, w)
          /\ stamped (default (ChefPersonality_NORMAL E) persona) items rs)
     /\ (forall request,
        generateContent env (recipes_request (reinventRecipe_prompt E request))
        = Return response ->
        exists rs,
          reinventRecipe env E request w = (Return rs, w)
          /\ stamped (rr_chefPersonality request) items rs)).
Proof.
  split; [| split].
  - intros ingredients preference x persona f s w rs w' Hrun.
    destruct (generateContent env
                (recipes_request
                   (generateRecipes_prompt E ingredients preference x
                      (default (ChefPersonality_NORMAL E) persona) f s)))
      as [response | e] eqn:Hcall.
    + rewrite (generateRecipes_run _ _ _ _ _ _ _ _ _ _ Hcall) in Hrun.
      now apply recipes_outcome_persona in Hrun.
    + now rewrite (generateRecipes_rejected _ _ _ _ _ _ _ _ _ _ Hcall) in Hrun.
  - intros request w rs w' Hrun.
    destruct (generateContent env (recipes_request (reinventRecipe_prompt E request)))
      as [response | e] eqn:Hcall.
    + rewrite (reinventRecipe_run _ _ _ _ _ Hcall) in Hrun.
      now apply recipes_outcome_persona in Hrun.
    + now rewrite (reinventRecipe_rejected _ _ _ _ _ Hcall) in Hrun.
  - intros response t fields items w Ht Hparse Hitems. split.
    + intros ingredients preference x persona f s Hcall.
      rewrite (generateRecipes_run _ _ _ _ _ _ _ _ _ _ Hcall).
      now apply recipes_outcome_stamped with t fields.
    + intros request Hcall.
      rewrite (reinventRecipe_run _ _ _ _ _ Hcall).
      now apply recipes_outcome_stamped with t fields.
Qed.

Lemma recipes_carry_persona_witness :
  let env := answering (Some payload_two_recipes) sample_payloads in
  (exists rs,
     generateRecipes env sample_enums ["egg"] "None" None (Some "michelin") None None start
     = (Return rs, start)
     /\ stamped "michelin" two_recipes rs
     /\ Forall (fun r : RecipeObject => r !! "chefPersonality" = Some (JStr "michelin")) rs)
  /\ (exists rs,
     reinventRecipe env sample_enums sample_reinvention start = (Return rs, start)
     /\ stamped "quick_chef" two_recipes rs
     /\ Forall (fun r : RecipeObject => r !! "chefPersonality" = Some (JStr "quick_chef")) rs).
Proof.
  cbv zeta.
  destruct (recipes_carry_persona (answering (Some payload_two_recipes) sample_payloads)
              sample_enums) as (Hgenerate & Hreinvent & Hresponse).
  destruct (Hresponse {| response_text := Some payload_two_recipes |} payload_two_recipes
              {["recipes" := JArr two_recipes]} two_recipes start
              eq_refl eq_refl eq_refl) as [Hg Hr].
  split.
  - destruct (Hg ["egg"] "None" None (Some "michelin") None None eq_refl)
      as (rs & Hrun & Hstamped).
    exists rs. split; [exact Hrun | split; [exact Hstamped |]].
    exact (Hgenerate _ _ _ _ _ _ _ _ _ Hrun).
  - destruct (Hr sample_reinvention eq_refl) as (rs & Hrun & Hstamped).
    exists rs. split; [exact Hrun | split; [exact Hstamped |]].
    exact (Hreinvent _ _ _ _ Hrun).
Defined.

(** ** The cooking schedule *)

Section Schedule.

Variable env : Env.

Ltac run :=
  repeat (progress unfold mbind, M_bind, mret, M_ret, lift, try_catch, throw,
                          console_error, text_trim, parse in * ).

(** What [generateCookingSchedule] does with a response. *)
Lemma generateCookingSchedule_run (request : CookingPathRequest)
    (response : GenerateContentResponse) (w : World) :
  generateContent env (schedule_request request) = Return response ->
  generateCookingSchedule env request w
  = let failed := (Throw (Error "Could not parse cooking schedule data from AI."),
                   logged w "Failed to parse cooking schedule from Gemini response:"
                          (LogText (response_text response))) in
    match response_text response with
    | Some t =>
        match JSON_parse env (trim t) with
        | Some JNull => failed
        | Some result =>
            let field k := match result with JObj fields => fields !! k | _ => None end in
            (Return {| totalTime := field "totalTime";
                       servingTime := field "servingTime";
                       steps := field "steps";
                       recipes := cp_recipes request;
                       efficiencyTips := field "efficiencyTips";
                       timelineSummary := field "timelineSummary" |}, w)
        | None => failed
        end
    | None => failed
    end.
Proof.
  intros Hcall. unfold generateCookingSchedule. run. rewrite Hcall. cbv zeta.
  destruct (response_text response) as [t|]; [| reflexivity].
  destruct (JSON_parse env (trim t)) as [[| | | | |fields]|]; reflexivity.
Qed.

Lemma generateCookingSchedule_rejected (request : CookingPathRequest) (e : Exn) (w : World) :
  generateContent env (schedule_request request) = Throw e ->
  generateCookingSchedule env request w = (Throw e, w).
Proof. intros Hcall. unfold generateCookingSchedule. run. now rewrite Hcall. Qed.

End Schedule.

(** C10: the schedule that [generateCookingSchedule] returns has the list
    of the request as its [recipes]; the [recipes] of the response has no
    part in what the call returns. *)
Theorem schedule_recipes_from_request (env : Env) (request : CookingPathRequest) :
  (forall w schedule w',
     generateCookingSchedule env request w = (Return schedule, w') ->
     recipes schedule = cp_recipes request)
  /\ (forall x w,
     generateCookingSchedule
       (with_parse env (fun s => override_recipes x <$> JSON_parse env s)) request w
     = generateCookingSchedule env request w).
Proof.
  split.
  - intros w schedule w' Hrun.
    destruct (generateContent env (schedule_request request)) as [response | e] eqn:Hcall.
    + rewrite (generateCookingSchedule_run _ _ _ _ Hcall) in Hrun. cbv zeta in Hrun.
      destruct (response_text response) as [t|]; [| discriminate].
      destruct (JSON_parse env (trim t)) as [[| | | | |fields]|];
        try discriminate; now injection Hrun as <- _.
    + now rewrite (generateCookingSchedule_rejected _ _ _ _ Hcall) in Hrun.
  - intros x w.
    destruct (generateContent env (schedule_request request)) as [response | e] eqn:Hcall.
    + rewrite (generateCookingSchedule_run env _ _ _ Hcall).
      rewrite (generateCookingSchedule_run (with_parse env _) _ response _ Hcall).
      cbv zeta. cbn [JSON_parse with_parse].
      destruct (response_text response) as [t|]; [| reflexivity].
      destruct (JSON_parse env (trim t)) as [[| | | | |fields]|]; try reflexivity.
      cbn [fmap option_fmap option_map override_recipes].
      now rewrite !lookup_insert_ne by discriminate.
    + rewrite (generateCookingSchedule_rejected env _ _ _ Hcall).
      now rewrite (generateCookingSchedule_rejected (with_parse env _) _ e _ Hcall).
Qed.

Lemma schedule_recipes_from_request_witness :
  let env := answering (Some payload_schedule) sample_payloads in
  exists schedule,
    fst (generateCookingSchedule env sample_schedule_request start) = Return schedule
    /\ totalTime schedule = Some (JNum 45)
    /\ recipes schedule = cp_recipes sample_schedule_request.
Proof.
  cbv zeta.
  destruct (generateCookingSchedule (answering (Some payload_schedule) sample_payloads)
              sample_schedule_request start)
    as [[schedule | e] w'] eqn:Hrun; [| vm_compute in Hrun; discriminate Hrun].
  exists schedule. split; [reflexivity | split].
  - vm_compute in Hrun. injection Hrun as <- _. reflexivity.
  - exact (proj1 (schedule_recipes_from_request _ _) _ _ _ Hrun).
Defined.

(** ** The image fallback chain *)

Section PlaceholderText.

Variable env : Env.

Lemma unspaced_append (a b : string) : unspaced (a +:+ b) = unspaced a +:+ unspaced b.
Proof.
  induction a as [|c a IH]; simpl; [reflexivity |].
  destruct (code c =? 32)%nat; simpl; now rewrite IH.
Qed.

Lemma flat_app (l1 l2 : list string) : flat (l1 ++ l2)%list = flat l1 +:+ flat l2.
Proof.
  induction l1 as [|x l1 IH]; simpl; [reflexivity |].
  fold (flat (l1 ++ l2)%list). fold (flat l1). now rewrite IH, append_assoc.
Qed.

Lemma split_space_unspaced (s : string) : unspaced (flat (split_space s)) = unspaced s.
Proof.
  induction s as [|c s IH]; [reflexivity |].
  cbn [split_space unspaced]. destruct (code c =? 32)%nat eqn:Hc.
  - exact IH.
  - destruct (split_space s) as [|w ws] eqn:Hs.
    + simpl in *. rewrite Hc. now rewrite <- IH.
    + change (flat (String c w :: ws)) with (String c (flat (w :: ws))).
      cbn [unspaced]. rewrite Hc. now rewrite IH.
Qed.

Lemma wrap_word_unspaced (font : string) (st : list string * string) (word : string) :
  unspaced (flat (fst (wrap_word env font st word)) +:+ snd (wrap_word env font st word))
  = unspaced (flat (fst st) +:+ snd st) +:+ unspaced word.
Proof.
  destruct st as [lines currentLine]. unfold wrap_word. cbn [fst snd].
  destruct (negb (Qle_bool _ 400) && nonempty currentLine); cbn [fst snd].
  - rewrite flat_app. simpl. rewrite append_empty_r.
    now rewrite !unspaced_append, append_assoc.
  - rewrite !unspaced_append, !append_assoc. do 2 f_equal.
    now destruct (nonempty currentLine).
Qed.

Lemma fold_wrap_unspaced (font : string) (words : list string) (st : list string * string) :
  unspaced (flat (fst (fold_left (wrap_word env font) words st))
            +:+ snd (fold_left (wrap_word env font) words st))
  = unspaced (flat (fst st) +:+ snd st) +:+ unspaced (flat words).
Proof.
  revert st. induction words as [|word words IH]; intros st; simpl.
  - now rewrite append_empty_r.
  - rewrite IH, wrap_word_unspaced. fold (flat words).
    now rewrite (unspaced_append word), append_assoc.
Qed.

(** The lines drawn spell the name: the same characters but the spaces, in
    the same order. *)
Lemma wrap_lines_unspaced (font recipeName : string) :
  unspaced (flat (wrap_lines env font recipeName)) = unspaced recipeName.
Proof.
  unfold wrap_lines.
  pose proof (fold_wrap_unspaced font (split_space recipeName) ([], EmptyString)) as H.
  destruct (fold_left (wrap_word env font) (split_space recipeName) ([], EmptyString))
    as [lines currentLine].
  cbn [fst snd] in H. rewrite flat_app. simpl. rewrite append_empty_r.
  rewrite H. simpl. apply split_space_unspaced.
Qed.

Lemma drawn_text_imap (g : nat -> string -> DrawOp) (lines : list string) :
  (forall i line, exists st f a b x y, g i line = FillText st f a b line x y) ->
  drawn_text (imap g lines) = lines.
Proof.
  revert g. induction lines as [|line lines IH]; intros g Hg; [reflexivity |].
  cbn [imap]. unfold drawn_text. cbn [omap list_omap].
  destruct (Hg 0 line) as (st & f & a & b & x & y & ->).
  f_equal. apply IH. intros i l. apply (Hg (S i) l).
Qed.

Lemma placeholder_canvas_text (recipeName : string) :
  drawn_text (drawn (placeholder_canvas env recipeName))
  = wrap_lines env "bold 24px Arial" recipeName.
Proof.
  unfold placeholder_canvas. cbv zeta. cbn [drawn].
  unfold drawn_text. cbn [omap list_omap]. apply drawn_text_imap.
  intros i line. now repeat eexists.
Qed.

End PlaceholderText.

Section ImageChain.

Variable env : Env.

Ltac run :=
  repeat (progress unfold mbind, M_bind, mret, M_ret, lift, try_catch, throw,
                          console_error, do_fetch, draw_seed, blobToBase64 in * ).

(** The second tier, when the text cannot be encoded: what
    [encodeURIComponent] throws is caught before a number is drawn and
    before a request is sent, and the placeholder is made. *)
Lemma fallback_unencodable (recipe : ImageRecipe) (w : World) :
  well_formed (fallback_prompt_text recipe) = false ->
  generateRecipeImageFallback env recipe w
  = generatePlaceholderImage env (recipeName recipe)
      (logged w "Error with fallback image generation:" (LogExn URIError)).
Proof.
  intros Hwf. unfold generateRecipeImageFallback, encodeURIComponent. run.
  now rewrite Hwf.
Qed.

(** The second tier, when its service gives an image. *)
Lemma fallback_image (recipe : ImageRecipe) (w : World) (img : string) :
  well_formed (fallback_prompt_text recipe) = true ->
  fetch env (fallback_request recipe (random_seed env (draws w))) (fetches w)
  = Some {| ok := true; image := Some img |} ->
  generateRecipeImageFallback env recipe w = (Return img, sent (drew w)).
Proof.
  intros Hwf Hanswer. unfold fallback_request in Hanswer.
  unfold generateRecipeImageFallback, encodeURIComponent. run.
  rewrite Hwf. cbn [fetches drew]. now rewrite Hanswer.
Qed.

(** The second tier, when its service gives none: the placeholder. *)
Lemma fallback_placeholder (recipe : ImageRecipe) (w : World) :
  let answer :=
    fetch env (fallback_request recipe (random_seed env (draws w))) (fetches w) in
  well_formed (fallback_prompt_text recipe) = true ->
  no_image answer ->
  generateRecipeImageFallback env recipe w
  = generatePlaceholderImage env (recipeName recipe)
      (logged (sent (drew w)) "Error with fallback image generation:"
              (LogExn (fallback_error answer))).
Proof.
  cbv zeta. unfold fallback_request. intros Hwf Hnone.
  unfold generateRecipeImageFallback, encodeURIComponent. run.
  rewrite Hwf. cbn [fetches drew].
  destruct (fetch env _ (fetches w)) as [[o i]|]; [| reflexivity].
  cbn [no_image ok image] in Hnone. cbn [fallback_error ok image].
  destruct o; cbn [negb]; [| reflexivity].
  destruct Hnone as [Hok | ->]; [discriminate | reflexivity].
Qed.

(** The first tier hands over to the second on any answer without image. *)
Lemma primary_hands_over (recipe : ImageRecipe) (w : World) :
  no_image (fetch env (primary_request recipe) (fetches w)) ->
  generateRecipeImage env recipe w = generateRecipeImageFallback env recipe (sent w)
  \/ (exists e,
        generateRecipeImage env recipe w
        = generateRecipeImageFallback env recipe
            (logged (sent w) "Error generating image with Hugging Face:" (LogExn e)))
  \/ (exists e w',
        generateRecipeImageFallback env recipe (sent w) = (Throw e, w')
        /\ generateRecipeImage env recipe w
           = generateRecipeImageFallback env recipe
               (logged w' "Error generating image with Hugging Face:" (LogExn e))).
Proof.
  intros Hnone. unfold generateRecipeImage. run.
  destruct (fetch env (primary_request recipe) (fetches w)) as [[o i]|].
  - cbn [no_image ok image] in Hnone. cbn [ok image]. destruct o; cbn [negb].
    + destruct Hnone as [Hok | ->]; [discriminate |].
      right. left. now exists ReadError.
    + destruct (generateRecipeImageFallback env recipe (sent w)) as [[img | e] w'] eqn:Hf.
      * now left.
      * right. right. now exists e, w'.
  - right. left. now exists NetworkError.
Qed.

(** Primary failure and secondary success: the image of the second service
    is returned, and nothing is thrown. *)
Lemma generateRecipeImage_secondary (recipe : ImageRecipe) (w : World) (img : string) :
  no_image (fetch env (primary_request recipe) (fetches w)) ->
  well_formed (fallback_prompt_text recipe) = true ->
  fetch env (fallback_request recipe (random_seed env (draws w))) (S (fetches w))
  = Some {| ok := true; image := Some img |} ->
  exists w',
    generateRecipeImage env recipe w = (Return img, w')
    /\ fetches w' = S (S (fetches w))
    /\ draws w' = S (draws w).
Proof.
  intros Hprimary Hwf Hsecondary.
  destruct (primary_hands_over recipe w Hprimary) as [H | [(e & H) | (e & w' & Hf & _)]].
  - rewrite H, (fallback_image recipe (sent w) img Hwf Hsecondary). now eexists.
  - rewrite H, (fallback_image recipe
                  (logged (sent w) "Error generating image with Hugging Face:" (LogExn e))
                  img Hwf Hsecondary).
    now eexists.
  - rewrite (fallback_image recipe (sent w) img Hwf Hsecondary) in Hf. discriminate.
Qed.

(** With a drawing context the placeholder cannot fail: it is a URL of the
    [data:] scheme, and the lines drawn on its canvas spell the name. *)
Lemma generatePlaceholderImage_canvas (recipeName : string) (w : World) :
  context2d env = true ->
  exists img,
    generatePlaceholderImage env recipeName w = (Return img, w)
    /\ img = toDataURL env (placeholder_canvas env recipeName) "image/jpeg" (8 # 10)%Q
    /\ String.prefix "data:" img = true
    /\ unspaced (flat (drawn_text (drawn (placeholder_canvas env recipeName))))
       = unspaced recipeName.
Proof.
  intros Hctx. eexists. unfold generatePlaceholderImage. rewrite Hctx.
  split; [reflexivity | split; [reflexivity | split]].
  - unfold toDataURL. apply prefix_append.
  - rewrite placeholder_canvas_text. apply wrap_lines_unspaced.
Qed.

(** Without a drawing context the placeholder is the vector image in base 64
    when the name has no character above U+00FF, and an exception when it
    has one. *)
Lemma generatePlaceholderImage_svg (recipeName : string) (w : World) :
  context2d env = false ->
  generatePlaceholderImage env recipeName w
  = match latin1 (svg_text_0 +:+ recipeName +:+ svg_text_1) with
    | Some units => (Return ("data:image/svg+xml;base64," +:+ base64 units), w)
    | None => (Throw InvalidCharacterError, w)
    end.
Proof.
  intros Hctx. unfold generatePlaceholderImage, btoa. rewrite Hctx. run.
  now destruct (latin1 _).
Qed.

Lemma image_or_none (answer : option HttpResponse) :
  (exists img, answer = Some {| ok := true; image := Some img |}) \/ no_image answer.
Proof.
  destruct answer as [[[] [img|]]|]; cbn [no_image ok image]; eauto.
Qed.

(** The second tier ends in an image of its service, after one draw and
    one request, or in the placeholder, after at most one draw and one
    request and a line on the console. *)
Lemma fallback_shape (recipe : ImageRecipe) (w : World) :
  (exists img, generateRecipeImageFallback env recipe w = (Return img, sent (drew w)))
  \/ (exists e0 w1,
        fetches w <= fetches w1 <= S (fetches w)
        /\ draws w <= draws w1 <= S (draws w)
        /\ generateRecipeImageFallback env recipe w
           = generatePlaceholderImage env (recipeName recipe)
               (logged w1 "Error with fallback image generation:" (LogExn e0))).
Proof.
  destruct (well_formed (fallback_prompt_text recipe)) eqn:Hwf.
  - destruct (image_or_none
                (fetch env (fallback_request recipe (random_seed env (draws w)))
                   (fetches w))) as [(img & Hanswer) | Hnone].
    + left. exists img. now apply fallback_image.
    + right. eexists _, (sent (drew w)).
      split; [| split; [| exact (fallback_placeholder recipe w Hwf Hnone)]];
        cbn [fetches draws sent drew]; lia.
  - right. exists URIError, w.
    split; [| split; [| exact (fallback_unencodable recipe w Hwf)]]; lia.
Qed.

Lemma generateRecipeImageFallback_returns (recipe : ImageRecipe) (w : World) :
  context2d env = true ->
  exists img w', generateRecipeImageFallback env recipe w = (Return img, w').
Proof.
  intros Hctx.
  destruct (fallback_shape recipe w) as [(img & ->) | (e0 & w1 & _ & _ & ->)];
    [eauto |].
  destruct (generatePlaceholderImage_canvas (recipeName recipe)
              (logged w1 "Error with fallback image generation:" (LogExn e0)) Hctx)
    as (img & -> & _).
  eauto.
Qed.

(** With a drawing context [generateRecipeImage] returns an image in every
    world: it never throws. *)
Lemma generateRecipeImage_returns (recipe : ImageRecipe) (w : World) :
  context2d env = true ->
  exists img w', generateRecipeImage env recipe w = (Return img, w').
Proof.
  intros Hctx.
  destruct (image_or_none (fetch env (primary_request recipe) (fetches w)))
    as [(img & Hanswer) | Hnone].
  - exists img, (sent w). unfold generateRecipeImage. run. now rewrite Hanswer.
  - destruct (primary_hands_over recipe w Hnone) as [H | [(e & H) | (e & w' & _ & H)]];
      rewrite H; now apply generateRecipeImageFallback_returns.
Qed.

(** Both services failing, with a drawing context: the placeholder drawn for
    the name is returned. *)
Lemma generateRecipeImage_placeholder (recipe : ImageRecipe) (w : World) :
  context2d env = true ->
  (forall request n, no_image (fetch env request n)) ->
  fst (generateRecipeImage env recipe w)
  = Return (toDataURL env (placeholder_canvas env (recipeName recipe))
              "image/jpeg" (8 # 10)%Q).
Proof.
  intros Hctx Hnone.
  assert (Hfallback : forall w0,
             fst (generateRecipeImageFallback env recipe w0)
             = Return (toDataURL env (placeholder_canvas env (recipeName recipe))
                         "image/jpeg" (8 # 10)%Q)).
  { intros w0. destruct (well_formed (fallback_prompt_text recipe)) eqn:Hwf.
    - rewrite (fallback_placeholder recipe w0 Hwf (Hnone _ _)).
      unfold generatePlaceholderImage. now rewrite Hctx.
    - rewrite (fallback_unencodable recipe w0 Hwf).
      unfold generatePlaceholderImage. now rewrite Hctx. }
  destruct (primary_hands_over recipe w (Hnone _ _))
    as [H | [(e & H) | (e & w' & _ & H)]]; rewrite H; apply Hfallback.
Qed.

(** Without a drawing context, when no service gives an image and the name
    has a character above U+00FF, [generateRecipeImage] throws. *)
Lemma generateRecipeImage_throws (recipe : ImageRecipe) (w : World) :
  context2d env = false ->
  (forall request n, no_image (fetch env request n)) ->
  latin1 (svg_text_0 +:+ recipeName recipe +:+ svg_text_1) = None ->
  fst (generateRecipeImage env recipe w) = Throw InvalidCharacterError.
Proof.
  intros Hctx Hnone Hname.
  assert (Hfallback : forall w0,
             fst (generateRecipeImageFallback env recipe w0) = Throw InvalidCharacterError).
  { intros w0. destruct (well_formed (fallback_prompt_text recipe)) eqn:Hwf.
    - rewrite (fallback_placeholder recipe w0 Hwf (Hnone _ _)).
      rewrite generatePlaceholderImage_svg by exact Hctx. now rewrite Hname.
    - rewrite (fallback_unencodable recipe w0 Hwf).
      rewrite generatePlaceholderImage_svg by exact Hctx. now rewrite Hname. }
  destruct (primary_hands_over recipe w (Hnone _ _))
    as [H | [(e & H) | (e & w' & _ & H)]]; rewrite H; apply Hfallback.
Qed.

End ImageChain.

Example generateRecipeImage_second_service :
  generateRecipeImage (browser second_answers) creme_brulee start
  = (Return "data:image/jpeg;base64,/9j/4AAQSkZJRg==",
     {| console := []; fetches := 2; draws := 1 |}).
Proof. vm_compute. reflexivity. Qed.

Example generateRecipeImage_drawn_placeholder :
  fst (generateRecipeImage (browser (fun _ => None)) moms_dal start)
  = Return "data:image/jpeg;base64,2"
  /\ drawn_text (drawn (placeholder_canvas (browser (fun _ => None))
                          "Slow Roasted Tomato and Basil Soup with Garlic Bread"))
     = ["Slow Roasted Tomato and Basil"; "Soup with Garlic Bread"].
Proof. vm_compute. split; reflexivity. Qed.

Example generateRecipeImage_vector_placeholder :
  exists encoded,
    fst (generateRecipeImage offline creme_brulee start)
    = Return ("data:image/svg+xml;base64," +:+ encoded)
    /\ String.length encoded = 828.
Proof. eexists. vm_compute. split; reflexivity. Qed.

(** C1, at a failing input: no service gives an image, the browser gives no
    drawing context, and the name of the recipe has the character U+2019;
    [generateRecipeImage] throws what [btoa] throws. *)
Theorem generateRecipeImage_raises :
  generateRecipeImage offline moms_dal start
  = (Throw InvalidCharacterError,
     {| console := [ ("Error generating image with Hugging Face:", LogExn NetworkError);
                     ("Error with fallback image generation:", LogExn NetworkError) ];
        fetches := 2;
        draws := 1 |}).
Proof. vm_compute. reflexivity. Qed.

(** * Further properties *)

(** ** The text services after the remote call *)

(** X1: a call that the remote model rejects is caught by none of the four
    text services: each throws the rejection as it came, and writes nothing
    to the console. *)
Theorem remote_rejection_rethrown (env : Env) (E : Enums) (e : Exn) :
  (forall base64Image w,
     generateContent env (ingredients_request base64Image) = Throw e ->
     identifyIngredients env base64Image w = (Throw e, w))
  /\ (forall ingredients preference x persona f s w,
     generateContent env
       (recipes_request
          (generateRecipes_prompt E ingredients preference x
             (default (ChefPersonality_NORMAL E) persona) f s)) = Throw e ->
     generateRecipes env E ingredients preference x persona f s w = (Throw e, w))
  /\ (forall request w,
     generateContent env (schedule_request request) = Throw e ->
     generateCookingSchedule env request w = (Throw e, w))
  /\ (forall request w,
     generateContent env (recipes_request (reinventRecipe_prompt E request)) = Throw e ->
     reinventRecipe env E request w = (Throw e, w)).
Proof.
  split; [| split; [| split]].
  - intros. now apply identifyIngredients_rejected.
  - intros. now apply generateRecipes_rejected.
  - intros. now apply generateCookingSchedule_rejected.
  - intros. now apply reinventRecipe_rejected.
Qed.

Lemma remote_rejection_rethrown_witness :
  identifyIngredients (rejecting NetworkError) "aW1hZ2U=" start = (Throw NetworkError, start)
  /\ generateCookingSchedule (rejecting NetworkError) sample_schedule_request start
     = (Throw NetworkError, start).
Proof.
  destruct (remote_rejection_rethrown (rejecting NetworkError) sample_enums NetworkError)
    as (Hi & _ & Hs & _).
  split; [apply Hi | apply Hs]; reflexivity.
Defined.

(** X2: once the remote model has answered, [identifyIngredients] returns,
    whatever the answer: either it returns a value and leaves the console as
    it is, or it returns the empty list after one line on the console. *)
Theorem identifyIngredients_returns (env : Env) (base64Image : string)
    (response : GenerateContentResponse) (w : World) :
  generateContent env (ingredients_request base64Image) = Return response ->
  exists v,
    identifyIngredients env base64Image w = (Return v, w)
    \/ (v = JArr []
        /\ identifyIngredients env base64Image w
           = (Return v, logged w "Failed to parse ingredients from Gemini response:"
                               (LogText (response_text response)))).
Proof.
  intros Hcall. rewrite (identifyIngredients_run _ _ _ _ Hcall). cbv zeta.
  destruct (response_text response) as [t|]; [| exists (JArr []); now right].
  destruct (JSON_parse env (trim t)) as [result|]; [| exists (JArr []); now right].
  destruct (get_member result "ingredients") as [x|]; [| exists (JArr []); now right].
  exists (or_else x (JArr [])). now left.
Qed.

Lemma identifyIngredients_returns_witness :
  exists v,
    identifyIngredients (answering None sample_payloads) "aW1hZ2U=" start = (Return v, start)
    \/ (v = JArr []
        /\ identifyIngredients (answering None sample_payloads) "aW1hZ2U=" start
           = (Return v, logged start "Failed to parse ingredients from Gemini response:"
                               (LogText None))).
Proof.
  exact (identifyIngredients_returns (answering None sample_payloads) "aW1hZ2U="
           {| response_text := None |} start eq_refl).
Defined.

(** X3: [identifyIngredients] returns whatever truthy value the payload has
    under [ingredients], as it is: nothing checks that it is a list of
    strings, and nothing is written to the console. *)
Theorem identifyIngredients_truthy (env : Env) (base64Image : string)
    (response : GenerateContentResponse) (t : string) (fields : gmap string JSON)
    (v : JSON) (w : World) :
  generateContent env (ingredients_request base64Image) = Return response ->
  response_text response = Some t ->
  JSON_parse env (trim t) = Some (JObj fields) ->
  fields !! "ingredients" = Some v ->
  truthy (Some v) = true ->
  identifyIngredients env base64Image w = (Return v, w).
Proof.
  intros Hcall Ht Hparse Hv Htruthy.
  rewrite (identifyIngredients_run _ _ _ _ Hcall). cbv zeta.
  rewrite Ht, Hparse. cbn [get_member]. rewrite Hv.
  unfold or_else. now rewrite Htruthy.
Qed.

Lemma identifyIngredients_truthy_witness :
  identifyIngredients (answering (Some payload_ingredients_text) more_payloads)
    "aW1hZ2U=" start = (Return (JStr "salt"), start).
Proof.
  apply (identifyIngredients_truthy
           (answering (Some payload_ingredients_text) more_payloads) "aW1hZ2U="
           {| response_text := Some payload_ingredients_text |}
           payload_ingredients_text {["ingredients" := JStr "salt"]});
    reflexivity.
Defined.

(** X4: once the remote model has answered, the only thing [generateRecipes]
    and [reinventRecipe] throw is their own error with its fixed message,
    after one line on the console; when they return, the console is as it
    was. *)
Theorem recipes_return_or_fixed_error (env : Env) (E : Enums)
    (response : GenerateContentResponse) (w : World) :
  (forall ingredients preference x persona f s,
     generateContent env
       (recipes_request
          (generateRecipes_prompt E ingredients preference x
             (default (ChefPersonality_NORMAL E) persona) f s)) = Return response ->
     (exists rs,
        generateRecipes env E ingredients preference x persona f s w = (Return rs, w))
     \/ generateRecipes env E ingredients preference x persona f s w
        = (Throw (Error "Could not parse recipe data from AI."),
           logged w "Failed to parse recipes from Gemini response:"
                  (LogText (response_text response))))
  /\ (forall request,
     generateContent env (recipes_request (reinventRecipe_prompt E request))
     = Return response ->
     (exists rs, reinventRecipe env E request w = (Return rs, w))
     \/ reinventRecipe env E request w
        = (Throw (Error "Could not parse reinvented recipe data from AI."),
           logged w "Failed to parse reinvented recipes from Gemini response:"
                  (LogText (response_text response)))).
Proof.
  assert (Houtcome : forall label message persona,
    (exists rs, recipes_outcome env label message persona response w = (Return rs, w))
    \/ recipes_outcome env label message persona response w
       = (Throw (Error message), logged w label (LogText (response_text response)))).
  { intros label message persona. unfold recipes_outcome. cbv zeta.
    destruct (response_text response) as [t|]; [| now right].
    destruct (JSON_parse env (trim t)) as [[| | | | |fields]|]; try now right.
    destruct (fields !! "recipes") as [[| | | |items|]|]; try now right.
    left. eauto. }
  split.
  - intros ingredients preference x persona f s Hcall.
    rewrite (generateRecipes_run _ _ _ _ _ _ _ _ _ _ Hcall). apply Houtcome.
  - intros request Hcall.
    rewrite (reinventRecipe_run _ _ _ _ _ Hcall). apply Houtcome.
Qed.

Lemma recipes_return_or_fixed_error_witness :
  (exists rs, reinventRecipe (answering (Some "[]") more_payloads) sample_enums
                sample_reinvention start = (Return rs, start))
  \/ reinventRecipe (answering (Some "[]") more_payloads) sample_enums
       sample_reinvention start
     = (Throw (Error "Could not parse reinvented recipe data from AI."),
        logged start "Failed to parse reinvented recipes from Gemini response:"
               (LogText (Some "[]"))).
Proof.
  destruct (recipes_return_or_fixed_error (answering (Some "[]") more_payloads)
              sample_enums {| response_text := Some "[]" |} start) as (_ & Hr).
  apply (Hr sample_reinvention). reflexivity.
Defined.

(** X5: a payload whose [recipes] is there but is not an array (a string, a
    number, an object, null) is a parse error too, in [generateRecipes] and in
    [reinventRecipe]: the fixed error, after one line on the console. *)
Theorem recipes_not_an_array (env : Env) (E : Enums)
    (response : GenerateContentResponse) (t : string) (fields : gmap string JSON)
    (x : JSON) (w : World) :
  response_text response = Some t ->
  JSON_parse env (trim t) = Some (JObj fields) ->
  fields !! "recipes" = Some x ->
  (forall items, x <> JArr items) ->
  (forall ingredients preference excl persona f s,
     generateContent env
       (recipes_request
          (generateRecipes_prompt E ingredients preference excl
             (default (ChefPersonality_NORMAL E) persona) f s)) = Return response ->
     generateRecipes env E ingredients preference excl persona f s w
     = (Throw (Error "Could not parse recipe data from AI."),
        logged w "Failed to parse recipes from Gemini response:" (LogText (Some t))))
  /\ (forall request,
     generateContent env (recipes_request (reinventRecipe_prompt E request))
     = Return response ->
     reinventRecipe env E request w
     = (Throw (Error "Could not parse reinvented recipe data from AI."),
        logged w "Failed to parse reinvented recipes from Gemini response:"
               (LogText (Some t)))).
Proof.
  intros Ht Hparse Hx Hnot.
  assert (Houtcome : forall label message persona,
    recipes_outcome env label message persona response w
    = (Throw (Error message), logged w label (LogText (Some t)))).
  { intros label message persona. unfold recipes_outcome. cbv zeta.
    rewrite Ht, Hparse, Hx. destruct x as [| | | |items|]; try reflexivity.
    now destruct (Hnot items). }
  split.
  - intros ingredients preference excl persona f s Hcall.
    rewrite (generateRecipes_run _ _ _ _ _ _ _ _ _ _ Hcall). apply Houtcome.
  - intros request Hcall.
    rewrite (reinventRecipe_run _ _ _ _ _ Hcall). apply Houtcome.
Qed.

Lemma recipes_not_an_array_witness :
  generateRecipes (answering (Some payload_recipes_text) more_payloads)
    sample_enums ["egg"] "None" None None None None start
  = (Throw (Error "Could not parse recipe data from AI."),
     logged start "Failed to parse recipes from Gemini response:"
            (LogText (Some payload_recipes_text))).
Proof.
  assert (Hnot : forall items, JStr "three recipes" <> JArr items) by discriminate.
  apply (proj1 (recipes_not_an_array
                  (answering (Some payload_recipes_text) more_payloads)
                  sample_enums {| response_text := Some payload_recipes_text |}
                  payload_recipes_text {["recipes" := JStr "three recipes"]}
                  (JStr "three recipes") start eq_refl eq_refl eq_refl Hnot)).
  reflexivity.
Defined.

(** X6: on a payload that does not parse, or that parses to a value without
    [recipes], [reinventRecipe] throws an error whose message is the fixed
    text [Could not parse reinvented recipe data from AI.], after writing the
    text of the response to the error console. *)
Theorem reinventRecipe_parse_error (env : Env) (E : Enums)
    (request : RecipeReinventionRequest)
    (response : GenerateContentResponse) (t : string) (w : World) :
  generateContent env (recipes_request (reinventRecipe_prompt E request)) = Return response ->
  response_text response = Some t ->
  JSON_parse env (trim t) = None
  \/ (exists v, JSON_parse env (trim t) = Some v /\ recipes_absent v) ->
  reinventRecipe env E request w
  = (Throw (Error "Could not parse reinvented recipe data from AI."),
     logged w "Failed to parse reinvented recipes from Gemini response:"
            (LogText (Some t))).
Proof.
  intros Hcall Ht Hbad. rewrite (reinventRecipe_run _ _ _ _ _ Hcall).
  now apply recipes_outcome_failed.
Qed.

Lemma reinventRecipe_parse_error_witness :
  reinventRecipe (answering (Some "[]") more_payloads) sample_enums
    sample_reinvention start
  = (Throw (Error "Could not parse reinvented recipe data from AI."),
     logged start "Failed to parse reinvented recipes from Gemini response:"
            (LogText (Some "[]"))).
Proof.
  apply (reinventRecipe_parse_error (answering (Some "[]") more_payloads) sample_enums
           sample_reinvention {| response_text := Some "[]" |} "[]").
  - reflexivity.
  - reflexivity.
  - right. exists (JArr []). split; [reflexivity |]. intros x. discriminate.
Defined.

(** X7: on a payload whose [recipes] is an array, [generateRecipes] and
    [reinventRecipe] return one object for each element of the array, in the
    order of the array, and write nothing to the console; the object made
    from an element that is an object has, under every key but
    [chefPersonality], what the element has. *)
Theorem recipes_one_for_each (env : Env) (E : Enums)
    (response : GenerateContentResponse) (t : string) (fields : gmap string JSON)
    (items : list JSON) (w : World) :
  response_text response = Some t ->
  JSON_parse env (trim t) = Some (JObj fields) ->
  fields !! "recipes" = Some (JArr items) ->
  (forall ingredients preference x persona f s,
     generateContent env
       (recipes_request
          (generateRecipes_prompt E ingredients preference x
             (default (ChefPersonality_NORMAL E) persona) f s)) = Return response ->
     exists rs,
       generateRecipes env E ingredients preference x persona f s w = (Return rs, w)
       /\ length rs = length items
       /\ forall i o k, items !! i = Some (JObj o) -> k <> "chefPersonality" ->
            exists r : RecipeObject, rs !! i = Some r /\ r !! k = o !! k)
  /\ (forall request,
     generateContent env (recipes_request (reinventRecipe_prompt E request))
     = Return response ->
     exists rs,
       reinventRecipe env E request w = (Return rs, w)
       /\ length rs = length items
       /\ forall i o k, items !! i = Some (JObj o) -> k <> "chefPersonality" ->
            exists r : RecipeObject, rs !! i = Some r /\ r !! k = o !! k).
Proof.
  intros Ht Hparse Hitems.
  assert (Houtcome : forall label message persona,
    exists rs,
      recipes_outcome env label message persona response w = (Return rs, w)
      /\ length rs = length items
      /\ forall i o k, items !! i = Some (JObj o) -> k <> "chefPersonality" ->
           exists r : RecipeObject, rs !! i = Some r /\ r !! k = o !! k).
  { intros label message persona.
    exists (List.map (with_personality persona) items). split; [| split].
    - unfold recipes_outcome. cbv zeta. now rewrite Ht, Hparse, Hitems.
    - apply length_map.
    - intros i o k Hi Hk. exists (with_personality persona (JObj o)). split.
      + change (List.map (with_personality persona) items)
          with (with_personality persona <$> items).
        now rewrite list_lookup_fmap, Hi.
      + unfold with_personality. cbn [spread]. now apply lookup_insert_ne. }
  split.
  - intros ingredients preference x persona f s Hcall.
    rewrite (generateRecipes_run _ _ _ _ _ _ _ _ _ _ Hcall). apply Houtcome.
  - intros request Hcall.
    rewrite (reinventRecipe_run _ _ _ _ _ Hcall). apply Houtcome.
Qed.

Lemma recipes_one_for_each_witness :
  exists rs,
    generateRecipes (answering (Some payload_mixed_recipes) more_payloads)
      sample_enums ["egg"] "None" None (Some "michelin") None None start
    = (Return rs, start)
    /\ length rs = 2
    /\ forall i o k,
         [JNull; JObj {["recipeName" := JStr "Dal"]}] !! i = Some (JObj o) ->
         k <> "chefPersonality" ->
         exists r : RecipeObject, rs !! i = Some r /\ r !! k = o !! k.
Proof.
  apply (proj1 (recipes_one_for_each
                  (answering (Some payload_mixed_recipes) more_payloads) sample_enums
                  {| response_text := Some payload_mixed_recipes |}
                  payload_mixed_recipes
                  {["recipes" := JArr [JNull; JObj {["recipeName" := JStr "Dal"]}]]}
                  [JNull; JObj {["recipeName" := JStr "Dal"]}] start
                  eq_refl eq_refl eq_refl)).
  reflexivity.
Defined.

(** X8: the stamp of the persona, [{...recipe, chefPersonality}]: it replaces
    what the recipe had under [chefPersonality] and keeps every other field;
    stamping twice is stamping with the last persona; an element that is
    null, a boolean or a number becomes an object with the persona alone. *)
Theorem with_personality_stamp (p q : string) (o : gmap string JSON) :
  with_personality p (JObj o) !! "chefPersonality" = Some (JStr p)
  /\ (forall k, k <> "chefPersonality" -> with_personality p (JObj o) !! k = o !! k)
  /\ with_personality p (JObj (with_personality q (JObj o))) = with_personality p (JObj o)
  /\ with_personality p JNull = {["chefPersonality" := JStr p]}
  /\ (forall b, with_personality p (JBool b) = {["chefPersonality" := JStr p]})
  /\ (forall n, with_personality p (JNum n) = {["chefPersonality" := JStr p]}).
Proof.
  unfold with_personality. cbn [spread]. repeat split.
  - apply lookup_insert_eq.
  - intros k Hk. now apply lookup_insert_ne.
  - apply insert_insert_eq.
Qed.

(** ** The cooking schedule *)

(** X9: on a response without text, on a text that does not parse and on the
    payload [null], [generateCookingSchedule] throws an error whose message
    is the fixed text [Could not parse cooking schedule data from AI.], after
    one line on the console. *)
Theorem generateCookingSchedule_parse_error (env : Env) (request : CookingPathRequest)
    (response : GenerateContentResponse) (w : World) :
  generateContent env (schedule_request request) = Return response ->
  response_text response = None
  \/ (exists t, response_text response = Some t
                /\ (JSON_parse env (trim t) = None \/ JSON_parse env (trim t) = Some JNull)) ->
  generateCookingSchedule env request w
  = (Throw (Error "Could not parse cooking schedule data from AI."),
     logged w "Failed to parse cooking schedule from Gemini response:"
            (LogText (response_text response))).
Proof.
  intros Hcall Hbad. rewrite (generateCookingSchedule_run _ _ _ _ Hcall). cbv zeta.
  destruct Hbad as [-> | (t & -> & [-> | ->])]; reflexivity.
Qed.

Lemma generateCookingSchedule_parse_error_witness :
  generateCookingSchedule (answering (Some "null") more_payloads)
    sample_schedule_request start
  = (Throw (Error "Could not parse cooking schedule data from AI."),
     logged start "Failed to parse cooking schedule from Gemini response:"
            (LogText (Some "null"))).
Proof.
  apply (generateCookingSchedule_parse_error (answering (Some "null") more_payloads)
           sample_schedule_request {| response_text := Some "null" |}).
  - reflexivity.
  - right. exists "null". split; [reflexivity |]. right. reflexivity.
Defined.

(** X10: every payload that parses to something else than [null] gives a
    schedule, and nothing is written to the console: no field is required.
    The five fields taken from the response hold what an object payload has
    under their names, and are all undefined for a payload that is not an
    object (an array, a string, a number, a boolean). *)
Theorem generateCookingSchedule_unchecked (env : Env) (request : CookingPathRequest)
    (response : GenerateContentResponse) (t : string) (v : JSON) (w : World) :
  generateContent env (schedule_request request) = Return response ->
  response_text response = Some t ->
  JSON_parse env (trim t) = Some v ->
  v <> JNull ->
  exists schedule,
    generateCookingSchedule env request w = (Return schedule, w)
    /\ (forall fields, v = JObj fields ->
          response_fields schedule
          = [fields !! "totalTime"; fields !! "servingTime"; fields !! "steps";
             fields !! "efficiencyTips"; fields !! "timelineSummary"])
    /\ ((forall fields, v <> JObj fields) ->
          response_fields schedule = [None; None; None; None; None]).
Proof.
  intros Hcall Ht Hparse Hnull.
  rewrite (generateCookingSchedule_run _ _ _ _ Hcall). cbv zeta. rewrite Ht, Hparse.
  destruct v as [| | | | |fields]; try contradiction;
    eexists; (split; [reflexivity | split]);
    try (intros fields' [=]); try reflexivity.
  - subst. reflexivity.
  - intros Hnot. now destruct (Hnot fields).
Qed.

Lemma generateCookingSchedule_unchecked_witness :
  exists schedule,
    generateCookingSchedule (answering (Some "{}") more_payloads)
      sample_schedule_request start = (Return schedule, start)
    /\ response_fields schedule = [None; None; None; None; None]
    /\ recipes schedule = [sample_dal; sample_rice].
Proof.
  assert (Hnull : JObj ∅ <> JNull) by discriminate.
  destruct (generateCookingSchedule_unchecked (answering (Some "{}") more_payloads)
              sample_schedule_request {| response_text := Some "{}" |} "{}" (JObj ∅)
              start eq_refl eq_refl eq_refl Hnull) as (schedule & Hrun & Hobject & _).
  exists schedule. split; [exact Hrun | split].
  - rewrite (Hobject ∅ eq_refl). reflexivity.
  - vm_compute in Hrun. injection Hrun as <-. reflexivity.
Defined.

(** ** The prompts *)

Lemma getChefPersonalityPrompt_other (E : Enums) (p : string) :
  p <> ChefPersonality_MICHELIN E ->
  p <> ChefPersonality_BUDGET_MOM E ->
  p <> ChefPersonality_QUICK_CHEF E ->
  getChefPersonalityPrompt E p = directive_default.
Proof.
  intros Hm Hb Hq. unfold getChefPersonalityPrompt.
  apply String.eqb_neq in Hm, Hb, Hq. now rewrite Hm, Hb, Hq.
Qed.

(** X11: a persona id that is none of the four is not refused: the prompt
    of [generateRecipes] and the prompt of [reinventRecipe] built for it are
    the prompts built for [ChefPersonality.NORMAL]. *)
Theorem unknown_persona_prompt (E : Enums) (p : string) :
  personas_distinct E ->
  ~ In p [ChefPersonality_MICHELIN E; ChefPersonality_BUDGET_MOM E;
          ChefPersonality_QUICK_CHEF E; ChefPersonality_NORMAL E] ->
  (forall ingredients preference x f s,
     generateRecipes_prompt E ingredients preference x p f s
     = generateRecipes_prompt E ingredients preference x (ChefPersonality_NORMAL E) f s)
  /\ (forall r,
     reinventRecipe_prompt E (with_persona r p)
     = reinventRecipe_prompt E (with_persona r (ChefPersonality_NORMAL E))).
Proof.
  intros Hd Hp.
  assert (Hsame : getChefPersonalityPrompt E p
                  = getChefPersonalityPrompt E (ChefPersonality_NORMAL E)).
  { unfold personas_distinct in Hd. apply NoDup_ListNoDup in Hd.
    inversion_clear Hd as [|? ? Hm Hd1]. inversion_clear Hd1 as [|? ? Hb Hd2].
    inversion_clear Hd2 as [|? ? Hq _]. simpl in Hm, Hb, Hq, Hp.
    rewrite (getChefPersonalityPrompt_other E p) by (intros ->; apply Hp; auto).
    rewrite (getChefPersonalityPrompt_other E (ChefPersonality_NORMAL E));
      [reflexivity | intros Heq; rewrite Heq in *; tauto ..]. }
  split.
  - intros. unfold generateRecipes_prompt. cbv zeta. now rewrite Hsame.
  - intros r. unfold reinventRecipe_prompt. cbv zeta.
    cbn [with_persona rr_chefPersonality]. now rewrite Hsame.
Qed.

Lemma unknown_persona_prompt_witness :
  generateRecipes_prompt sample_enums ["egg"] "Vegan" None "pirate" None None
  = generateRecipes_prompt sample_enums ["egg"] "Vegan" None "normal" None None.
Proof.
  assert (Hd : personas_distinct sample_enums).
  { apply (bool_decide_unpack _). vm_compute. exact I. }
  assert (Hp : ~ In "pirate" [ChefPersonality_MICHELIN sample_enums;
                              ChefPersonality_BUDGET_MOM sample_enums;
                              ChefPersonality_QUICK_CHEF sample_enums;
                              ChefPersonality_NORMAL sample_enums]).
  { simpl. intros [H | [H | [H | [H | []]]]]; discriminate H. }
  exact (proj1 (unknown_persona_prompt sample_enums "pirate" Hd Hp)
           ["egg"] "Vegan" None None None).
Defined.

(** X12: the exclusion clause of [reinventRecipe] follows the rule of
    [generateRecipes]: the prompt is the prompt without exclusion with the
    value of the exclusion slot put in at one fixed place; that value is
    empty when the exclusion string is absent, empty or white space only,
    and is one clause holding the string verbatim otherwise. *)
Theorem reinvent_exclusion_embedding (E : Enums) (r : RecipeReinventionRequest) :
  exists before after,
    (forall x, reinventRecipe_prompt E (with_exclusion r x)
               = before +:+ reinvent_exclusionText (with_exclusion r x) +:+ after)
    /\ reinvent_exclusionText (with_exclusion r None) = EmptyString
    /\ (forall e, nonempty (trim e) = false ->
          reinvent_exclusionText (with_exclusion r (Some e)) = EmptyString)
    /\ (forall e, nonempty (trim e) = true ->
          reinvent_exclusionText (with_exclusion r (Some e)) = exclusion_clause e).
Proof.
  exists (reinvent_text_0 +:+ getChefPersonalityPrompt E (rr_chefPersonality r)
          +:+ reinvent_text_1 +:+ rr_dishName r
          +:+ reinvent_text_2 +:+ rr_dishName r
          +:+ reinvent_text_3 +:+ rr_dishName r
          +:+ reinvent_text_4
          +:+ (if truthy_str (rr_dietaryPreference r)
               then default EmptyString (rr_dietaryPreference r)
               else "no specific preference")),
         (reinvent_flavorText E r +:+ reinvent_styleText E r
          +:+ reinvent_text_5 +:+ rr_dishName r +:+ reinvent_text_6).
  assert (Hsame : forall x, reinvent_exclusionText (with_exclusion r x) = exclusionText x)
    by reflexivity.
  split; [| split; [| split]].
  - intros x. unfold reinventRecipe_prompt. cbv zeta.
    cbn [with_exclusion rr_dishName rr_chefPersonality rr_dietaryPreference].
    unfold reinvent_flavorText, reinvent_styleText.
    cbn [with_exclusion rr_flavorProfile rr_recipeStyle].
    now rewrite !append_assoc.
  - reflexivity.
  - intros e He. now rewrite Hsame, exclusionText_spec, He.
  - intros e He. now rewrite Hsame, exclusionText_spec, He.
Qed.

Lemma reinvent_exclusion_embedding_witness :
  reinvent_exclusionText (with_exclusion sample_reinvention (Some "peanuts"))
  = exclusion_clause "peanuts"
  /\ reinvent_exclusionText (with_exclusion sample_reinvention (Some "  ")) = EmptyString.
Proof.
  destruct (reinvent_exclusion_embedding sample_enums sample_reinvention)
    as (before & after & _ & _ & Hblank & Hclause).
  split; [apply Hclause | apply Hblank]; reflexivity.
Defined.

(** X13: the dietary preference in the prompts.  [generateRecipes] writes
    [no specific preference] for the preference [None]; [reinventRecipe]
    writes it for an absent or empty preference, and has no rule for the
    word [None], which it writes as it is. *)
Theorem default_preference (E : Enums) :
  (forall ingredients x p f s,
     generateRecipes_prompt E ingredients "None" x p f s
     = generateRecipes_prompt E ingredients "no specific preference" x p f s)
  /\ (forall r,
     reinventRecipe_prompt E (with_dietary r None)
     = reinventRecipe_prompt E (with_dietary r (Some "no specific preference"))
     /\ reinventRecipe_prompt E (with_dietary r (Some EmptyString))
        = reinventRecipe_prompt E (with_dietary r None)
     /\ reinventRecipe_prompt E (with_dietary r (Some "None"))
        <> reinventRecipe_prompt E (with_dietary r None)).
Proof.
  split; [reflexivity |].
  intros r. split; [reflexivity | split; [reflexivity |]].
  unfold reinventRecipe_prompt. cbv zeta.
  cbn [with_dietary rr_dishName rr_chefPersonality rr_dietaryPreference truthy_str
       nonempty default from_option].
  intros H.
  repeat match type of H with
         | ?a +:+ _ = ?a +:+ _ => apply (String.app_inj a) in H
         end.
  discriminate H.
Qed.

(** ** The presentation style *)

(** X14: the presentation phrase is the phrase of the first entry of the
    ordered table (salad; soup, broth; pasta, noodle; steak, chicken, fish;
    curry, stew; sandwich, burger; pizza; dessert, cake in the name or sugar
    in the ingredients; rice in the ingredients; smoothie, drink) that has a
    keyword in the lower-cased name or ingredients; a name with [salad] wins
    over everything else, and the default phrase is selected when no entry
    matches. *)
Theorem determinePresentationStyle_selection (recipeName : string)
    (ingredients : list string) :
  determinePresentationStyle recipeName ingredients
  = first_presentation presentation_styles (toLowerCase recipeName)
      (toLowerCase (join " " ingredients))
  /\ (includes (toLowerCase recipeName) "salad" = true ->
      determinePresentationStyle recipeName ingredients
      = "fresh greens and colorful vegetables arranged elegantly on a clean white plate")
  /\ (Forall (fun k => includes (toLowerCase recipeName) k = false)
             (concat (List.map (fun entry => fst (fst entry)) presentation_styles)) ->
      Forall (fun k => includes (toLowerCase (join " " ingredients)) k = false)
             (concat (List.map (fun entry => snd (fst entry)) presentation_styles)) ->
      determinePresentationStyle recipeName ingredients
      = "artisanal presentation with modern plating on neutral background").
Proof.
  unfold determinePresentationStyle, first_presentation, presentation_styles.
  set (name := toLowerCase recipeName).
  set (ingredientText := toLowerCase (join " " ingredients)).
  cbn [List.find existsb fst snd List.map concat app orb].
  split; [| split].
  - repeat match goal with
           | |- context [includes ?text ?k] =>
               destruct (includes text k); cbn [orb]; try reflexivity
           end.
  - intros ->. reflexivity.
  - intros Hn Hi.
    repeat match goal with
           | H : Forall _ (_ :: _) |- _ => inversion_clear H
           end.
    repeat match goal with
           | H : includes _ _ = false |- _ => rewrite H; clear H
           end.
    reflexivity.
Qed.

Lemma determinePresentationStyle_selection_witness :
  determinePresentationStyle "Chicken Caesar SALAD" ["sugar"; "rice"]
  = "fresh greens and colorful vegetables arranged elegantly on a clean white plate"
  /\ determinePresentationStyle "Dal" ["lentils"; "cumin"]
     = "artisanal presentation with modern plating on neutral background"
  /\ determinePresentationStyle "CHICKEN TIKKA" ["yogurt"]
     = "tender protein as the centerpiece with sides on a slate board".
Proof.
  split; [| split].
  - destruct (determinePresentationStyle_selection "Chicken Caesar SALAD" ["sugar"; "rice"])
      as (_ & Hsalad & _).
    apply Hsalad. vm_compute. reflexivity.
  - destruct (determinePresentationStyle_selection "Dal" ["lentils"; "cumin"])
      as (_ & _ & Hnone).
    apply Hnone; vm_compute; repeat constructor.
  - destruct (determinePresentationStyle_selection "CHICKEN TIKKA" ["yogurt"])
      as (Htable & _).
    rewrite Htable. vm_compute. reflexivity.
Defined.

(** ** The address asked of the second image service *)

Section PercentEncoding.

Lemma code_bound (c : ascii) : code c < 256.
Proof. unfold code. apply nat_ascii_bounded. Qed.

Lemma code_inj (c : ascii) (n : nat) : code c = n -> c = ascii_of_nat n.
Proof. intros <-. unfold code. now rewrite ascii_nat_embedding. Qed.

Lemma unreserved_not_percent (c : ascii) :
  unreserved c = true -> (code c =? 37)%nat = false.
Proof.
  intros Hc. destruct (code c =? 37)%nat eqn:H; [| reflexivity].
  apply Nat.eqb_eq, code_inj in H. subst c. discriminate Hc.
Qed.

Lemma hex_digit_spec (d : nat) :
  d < 16 -> hex_value (hex_digit d) = Some d /\ unreserved (hex_digit d) = true.
Proof.
  intros Hd. do 16 (destruct d as [|d]; [split; reflexivity |]). lia.
Qed.

Lemma percent_decode_escape (s : string) :
  percent_decode (escape s) = Some s.
Proof.
  induction s as [|c s IH]; [reflexivity |].
  cbn [escape]. destruct (unreserved c) eqn:Hc.
  - cbn [String.append percent_decode]. rewrite (unreserved_not_percent c Hc), IH.
    reflexivity.
  - cbn [String.append percent_decode]. replace (code "%" =? 37)%nat with true by reflexivity.
    pose proof (code_bound c) as Hb.
    destruct (hex_digit_spec (code c / 16)) as [-> _].
    { apply Nat.Div0.div_lt_upper_bound. lia. }
    destruct (hex_digit_spec (code c mod 16)) as [-> _].
    { apply Nat.mod_upper_bound. lia. }
    rewrite IH. cbn [fmap option_fmap option_map]. do 2 f_equal.
    rewrite <- (Nat.div_mod_eq (code c) 16). unfold code. apply ascii_nat_embedding.
Qed.

Lemma chars_append (a b : string) :
  list_ascii_of_string (a +:+ b)
  = (list_ascii_of_string a ++ list_ascii_of_string b)%list.
Proof. induction a as [|c a IH]; simpl; [reflexivity | now rewrite IH]. Qed.

Lemma escape_url_safe (s : string) : url_safe (escape s).
Proof.
  unfold url_safe. induction s as [|c s IH]; [constructor |].
  cbn [escape]. rewrite chars_append. apply Forall_app_2; [| exact IH].
  pose proof (code_bound c) as Hb.
  destruct (unreserved c) eqn:Hc; cbn [list_ascii_of_string].
  - constructor; [now left | constructor].
  - constructor; [now right |].
    constructor; [left; apply hex_digit_spec, Nat.Div0.div_lt_upper_bound; lia |].
    constructor; [left; apply hex_digit_spec, Nat.mod_upper_bound; lia | constructor].
Qed.

End PercentEncoding.

(** X15: the address asked of the second image service.  When the name and
    the first three ingredients have no surrogate without its partner, they
    stand in the address as one path segment of unreserved marks and percent
    escapes, with no space, slash, question mark, equals sign, ampersand or
    hash of their own, so that the name cannot add to the query; decoding the
    segment gives back the text that was encoded, and the image that the
    service gives for this address is what the second tier returns.  When
    they have such a surrogate, [encodeURIComponent] throws: no address is
    made, no random number is drawn and no request is sent, and the second
    tier makes the placeholder after one line on the console. *)
Theorem fallback_url_segment (env : Env) (recipe : ImageRecipe) :
  (well_formed (fallback_prompt_text recipe) = true ->
   exists segment,
     encodeURIComponent (fallback_prompt_text recipe) = Return segment
     /\ url_safe segment
     /\ Forall (fun c => ~ In c [" "; "/"; "?"; "="; "&"; "#"]%char)
               (list_ascii_of_string segment)
     /\ percent_decode segment = Some (fallback_prompt_text recipe)
     /\ forall w img,
          fetch env
            (GET ("https://image.pollinations.ai/prompt/" +:+ segment
                  +:+ "?width=512&height=512&seed=" +:+ pretty (random_seed env (draws w))))
            (fetches w)
          = Some {| ok := true; image := Some img |} ->
          generateRecipeImageFallback env recipe w = (Return img, sent (drew w)))
  /\ (well_formed (fallback_prompt_text recipe) = false ->
      encodeURIComponent (fallback_prompt_text recipe) = Throw URIError
      /\ forall w,
           generateRecipeImageFallback env recipe w
           = generatePlaceholderImage env (recipeName recipe)
               (logged w "Error with fallback image generation:" (LogExn URIError))).
Proof.
  split; intros Hwf.
  - exists (escape (fallback_prompt_text recipe)).
    split; [unfold encodeURIComponent; now rewrite Hwf |].
    split; [apply escape_url_safe |].
    split; [| split; [apply percent_decode_escape |]].
    + eapply Forall_impl; [apply escape_url_safe |].
      intros c [Hc | ->] Hin; simpl in Hin.
      * repeat (destruct Hin as [<- | Hin]; [discriminate Hc |]). contradiction.
      * repeat (destruct Hin as [H | Hin]; [discriminate H |]). contradiction.
    + intros w img Hanswer. now apply fallback_image.
  - split; [unfold encodeURIComponent; now rewrite Hwf |].
    intros w. now apply fallback_unencodable.
Qed.

Lemma fallback_url_segment_witness :
  (exists segment,
     encodeURIComponent (fallback_prompt_text creme_brulee) = Return segment
     /\ percent_decode segment = Some (fallback_prompt_text creme_brulee)
     /\ includes segment "Cr%C3%A8me%20Br%C3%BBl%C3%A9e%20with%204%20egg%20yolks" = true)
  /\ encodeURIComponent (fallback_prompt_text torn_cake) = Throw URIError
  /\ generateRecipeImageFallback (browser second_answers) torn_cake start
     = (Return "data:image/jpeg;base64,2",
        {| console := [("Error with fallback image generation:", LogExn URIError)];
           fetches := 0; draws := 0 |}).
Proof.
  destruct (fallback_url_segment (browser second_answers) creme_brulee) as [Hgood _].
  destruct (fallback_url_segment (browser second_answers) torn_cake) as [_ Hbad].
  split; [| split].
  - destruct (Hgood eq_refl) as (segment & Hencode & _ & _ & Hdecode & _).
    exists segment. split; [exact Hencode | split; [exact Hdecode |]].
    vm_compute in Hencode. injection Hencode as <-. vm_compute. reflexivity.
  - exact (proj1 (Hbad eq_refl)).
  - rewrite (proj2 (Hbad eq_refl) start). vm_compute. reflexivity.
Defined.

(** ** The vector placeholder *)

Section Base64.

#[local] Ltac Zify.zify_post_hook ::= Z.to_euclidean_division_equations.

Lemma b64_digit_spec (v : N) :
  (v < 64)%N ->
  exists c, b64_digit v = String c EmptyString
            /\ b64_value c = Some v
            /\ (code c =? 61)%nat = false.
Proof.
  intros Hv. rewrite <- (N2Nat.id v).
  assert (Hn : N.to_nat v < 64) by lia.
  generalize dependent (N.to_nat v). intros n Hn.
  do 64 (destruct n as [|n];
         [eexists; split; [reflexivity | split; reflexivity] |]).
  lia.
Qed.

Lemma list_ind3 {A} (P : list A -> Prop) :
  P [] -> (forall a, P [a]) -> (forall a b, P [a; b]) ->
  (forall a b c r, P r -> P (a :: b :: c :: r)) ->
  forall l, P l.
Proof.
  intros H0 H1 H2 H3 l.
  assert (H : P l /\ (forall a, P (a :: l)) /\ (forall a b, P (a :: b :: l))).
  { induction l as [|x l (IH0 & IH1 & IH2)]; [now auto |].
    split; [apply IH1 | split; [intros a; apply IH2 |]]. intros a b. now apply H3. }
  apply H.
Qed.

Lemma base64_decode_encode (l : list N) :
  Forall (fun x => (x < 256)%N) l -> base64_decode (base64 l) = Some l.
Proof.
  induction l as [| a | a b | a b c r IH] using list_ind3; intros Hl.
  - reflexivity.
  - inversion_clear Hl as [|? ? Ha _]. cbn [base64].
    destruct (b64_digit_spec (a * 65536 / 262144)) as (c0 & -> & H0 & _); [lia |].
    destruct (b64_digit_spec (a * 65536 / 4096 mod 64)) as (c1 & -> & H1 & _); [lia |].
    cbn [String.append base64_decode]. rewrite H0, H1.
    cbn [code nat_of_ascii Nat.eqb andb nonempty negb]. do 2 f_equal. lia.
  - inversion_clear Hl as [|? ? Ha Hl']. inversion_clear Hl' as [|? ? Hb _].
    cbn [base64].
    destruct (b64_digit_spec ((a * 65536 + b * 256) / 262144)) as (c0 & -> & H0 & _);
      [lia |].
    destruct (b64_digit_spec ((a * 65536 + b * 256) / 4096 mod 64))
      as (c1 & -> & H1 & _); [lia |].
    destruct (b64_digit_spec ((a * 65536 + b * 256) / 64 mod 64))
      as (c2 & -> & H2 & Hp2); [lia |].
    cbn [String.append base64_decode]. rewrite H0, H1, H2, Hp2.
    cbn [code nat_of_ascii Nat.eqb andb nonempty negb]. do 2 f_equal; [lia |].
    f_equal. lia.
  - inversion_clear Hl as [|? ? Ha Hl']. inversion_clear Hl' as [|? ? Hb Hl''].
    inversion_clear Hl'' as [|? ? Hc Hr]. cbn [base64].
    destruct (b64_digit_spec ((a * 65536 + b * 256 + c) / 262144))
      as (c0 & -> & H0 & _); [lia |].
    destruct (b64_digit_spec ((a * 65536 + b * 256 + c) / 4096 mod 64))
      as (c1 & -> & H1 & _); [lia |].
    destruct (b64_digit_spec ((a * 65536 + b * 256 + c) / 64 mod 64))
      as (c2 & -> & H2 & Hp2); [lia |].
    destruct (b64_digit_spec ((a * 65536 + b * 256 + c) mod 64))
      as (c3 & -> & H3 & Hp3); [lia |].
    cbn [String.append base64_decode]. rewrite H0, H1, H2, H3, Hp2, Hp3, (IH Hr).
    do 2 f_equal; [lia |]. f_equal; [lia |]. f_equal. lia.
Qed.

End Base64.

Section Latin1.

Lemma string_ind2 (P : string -> Prop) :
  P EmptyString -> (forall c, P (String c EmptyString)) ->
  (forall c d s, P s -> P (String d s) -> P (String c (String d s))) ->
  forall s, P s.
Proof.
  intros H0 H1 H2 s.
  assert (H : P s /\ forall c, P (String c s)).
  { induction s as [|d s [IH0 IH1]]; [now auto |].
    split; [apply IH1 |]. intros c. now apply H2. }
  apply H.
Qed.

(** The three ways [latin1] reads the start of a text. *)
Lemma latin1_ascii (c : ascii) (s : string) :
  (N_of_ascii c <? 128)%N = true ->
  latin1 (String c s) = cons (N_of_ascii c) <$> latin1 s.
Proof. intros H. cbn [latin1]. now rewrite H. Qed.

Lemma latin1_pair (c d : ascii) (s : string) :
  (N_of_ascii c <? 128)%N = false ->
  latin1 (String c (String d s))
  = if ((N_of_ascii c =? 194)%N || (N_of_ascii c =? 195)%N)
       && ((128 <=? N_of_ascii d)%N && (N_of_ascii d <=? 191)%N)
    then cons ((N_of_ascii c - 194) * 64 + N_of_ascii d)%N <$> latin1 s
    else None.
Proof.
  intros H. cbn [latin1]. rewrite H.
  now destruct ((N_of_ascii c =? 194)%N || (N_of_ascii c =? 195)%N).
Qed.

Lemma latin1_lone (c : ascii) :
  (N_of_ascii c <? 128)%N = false -> latin1 (String c EmptyString) = None.
Proof.
  intros H. cbn [latin1]. rewrite H.
  now destruct ((N_of_ascii c =? 194)%N || (N_of_ascii c =? 195)%N).
Qed.

Lemma latin1_append (a b : string) (la lb : list N) :
  latin1 a = Some la -> latin1 b = Some lb ->
  latin1 (a +:+ b) = Some (la ++ lb)%list.
Proof.
  intros Ha Hb. revert la Ha.
  induction a as [| c | c d a IH0 IH1] using string_ind2; intros la Ha.
  - injection Ha as <-. exact Hb.
  - destruct (N_of_ascii c <? 128)%N eqn:Hc.
    + rewrite (latin1_ascii c _ Hc) in Ha. injection Ha as <-.
      change (String c EmptyString +:+ b) with (String c b).
      now rewrite (latin1_ascii c _ Hc), Hb.
    + now rewrite (latin1_lone c Hc) in Ha.
  - change (String c (String d a) +:+ b) with (String c (String d (a +:+ b))).
    destruct (N_of_ascii c <? 128)%N eqn:Hc.
    + rewrite (latin1_ascii c _ Hc) in Ha. rewrite (latin1_ascii c _ Hc).
      destruct (latin1 (String d a)) as [l|] eqn:Hl; [| discriminate].
      injection Ha as <-.
      change (String d (a +:+ b)) with (String d a +:+ b).
      now rewrite (IH1 l eq_refl).
    + rewrite (latin1_pair c d _ Hc) in Ha. rewrite (latin1_pair c d _ Hc).
      destruct (_ && _); [| discriminate].
      destruct (latin1 a) as [l|] eqn:Hl; [| discriminate].
      injection Ha as <-. now rewrite (IH0 l eq_refl).
Qed.

(** A text that starts with an ASCII character, or is empty, cannot complete
    a character that the text before it left open. *)
Lemma latin1_none_append (a b : string) :
  latin1 a = None ->
  match b with
  | EmptyString => True
  | String e _ => (N_of_ascii e <? 128)%N = true
  end ->
  latin1 (a +:+ b) = None.
Proof.
  intros Ha Hb.
  induction a as [| c | c d a IH0 IH1] using string_ind2.
  - discriminate.
  - destruct (N_of_ascii c <? 128)%N eqn:Hc.
    + now rewrite (latin1_ascii c _ Hc) in Ha.
    + change (String c EmptyString +:+ b) with (String c b).
      destruct b as [|e b]; [now apply latin1_lone |].
      rewrite (latin1_pair c e _ Hc). apply N.ltb_lt in Hb.
      replace ((128 <=? N_of_ascii e)%N) with false by (symmetry; apply N.leb_gt; lia).
      now rewrite andb_false_r.
  - change (String c (String d a) +:+ b) with (String c (String d (a +:+ b))).
    destruct (N_of_ascii c <? 128)%N eqn:Hc.
    + rewrite (latin1_ascii c _ Hc) in Ha. rewrite (latin1_ascii c _ Hc).
      destruct (latin1 (String d a)) as [l|] eqn:Hl; [discriminate |].
      change (String d (a +:+ b)) with (String d a +:+ b).
      now rewrite IH1.
    + rewrite (latin1_pair c d _ Hc) in Ha. rewrite (latin1_pair c d _ Hc).
      destruct (_ && _); [| reflexivity].
      destruct (latin1 a) as [l|] eqn:Hl; [discriminate |].
      now rewrite IH0.
Qed.

(** After a text of ASCII characters, what follows is read from its start. *)
Lemma latin1_ascii_append (a b : string) (la : list N) :
  latin1 a = Some la -> Forall (fun x => (x < 128)%N) la -> latin1 b = None ->
  latin1 (a +:+ b) = None.
Proof.
  intros Ha Hla Hb. revert la Ha Hla.
  induction a as [|c a IH]; intros la Ha Hla; [exact Hb |].
  change (String c a +:+ b) with (String c (a +:+ b)).
  destruct (N_of_ascii c <? 128)%N eqn:Hc.
  - rewrite (latin1_ascii c _ Hc) in Ha. rewrite (latin1_ascii c _ Hc).
    destruct (latin1 a) as [l|] eqn:Hl; [| discriminate].
    injection Ha as <-. inversion_clear Hla. now rewrite (IH l eq_refl).
  - exfalso. destruct a as [|d a]; [now rewrite (latin1_lone c Hc) in Ha |].
    rewrite (latin1_pair c d _ Hc) in Ha.
    destruct ((N_of_ascii c =? 194)%N || (N_of_ascii c =? 195)%N) eqn:Hlead;
      [| discriminate].
    destruct ((128 <=? N_of_ascii d)%N && (N_of_ascii d <=? 191)%N) eqn:Hd;
      [| discriminate].
    destruct (latin1 a) as [l|]; [| discriminate].
    injection Ha as <-. inversion_clear Hla as [|? ? Hx _].
    apply andb_true_iff in Hd as [Hd _]. apply N.leb_le in Hd.
    apply orb_true_iff in Hlead as [Hlead | Hlead]; apply N.eqb_eq in Hlead; lia.
Qed.

Lemma latin1_bound (s : string) (l : list N) :
  latin1 s = Some l -> Forall (fun x => (x < 256)%N) l.
Proof.
  revert l. induction s as [| c | c d s IH0 IH1] using string_ind2; intros l Hs.
  - injection Hs as <-. constructor.
  - destruct (N_of_ascii c <? 128)%N eqn:Hc.
    + rewrite (latin1_ascii c _ Hc) in Hs. injection Hs as <-.
      apply N.ltb_lt in Hc. repeat constructor. lia.
    + now rewrite (latin1_lone c Hc) in Hs.
  - destruct (N_of_ascii c <? 128)%N eqn:Hc.
    + rewrite (latin1_ascii c _ Hc) in Hs.
      destruct (latin1 (String d s)) as [l'|] eqn:Hl; [| discriminate].
      injection Hs as <-. apply N.ltb_lt in Hc. constructor; [lia | now apply IH1].
    + rewrite (latin1_pair c d _ Hc) in Hs.
      destruct ((N_of_ascii c =? 194)%N || (N_of_ascii c =? 195)%N) eqn:Hlead;
        [| discriminate].
      destruct ((128 <=? N_of_ascii d)%N && (N_of_ascii d <=? 191)%N) eqn:Hd;
        [| discriminate].
      destruct (latin1 s) as [l'|] eqn:Hl; [| discriminate].
      injection Hs as <-. constructor; [| now apply IH0].
      apply andb_true_iff in Hd as [_ Hd]. apply N.leb_le in Hd.
      apply orb_true_iff in Hlead as [Hlead | Hlead]; apply N.eqb_eq in Hlead; lia.
Qed.

End Latin1.

(** X16: the placeholder made without a drawing context.  For a name with no
    character above U+00FF it is a [data:] URL in base 64 that decodes to the
    vector image with the name, character for character, between the two
    fixed texts; for a name with such a character nothing is returned: the
    exception of [btoa] is thrown. *)
Theorem generatePlaceholderImage_vector (env : Env) (recipeName : string) (w : World) :
  context2d env = false ->
  (forall units, latin1 recipeName = Some units ->
     exists encoded head tail,
       generatePlaceholderImage env recipeName w
       = (Return ("data:image/svg+xml;base64," +:+ encoded), w)
       /\ latin1 svg_text_0 = Some head
       /\ latin1 svg_text_1 = Some tail
       /\ base64_decode encoded = Some (head ++ units ++ tail)%list)
  /\ (latin1 recipeName = None ->
      generatePlaceholderImage env recipeName w = (Throw InvalidCharacterError, w)).
Proof.
  intros Hctx. rewrite (generatePlaceholderImage_svg env recipeName w Hctx).
  destruct (latin1 svg_text_0) as [head|] eqn:Hhead; [| vm_compute in Hhead; discriminate].
  destruct (latin1 svg_text_1) as [tail|] eqn:Htail; [| vm_compute in Htail; discriminate].
  split.
  - intros units Hunits.
    pose proof (latin1_append _ _ _ _ Hunits Htail) as Hrest.
    pose proof (latin1_append _ _ _ _ Hhead Hrest) as Hall.
    rewrite Hall. exists (base64 (head ++ units ++ tail)%list), head, tail.
    repeat split. apply base64_decode_encode. now apply latin1_bound in Hall.
  - intros Hname.
    assert (Hrest : latin1 (recipeName +:+ svg_text_1) = None).
    { apply latin1_none_append; [exact Hname | reflexivity]. }
    rewrite (latin1_ascii_append svg_text_0 _ head Hhead); [reflexivity | | exact Hrest].
    vm_compute in Hhead. injection Hhead as <-.
    apply Forall_forall. intros x Hx. apply list_elem_of_In in Hx.
    repeat (destruct Hx as [<- | Hx]; [reflexivity |]). contradiction.
Qed.

Lemma generatePlaceholderImage_vector_witness :
  (exists encoded units,
     generatePlaceholderImage offline "Crème Brûlée" start
     = (Return ("data:image/svg+xml;base64," +:+ encoded), start)
     /\ base64_decode encoded = Some units
     /\ length units = 620)
  /\ generatePlaceholderImage offline "Mom’s Dal" start
     = (Throw InvalidCharacterError, start).
Proof.
  destruct (generatePlaceholderImage_vector offline "Crème Brûlée" start eq_refl)
    as [Hlatin _].
  destruct (generatePlaceholderImage_vector offline "Mom’s Dal" start eq_refl)
    as [_ Hhigh].
  split; [| apply Hhigh; reflexivity].
  destruct (latin1 "Crème Brûlée") as [units|] eqn:Hunits;
    [| vm_compute in Hunits; discriminate].
  destruct (Hlatin units eq_refl) as (encoded & head & tail & Hrun & Hh & Ht & Hdecode).
  exists encoded, (head ++ units ++ tail)%list. split; [exact Hrun | split; [exact Hdecode |]].
  vm_compute in Hunits, Hh, Ht.
  injection Hunits as <-. injection Hh as <-. injection Ht as <-. reflexivity.
Defined.

(** ** The fallback chain, tier by tier *)

Section Tiers.

Variable env : Env.

Lemma generatePlaceholderImage_world (recipeName : string) (w : World) :
  snd (generatePlaceholderImage env recipeName w) = w.
Proof.
  destruct (context2d env) eqn:Hctx.
  - unfold generatePlaceholderImage. now rewrite Hctx.
  - rewrite (generatePlaceholderImage_svg env recipeName w Hctx). now destruct (latin1 _).
Qed.

Lemma generatePlaceholderImage_throw (recipeName : string) (w w' : World) (e : Exn) :
  generatePlaceholderImage env recipeName w = (Throw e, w') ->
  context2d env = false /\ e = InvalidCharacterError /\ latin1 recipeName = None.
Proof.
  intros Hrun. destruct (context2d env) eqn:Hctx.
  - unfold generatePlaceholderImage in Hrun. rewrite Hctx in Hrun. discriminate.
  - rewrite (generatePlaceholderImage_svg env recipeName w Hctx) in Hrun.
    destruct (latin1 (svg_text_0 +:+ recipeName +:+ svg_text_1)) as [l|] eqn:Hall;
      [discriminate |].
    injection Hrun as <- _. repeat split.
    destruct (latin1 recipeName) as [units|] eqn:Hname; [| reflexivity].
    destruct (latin1 svg_text_0) as [head|] eqn:Hhead;
      [| vm_compute in Hhead; discriminate].
    destruct (latin1 svg_text_1) as [tail|] eqn:Htail;
      [| vm_compute in Htail; discriminate].
    pose proof (latin1_append _ _ _ _ Hname Htail) as Hrest.
    pose proof (latin1_append _ _ _ _ Hhead Hrest) as Hsome.
    congruence.
Qed.

(** The second tier: at most one draw and one request. *)
Lemma fallback_world (recipe : ImageRecipe) (w : World) :
  fetches w <= fetches (snd (generateRecipeImageFallback env recipe w)) <= S (fetches w)
  /\ draws w <= draws (snd (generateRecipeImageFallback env recipe w)) <= S (draws w).
Proof.
  destruct (fallback_shape env recipe w) as [(img & ->) | (e0 & w1 & Hf & Hd & ->)].
  - cbn [snd fetches draws sent drew]. lia.
  - rewrite generatePlaceholderImage_world. cbn [fetches draws logged]. lia.
Qed.

Lemma fallback_throw (recipe : ImageRecipe) (w w' : World) (e : Exn) :
  generateRecipeImageFallback env recipe w = (Throw e, w') ->
  context2d env = false /\ e = InvalidCharacterError
  /\ latin1 (recipeName recipe) = None.
Proof.
  intros Hrun.
  destruct (fallback_shape env recipe w) as [(img & H) | (e0 & w1 & _ & _ & H)];
    rewrite H in Hrun; [discriminate |].
  now apply generatePlaceholderImage_throw in Hrun.
Qed.

(** The first tier: one request, and then an image or the second tier, which
    is entered a second time when it threw inside the [try] block. *)
Lemma chain_shape (recipe : ImageRecipe) (w : World) :
  (exists img, generateRecipeImage env recipe w = (Return img, sent w))
  \/ (exists w1, fetches w1 = S (fetches w) /\ draws w1 = draws w
                 /\ generateRecipeImage env recipe w
                    = generateRecipeImageFallback env recipe w1)
  \/ (exists e w1 w2, fetches w1 = S (fetches w) /\ draws w1 = draws w
                      /\ generateRecipeImageFallback env recipe w1 = (Throw e, w2)
                      /\ generateRecipeImage env recipe w
                         = generateRecipeImageFallback env recipe
                             (logged w2 "Error generating image with Hugging Face:"
                                     (LogExn e))).
Proof.
  destruct (image_or_none (fetch env (primary_request recipe) (fetches w)))
    as [(img & Hanswer) | Hnone].
  - left. exists img. unfold generateRecipeImage, try_catch, mbind, M_bind, do_fetch,
      blobToBase64, mret, M_ret. now rewrite Hanswer.
  - right.
    destruct (primary_hands_over env recipe w Hnone) as [H | [(e & H) | (e & w2 & Hf & H)]].
    + left. exists (sent w). auto.
    + left. eexists. split; [| split; [| exact H]]; reflexivity.
    + right. exists e, (sent w), w2. auto.
Qed.

End Tiers.

(** X17: when the first image service gives an image, that image is returned
    after this one request: the second service is not asked, no random number
    is drawn and nothing is written to the console. *)
Theorem generateRecipeImage_first_service (env : Env) (recipe : ImageRecipe)
    (w : World) (img : string) :
  fetch env (primary_request recipe) (fetches w)
  = Some {| ok := true; image := Some img |} ->
  generateRecipeImage env recipe w = (Return img, sent w).
Proof.
  intros Hanswer.
  unfold generateRecipeImage, try_catch, mbind, M_bind, do_fetch, blobToBase64,
    mret, M_ret.
  now rewrite Hanswer.
Qed.

Lemma generateRecipeImage_first_service_witness :
  generateRecipeImage (browser first_answers) creme_brulee start
  = (Return "data:image/png;base64,iVBORw0KGgo=", sent start).
Proof.
  apply (generateRecipeImage_first_service (browser first_answers) creme_brulee start).
  reflexivity.
Defined.

(** X18: when the first image service gives no image (the request is
    refused, the status is not a success or the body cannot be read) and the
    second one has an image for the address of the recipe.  If the name and
    the first three ingredients have no surrogate without its partner, that
    image is returned and nothing is thrown, after two requests and one
    random draw.  If they have one, the second service is not asked, though
    it would answer: with a drawing context the placeholder drawn for the
    name is returned after the one request of the first tier and no random
    draw, and the last line on the console is the error of
    [encodeURIComponent]. *)
Theorem generateRecipeImage_second_service_image (env : Env) (recipe : ImageRecipe)
    (w : World) (img : string) :
  no_image (fetch env (primary_request recipe) (fetches w)) ->
  fetch env (fallback_request recipe (random_seed env (draws w))) (S (fetches w))
  = Some {| ok := true; image := Some img |} ->
  (well_formed (fallback_prompt_text recipe) = true ->
   exists w',
     generateRecipeImage env recipe w = (Return img, w')
     /\ fetches w' = S (S (fetches w))
     /\ draws w' = S (draws w))
  /\ (well_formed (fallback_prompt_text recipe) = false ->
      context2d env = true ->
      exists w' before,
        generateRecipeImage env recipe w
        = (Return (toDataURL env (placeholder_canvas env (recipeName recipe))
                     "image/jpeg" (8 # 10)%Q), w')
        /\ fetches w' = S (fetches w)
        /\ draws w' = draws w
        /\ console w'
           = (before ++ [("Error with fallback image generation:", LogExn URIError)])%list).
Proof.
  intros Hprimary Hsecondary. split.
  - intros Hwf. now apply generateRecipeImage_secondary.
  - intros Hwf Hctx.
    assert (Hfallback : forall w0,
               generateRecipeImageFallback env recipe w0
               = (Return (toDataURL env (placeholder_canvas env (recipeName recipe))
                            "image/jpeg" (8 # 10)%Q),
                  logged w0 "Error with fallback image generation:" (LogExn URIError))).
    { intros w0. rewrite (fallback_unencodable env recipe w0 Hwf).
      unfold generatePlaceholderImage. now rewrite Hctx. }
    destruct (primary_hands_over env recipe w Hprimary)
      as [H | [(e & H) | (e & w2 & Hf & _)]].
    + rewrite H, Hfallback. eexists _, _. repeat split.
    + rewrite H, Hfallback. eexists _, _. repeat split.
    + rewrite Hfallback in Hf. discriminate.
Qed.

Lemma generateRecipeImage_second_service_image_witness :
  (exists w',
     generateRecipeImage (browser second_answers) creme_brulee start
     = (Return "data:image/jpeg;base64,/9j/4AAQSkZJRg==", w')
     /\ fetches w' = 2 /\ draws w' = 1)
  /\ (exists w' before,
     generateRecipeImage (browser second_answers) torn_cake start
     = (Return (toDataURL (browser second_answers)
                  (placeholder_canvas (browser second_answers) (recipeName torn_cake))
                  "image/jpeg" (8 # 10)%Q), w')
     /\ fetches w' = 1
     /\ draws w' = 0
     /\ console w'
        = (before ++ [("Error with fallback image generation:", LogExn URIError)])%list).
Proof.
  assert (Hfirst : forall recipe,
             no_image (fetch (browser second_answers) (primary_request recipe)
                         (fetches start))) by (intros; left; reflexivity).
  split.
  - apply (generateRecipeImage_second_service_image (browser second_answers)
             creme_brulee start _ (Hfirst creme_brulee) eq_refl).
    reflexivity.
  - apply (generateRecipeImage_second_service_image (browser second_answers)
             torn_cake start _ (Hfirst torn_cake) eq_refl); reflexivity.
Defined.

(** X19: with a drawing context [generateRecipeImage] returns an image in
    every world and for every recipe, whatever the image services answer: it
    throws nothing, and sends one or two requests. *)
Theorem generateRecipeImage_total_with_context (env : Env) (recipe : ImageRecipe)
    (w : World) :
  context2d env = true ->
  exists img w',
    generateRecipeImage env recipe w = (Return img, w')
    /\ fetches w < fetches w' <= fetches w + 2.
Proof.
  intros Hctx.
  destruct (chain_shape env recipe w)
    as [(img & H) | [(w1 & Hf1 & _ & H) | (e & w1 & w2 & _ & _ & Hthrow & _)]].
  - exists img, (sent w). split; [exact H |]. cbn [fetches sent]. lia.
  - destruct (generateRecipeImageFallback_returns env recipe w1 Hctx) as (img & w' & Hrun).
    exists img, w'. split; [now rewrite H |].
    pose proof (fallback_world env recipe w1) as [Hw _]. rewrite Hrun in Hw.
    cbn [snd] in Hw.
    assert (Hmore : fetches w1 < fetches w' \/ fetches w1 = fetches w') by lia.
    lia.
  - apply fallback_throw in Hthrow as [Hno _]. congruence.
Qed.

Lemma generateRecipeImage_total_with_context_witness :
  exists img w',
    generateRecipeImage (browser (fun _ => None)) moms_dal start = (Return img, w')
    /\ fetches start < fetches w' <= fetches start + 2.
Proof.
  exact (generateRecipeImage_total_with_context (browser (fun _ => None)) moms_dal
           start eq_refl).
Defined.

(** X20: with a drawing context and no image from either service, the value
    returned is the placeholder drawn for the name: a URL of the [data:]
    scheme, made from a canvas of 512 by 512 whose lines of text are the
    characters of the name but its spaces, in order. *)
Theorem generateRecipeImage_drawn_placeholder_for_name (env : Env)
    (recipe : ImageRecipe) (w : World) :
  context2d env = true ->
  (forall request n, no_image (fetch env request n)) ->
  exists img,
    fst (generateRecipeImage env recipe w) = Return img
    /\ img = toDataURL env (placeholder_canvas env (recipeName recipe))
               "image/jpeg" (8 # 10)%Q
    /\ String.prefix "data:" img = true
    /\ canvas_width (placeholder_canvas env (recipeName recipe)) = 512%Z
    /\ canvas_height (placeholder_canvas env (recipeName recipe)) = 512%Z
    /\ unspaced (flat (drawn_text (drawn (placeholder_canvas env (recipeName recipe)))))
       = unspaced (recipeName recipe).
Proof.
  intros Hctx Hnone. eexists. split; [| split; [reflexivity | split; [| split; [| split]]]].
  - now apply generateRecipeImage_placeholder.
  - unfold toDataURL. apply prefix_append.
  - reflexivity.
  - reflexivity.
  - rewrite placeholder_canvas_text. apply wrap_lines_unspaced.
Qed.

Lemma generateRecipeImage_drawn_placeholder_for_name_witness :
  exists img,
    fst (generateRecipeImage (browser (fun _ => None)) moms_dal start) = Return img
    /\ String.prefix "data:" img = true
    /\ unspaced (flat (drawn_text (drawn (placeholder_canvas (browser (fun _ => None))
                                            (recipeName moms_dal)))))
       = unspaced (recipeName moms_dal).
Proof.
  assert (Hnone : forall (request : HttpRequest) (n : nat),
             no_image (fetch (browser (fun _ => None)) request n)) by (intros; exact I).
  destruct (generateRecipeImage_drawn_placeholder_for_name (browser (fun _ => None))
              moms_dal start eq_refl Hnone) as (img & Hrun & _ & Hprefix & _ & _ & Hname).
  exists img. auto.
Defined.

(** X21: [generateRecipeImage] throws in one case only: the browser gives no
    drawing context and the name of the recipe has a character above U+00FF;
    what it throws then is the exception of [btoa]. *)
Theorem generateRecipeImage_throws_only (env : Env) (recipe : ImageRecipe)
    (w w' : World) (e : Exn) :
  generateRecipeImage env recipe w = (Throw e, w') ->
  context2d env = false
  /\ e = InvalidCharacterError
  /\ latin1 (recipeName recipe) = None.
Proof.
  intros Hrun.
  destruct (chain_shape env recipe w)
    as [(img & H) | [(w1 & _ & _ & H) | (e1 & w1 & w2 & _ & _ & _ & H)]];
    rewrite H in Hrun; [discriminate | |]; now apply fallback_throw in Hrun.
Qed.

Lemma generateRecipeImage_throws_only_witness :
  exists e w',
    generateRecipeImage offline moms_dal start = (Throw e, w')
    /\ context2d offline = false
    /\ e = InvalidCharacterError
    /\ latin1 (recipeName moms_dal) = None.
Proof.
  destruct (generateRecipeImage offline moms_dal start) as [[img | e] w'] eqn:Hrun;
    [vm_compute in Hrun; discriminate Hrun |].
  exists e, w'. split; [reflexivity |].
  exact (generateRecipeImage_throws_only offline moms_dal start w' e Hrun).
Defined.

(** X22: a call of [generateRecipeImage] sends at least one request and at
    most three, and draws at most two random numbers; it sends at most two
    requests when the browser gives a drawing context or the name has no
    character above U+00FF. *)
Theorem generateRecipeImage_requests (env : Env) (recipe : ImageRecipe) (w : World) :
  let w' := snd (generateRecipeImage env recipe w) in
  fetches w < fetches w' <= fetches w + 3
  /\ draws w <= draws w' <= draws w + 2
  /\ (context2d env = true \/ latin1 (recipeName recipe) <> None ->
      fetches w' <= fetches w + 2).
Proof.
  cbv zeta.
  destruct (chain_shape env recipe w)
    as [(img & H) | [(w1 & Hf1 & Hd1 & H) | (e & w1 & w2 & Hf1 & Hd1 & Hthrow & H)]];
    rewrite H.
  - cbn [snd fetches draws sent]. lia.
  - destruct (fallback_world env recipe w1) as [Hf Hd]. lia.
  - destruct (fallback_world env recipe w1) as [Hf2 Hd2]. rewrite Hthrow in Hf2, Hd2.
    cbn [snd] in Hf2, Hd2.
    destruct (fallback_world env recipe
                (logged w2 "Error generating image with Hugging Face:" (LogExn e)))
      as [Hf Hd].
    cbn [fetches draws logged] in Hf, Hd.
    apply fallback_throw in Hthrow as (Hctx & _ & Hname).
    repeat split; try lia. intros [Hc | Hn]; [congruence | contradiction].
Qed.

(** X23: what the first tier leaves on the console when the text for the
    second service can be encoded and that service then gives an image.  A
    status that is not a success is passed over in silence; a refused request
    and a body that cannot be read are written to the console, once, before
    the second service is asked. *)
Theorem generateRecipeImage_first_tier_log (env : Env) (recipe : ImageRecipe)
    (w : World) (img : string) :
  well_formed (fallback_prompt_text recipe) = true ->
  fetch env (fallback_request recipe (random_seed env (draws w))) (S (fetches w))
  = Some {| ok := true; image := Some img |} ->
  (forall body,
     fetch env (primary_request recipe) (fetches w) = Some {| ok := false; image := body |} ->
     generateRecipeImage env recipe w = (Return img, sent (drew (sent w))))
  /\ (fetch env (primary_request recipe) (fetches w) = None ->
      generateRecipeImage env recipe w
      = (Return img,
         sent (drew (logged (sent w) "Error generating image with Hugging Face:"
                            (LogExn NetworkError)))))
  /\ (fetch env (primary_request recipe) (fetches w) = Some {| ok := true; image := None |} ->
      generateRecipeImage env recipe w
      = (Return img,
         sent (drew (logged (sent w) "Error generating image with Hugging Face:"
                            (LogExn ReadError))))).
Proof.
  intros Hwf Hsecondary.
  split; [| split].
  - intros body Hprimary.
    unfold generateRecipeImage, try_catch, mbind, M_bind, do_fetch, blobToBase64,
      mret, M_ret.
    rewrite Hprimary. cbn [ok negb].
    now rewrite (fallback_image env recipe (sent w) img Hwf Hsecondary).
  - intros Hprimary.
    unfold generateRecipeImage, try_catch, mbind, M_bind, do_fetch, blobToBase64,
      mret, M_ret, console_error.
    rewrite Hprimary.
    exact (fallback_image env recipe
             (logged (sent w) "Error generating image with Hugging Face:"
                     (LogExn NetworkError)) img Hwf Hsecondary).
  - intros Hprimary.
    unfold generateRecipeImage, try_catch, mbind, M_bind, do_fetch, blobToBase64,
      mret, M_ret, console_error, throw.
    rewrite Hprimary. cbn [ok negb image].
    exact (fallback_image env recipe
             (logged (sent w) "Error generating image with Hugging Face:"
                     (LogExn ReadError)) img Hwf Hsecondary).
Qed.

Lemma generateRecipeImage_first_tier_log_witness :
  generateRecipeImage (browser second_answers) creme_brulee start
  = (Return "data:image/jpeg;base64,/9j/4AAQSkZJRg==", sent (drew (sent start)))
  /\ console (sent (drew (sent start))) = [].
Proof.
  split; [| reflexivity].
  apply (proj1 (generateRecipeImage_first_tier_log (browser second_answers) creme_brulee
                  start "data:image/jpeg;base64,/9j/4AAQSkZJRg==" eq_refl eq_refl) None).
  reflexivity.
Defined.

Example generateRecipeImage_three_requests :
  fetches (snd (generateRecipeImage (headless refusals) moms_dal start)) = 3
  /\ draws (snd (generateRecipeImage (headless refusals) moms_dal start)) = 2.
Proof. vm_compute. split; reflexivity. Qed.

(** ** The canvas of the placeholder *)

Section Wrapping.

Variable env : Env.
Variable font : string.
Variable all : list string.

Lemma wrap_word_ok (st : list string * string) (word : string) :
  In word all ->
  Forall (line_ok env font all) (fst st) ->
  snd st = EmptyString \/ line_ok env font all (snd st) ->
  Forall (line_ok env font all) (fst (wrap_word env font st word))
  /\ line_ok env font all (snd (wrap_word env font st word)).
Proof.
  destruct st as [lines currentLine]. cbn [fst snd]. intros Hword Hlines Hcur.
  unfold wrap_word.
  destruct (negb (Qle_bool _ 400) && nonempty currentLine) eqn:Hwide; cbn [fst snd].
  - apply andb_true_iff in Hwide as [_ Hne]. split; [| now left].
    apply Forall_app_2; [exact Hlines |]. constructor; [| constructor].
    destruct Hcur as [-> | Hcur]; [discriminate | exact Hcur].
  - split; [exact Hlines |].
    apply andb_false_iff in Hwide as [Hfit | Hempty].
    + right. unfold fits. now apply negb_false_iff in Hfit.
    + left. destruct currentLine; [exact Hword | discriminate].
Qed.

Lemma wrap_fold_ok (words : list string) (st : list string * string) :
  (forall word, In word words -> In word all) ->
  Forall (line_ok env font all) (fst st) ->
  snd st = EmptyString \/ line_ok env font all (snd st) ->
  Forall (line_ok env font all) (fst (fold_left (wrap_word env font) words st))
  /\ (snd (fold_left (wrap_word env font) words st) = EmptyString
      \/ line_ok env font all (snd (fold_left (wrap_word env font) words st)))
  /\ (words <> [] ->
      line_ok env font all (snd (fold_left (wrap_word env font) words st))).
Proof.
  revert st. induction words as [|word words IH]; intros st Hall Hlines Hcur.
  - cbn [fold_left]. repeat split; auto. intros H. now destruct H.
  - cbn [fold_left].
    destruct (wrap_word_ok st word) as [Hl Hc]; [apply Hall; now left | auto ..].
    destruct (IH (wrap_word env font st word)) as (H1 & H2 & H3);
      [intros x Hx; apply Hall; now right | exact Hl | now right |].
    repeat split; [exact H1 | exact H2 |]. intros _.
    destruct words as [|word' words]; [exact Hc | apply H3; discriminate].
Qed.

Lemma wrap_fold_length (words : list string) (st : list string * string) :
  length (fst (fold_left (wrap_word env font) words st)) <= length (fst st) + length words.
Proof.
  revert st. induction words as [|word words IH]; intros st; cbn [fold_left length].
  - lia.
  - specialize (IH (wrap_word env font st word)).
    assert (length (fst (wrap_word env font st word)) <= S (length (fst st))).
    { destruct st as [lines currentLine]. unfold wrap_word.
      destruct (negb (Qle_bool _ 400) && nonempty currentLine); cbn [fst].
      - rewrite length_app. cbn [length]. lia.
      - lia. }
    lia.
Qed.

End Wrapping.

Lemma split_space_nonempty (s : string) : split_space s <> [].
Proof.
  destruct s as [|c s]; [discriminate |]. cbn [split_space].
  destruct (code c =? 32)%nat; [discriminate |].
  destruct (split_space s); discriminate.
Qed.

Lemma wrap_fold_fits (env : Env) (font : string) (words : list string)
    (st : list string * string) :
  (forall text, fits env font text) ->
  fst (fold_left (wrap_word env font) words st) = fst st.
Proof.
  intros Hfits. revert st. induction words as [|word words IH]; intros st; [reflexivity |].
  cbn [fold_left]. rewrite IH. destruct st as [lines currentLine]. unfold wrap_word.
  rewrite (Hfits _). reflexivity.
Qed.

(** X24: the lines the name is wrapped into.  There is at least one line and
    at most one line for each word of the name; a line is wider than 400
    only when it is one word of the name standing alone; and when no text is
    wider than 400 the name is drawn on one line. *)
Theorem wrap_lines_shape (env : Env) (font recipeName : string) :
  1 <= length (wrap_lines env font recipeName) <= length (split_space recipeName)
  /\ Forall (line_ok env font (split_space recipeName)) (wrap_lines env font recipeName)
  /\ ((forall text, fits env font text) -> length (wrap_lines env font recipeName) = 1).
Proof.
  unfold wrap_lines.
  pose proof (split_space_nonempty recipeName) as Hwords.
  pose proof (wrap_fold_fits env font (split_space recipeName) ([], EmptyString)) as Hone.
  destruct (split_space recipeName) as [|word words] eqn:Hsplit; [contradiction |].
  destruct (wrap_fold_ok env font (word :: words) (word :: words) ([], EmptyString))
    as (Hlines & _ & Hcur); [auto | constructor | now left |].
  specialize (Hcur Hwords).
  assert (Hlen : length (fst (fold_left (wrap_word env font) (word :: words)
                                ([], EmptyString))) <= length words).
  { cbn [fold_left]. unfold wrap_word at 2. cbn [nonempty andb].
    rewrite andb_false_r.
    pose proof (wrap_fold_length env font words ([], EmptyString +:+ EmptyString +:+ word)).
    cbn [fst length] in *. lia. }
  destruct (fold_left (wrap_word env font) (word :: words) ([], EmptyString))
    as [lines currentLine].
  cbn [fst snd] in *. rewrite length_app. cbn [length]. split; [lia | split].
  - apply Forall_app_2; [exact Hlines |]. constructor; [exact Hcur | constructor].
  - intros Hfits. rewrite (Hone Hfits). reflexivity.
Qed.

Section Layout.

#[local] Ltac Zify.zify_post_hook ::= Z.to_euclidean_division_equations.

Lemma text_positions_imap (g : nat -> string -> DrawOp) (pos : nat -> Z * Z)
    (lines : list string) :
  (forall i line, exists st f a b, g i line = FillText st f a b line (fst (pos i)) (snd (pos i))) ->
  text_positions (imap g lines) = imap (fun i _ => pos i) lines.
Proof.
  revert g pos. induction lines as [|line lines IH]; intros g pos Hg; [reflexivity |].
  cbn [imap]. unfold text_positions. cbn [omap list_omap].
  destruct (Hg 0 line) as (st & f & a & b & ->).
  destruct (pos 0) as [x y] eqn:Hp. cbn [fst snd]. f_equal.
  apply (IH (g ∘ S) (pos ∘ S)). intros i l. apply (Hg (S i) l).
Qed.

(** X25: the layout of the placeholder.  The gradient covers the canvas and
    is drawn first; then each line of the name is drawn once, centred on
    x = 256, 30 apart, and the block of lines is centred on y = 256: line
    [i] of [n] is at y = 256 + 15 (2 i - (n - 1)), a whole number. *)
Theorem placeholder_canvas_layout (env : Env) (recipeName : string) :
  let lines := wrap_lines env "bold 24px Arial" recipeName in
  let n := Z.of_nat (length lines) in
  (exists texts,
     drawn (placeholder_canvas env recipeName)
     = FillRect (LinearGradient 0 0 512 512 [(0%Q, "#ff6b6b"); (1%Q, "#4ecdc4")])
                0 0 512 512 :: texts
     /\ drawn_text texts = lines)
  /\ length (text_positions (drawn (placeholder_canvas env recipeName))) = length lines
  /\ (forall i, i < length lines ->
        text_positions (drawn (placeholder_canvas env recipeName)) !! i
        = Some (256, 256 + 15 * (2 * Z.of_nat i - (n - 1)))%Z)
  /\ (forall i j y1 y2, i + j + 1 = length lines ->
        text_positions (drawn (placeholder_canvas env recipeName)) !! i = Some (256%Z, y1) ->
        text_positions (drawn (placeholder_canvas env recipeName)) !! j = Some (256%Z, y2) ->
        (y1 + y2 = 512)%Z).
Proof.
  cbv zeta.
  set (lines := wrap_lines env "bold 24px Arial" recipeName).
  assert (Hpos : text_positions (drawn (placeholder_canvas env recipeName))
                 = imap (fun i _ => (256, 256 + 15 * (2 * Z.of_nat i
                                             - (Z.of_nat (length lines) - 1)))%Z) lines).
  { unfold placeholder_canvas. cbv zeta. cbn [drawn]. fold lines.
    unfold text_positions at 1. cbn [omap list_omap].
    apply (text_positions_imap _
             (fun i => (256, 256 + 15 * (2 * Z.of_nat i - (Z.of_nat (length lines) - 1)))%Z)).
    intros i line. do 4 eexists. cbn [fst snd]. f_equal. lia. }
  assert (Hlookup : forall i, i < length lines ->
            text_positions (drawn (placeholder_canvas env recipeName)) !! i
            = Some (256, 256 + 15 * (2 * Z.of_nat i - (Z.of_nat (length lines) - 1)))%Z).
  { intros i Hi. rewrite Hpos, list_lookup_imap.
    destruct (lookup_lt_is_Some_2 lines i Hi) as [line ->]. reflexivity. }
  split; [| split; [| split]].
  - eexists. split; [reflexivity |].
    apply drawn_text_imap. intros i line. now repeat eexists.
  - now rewrite Hpos, length_imap.
  - exact Hlookup.
  - intros i j y1 y2 Hij H1 H2.
    rewrite Hlookup in H1 by lia. rewrite Hlookup in H2 by lia.
    injection H1 as <-. injection H2 as <-. lia.
Qed.

End Layout.
